(** * DataSourceOVF: a shallow embedding of cloudinit/sources/DataSourceOVF.py

    The module resolves provisioning metadata of a virtual machine from an
    OVF environment document or from the VMware guest-customization (IMC)
    directory.  Python values are embedded as an inductive type, dicts as
    insertion-ordered association lists, exceptions as a sum type, and the
    stateful workflow as a state-and-exception monad over an explicit world. *)

From Stdlib Require Import ZArith String Ascii.
From stdpp Require Import gmap strings list fin_maps.

Local Open Scope string_scope.
Local Open Scope Z_scope.
Local Open Scope list_scope.

(** ** Python values *)

Set Warnings "-register-all".

(** The values that flow through the module: YAML/JSON scalars, byte
    strings, lists and dicts.  Floating-point numbers are not represented. *)
Inductive pyval :=
| PyNone
| PyBool (b : bool)
| PyInt (z : Z)
| PyStr (s : string)
| PyBytes (s : string)
| PyList (l : list pyval)
| PyDict (d : list (string * pyval)).

(** A dict keeps its keys in insertion order, each key once. *)
Definition dict := list (string * pyval).

(** [bool(v)] *)
Definition truthy (v : pyval) : bool :=
  match v with
  | PyNone => false
  | PyBool b => b
  | PyInt z => negb (z =? 0)
  | PyStr s | PyBytes s => negb (String.eqb s "")
  | PyList l => match l with [] => false | _ => true end
  | PyDict d => match d with [] => false | _ => true end
  end.

(** [d.get(k)] *)
Fixpoint dict_get (d : dict) (k : string) : option pyval :=
  match d with
  | [] => None
  | (k', v) :: d' => if String.eqb k' k then Some v else dict_get d' k
  end.

(** [k in d] *)
Definition dict_mem (d : dict) (k : string) : bool :=
  match dict_get d k with Some _ => true | None => false end.

(** [d[k] = v]: an existing key keeps its position, a new key goes last. *)
Fixpoint dict_set (d : dict) (k : string) (v : pyval) : dict :=
  match d with
  | [] => [(k, v)]
  | (k', v') :: d' =>
      if String.eqb k' k then (k', v) :: d' else (k', v') :: dict_set d' k v
  end.

(** Exceptions raised in the module or by the collaborators it calls. *)
Inductive exn :=
| ValueError (msg : string)
| TypeError (msg : string)
| AttributeError (msg : string)
| FileNotFoundError (msg : string)
| XmlError (msg : string)
| RuntimeError (msg : string)
| YAMLError (msg : string)
| OtherError (msg : string).

Inductive result (A : Type) :=
| Ok (a : A)
| Raise (e : exn).
Arguments Ok {A} a.
Arguments Raise {A} e.

(** *** [int(x)] *)

Definition is_space (c : ascii) : bool :=
  let n := nat_of_ascii c in
  ((9 <=? n) && (n <=? 13))%nat || (n =? 32)%nat.

Fixpoint lstrip (s : string) : string :=
  match s with
  | String c s' => if is_space c then lstrip s' else s
  | EmptyString => EmptyString
  end.

Fixpoint rstrip (s : string) : string :=
  match s with
  | String c s' =>
      match rstrip s' with
      | EmptyString => if is_space c then EmptyString else String c EmptyString
      | r => String c r
      end
  | EmptyString => EmptyString
  end.

Definition digit_of (c : ascii) : option Z :=
  let n := nat_of_ascii c in
  if ((48 <=? n) && (n <=? 57))%nat then Some (Z.of_nat n - 48) else None.

(** Decimal digits, where single underscores may separate digits.
    [after_digit] tells whether the previous character was a digit. *)
Fixpoint digits (s : string) (acc : Z) (after_digit : bool) : option Z :=
  match s with
  | EmptyString => if after_digit then Some acc else None
  | String c s' =>
      match digit_of c with
      | Some d => digits s' (acc * 10 + d) true
      | None =>
          if Ascii.eqb c "_" && after_digit then digits s' acc false
          else None
      end
  end.

Definition int_of_string (s : string) : option Z :=
  match rstrip (lstrip s) with
  | String "-" s' => Z.opp <$> digits s' 0 false
  | String "+" s' => digits s' 0 false
  | s' => digits s' 0 false
  end.

Definition py_int (v : pyval) : result Z :=
  match v with
  | PyInt z => Ok z
  | PyBool b => Ok (if b then 1 else 0)
  | PyStr s | PyBytes s =>
      match int_of_string s with
      | Some z => Ok z
      | None => Raise (ValueError "invalid literal for int() with base 10")
      end
  | _ => Raise (TypeError "int() argument must be a string, a bytes-like object or a number")
  end.

(** ** Logging *)

Inductive LogRecord :=
| Warning (fmt : string) (args : list pyval)
| Debug (fmt : string) (args : list pyval).

(** ** [get_max_wait_from_cfg] *)

Definition default_max_wait : Z := 15.
Definition max_wait_cfg_option : string := "vmware_cust_file_max_wait".

(** The function returns its value together with the records it logged; an
    exception other than [ValueError] escapes it. *)
Definition get_max_wait_from_cfg (cfg : option dict) : list LogRecord * result Z :=
  let max_wait := default_max_wait in
  match cfg with
  | None | Some [] => ([], Ok max_wait)
  | Some cfg =>
      let arg := default (PyInt default_max_wait) (dict_get cfg max_wait_cfg_option) in
      let '(log, r) :=
        match py_int arg with
        | Ok z => ([], Ok z)
        | Raise (ValueError _) =>
            ([Warning "Failed to get '%s', using %s"
                [PyStr max_wait_cfg_option; PyInt default_max_wait]], Ok max_wait)
        | Raise e => ([], Raise e)
        end in
      match r with
      | Raise e => (log, Raise e)
      | Ok max_wait =>
          if max_wait <? 0 then
            (log ++ [Warning "Invalid value '%s' for '%s', using '%s' instead"
                       [PyInt max_wait; PyStr max_wait_cfg_option; PyInt default_max_wait]],
             Ok default_max_wait)
          else (log, Ok max_wait)
      end
  end.

(** ** [wait_for_imc_cfg_file] *)

Definition VMWARE_IMC_DIR : string := "/var/run/vmware-imc".

(** [os.path.join a b] for two components. *)
Definition path_join (a b : string) : string :=
  if String.prefix "/" b then b
  else if String.eqb a "" then b
  else if String.eqb (String.substring (String.length a - 1)%nat 1%nat a) "/" then a +:+ b
  else a +:+ "/" +:+ b.

(** What the wait loop does to the world: it looks for the file and sleeps. *)
Inductive WaitEvent :=
| CheckFile (path : string)
| Sleep (seconds : Z).

Record WaitOutcome := {
  wait_result : option string;   (* the full path, or None *)
  wait_waited : Z;               (* the local [waited] on exit *)
  wait_trace : list WaitEvent;   (* file checks and sleeps, in order *)
}.

(** The file system seen by the loop changes with time: [isfile t p] tells
    whether [p] is a regular file once [t] seconds have been slept.  The
    [while] loop is unrolled [fuel] times; [None] means the fuel ran out. *)
Fixpoint wait_loop (fuel : nat) (isfile : Z → string → bool)
    (filename dirpath : string) (maxwait naplen waited : Z)
    (trace : list WaitEvent) : option WaitOutcome :=
  match fuel with
  | O => None
  | S fuel' =>
      if waited <? maxwait then
        let fileFullPath := path_join dirpath filename in
        if isfile waited fileFullPath then
          Some {| wait_result := Some fileFullPath; wait_waited := waited;
                  wait_trace := trace ++ [CheckFile fileFullPath] |}
        else
          wait_loop fuel' isfile filename dirpath maxwait naplen
            (waited + naplen) (trace ++ [CheckFile fileFullPath; Sleep naplen])
      else
        Some {| wait_result := None; wait_waited := waited; wait_trace := trace |}
  end.

Definition wait_for_imc_cfg_file (fuel : nat) (isfile : Z → string → bool)
    (filename : string) (maxwait naplen : Z) (dirpath : string)
    : option WaitOutcome :=
  let waited := 0 in
  let naplen := if maxwait <=? naplen then 1 else naplen in
  wait_loop fuel isfile filename dirpath maxwait naplen waited [].

(** The interval the loop sleeps for: [naplen] after the adjustment that
    opens [wait_for_imc_cfg_file]. *)
Definition effective_naplen (maxwait naplen : Z) : Z :=
  if maxwait <=? naplen then 1 else naplen.



(** ** Network configuration *)

(** [{'type': 'nameserver', 'address': nameservers, 'search': search}] *)
Definition nameserver_record (nameservers search : pyval) : pyval :=
  PyDict [("type", PyStr "nameserver"); ("address", nameservers); ("search", search)].

(** [get_network_config(nics, nameservers, search)].  [config_list] is the
    argument list itself: [append] extends it in place, and a value without
    an [append] method (the default [None]) raises. *)
Definition get_network_config (nics nameservers search : pyval) : result pyval :=
  let config_list := nics in
  if truthy nameservers || truthy search then
    match config_list with
    | PyList l =>
        Ok (PyDict [("version", PyInt 1);
                    ("config", PyList (l ++ [nameserver_record nameservers search]))])
    | _ => Raise (AttributeError "object has no attribute 'append'")
    end
  else Ok (PyDict [("version", PyInt 1); ("config", config_list)]).

(** [r['type'] == 'nameserver'] for a record [r] of a config list. *)
Definition is_nameserver_record (r : pyval) : bool :=
  match r with
  | PyDict d =>
      match dict_get d "type" with
      | Some (PyStr t) => String.eqb t "nameserver"
      | _ => false
      end
  | _ => false
  end.

(** The IMC customization descriptor ([imc.config.Config]), as the fields
    this module reads. *)
Record Config := {
  host_name : option string;
  domain_name : option string;
  timezone : option string;
  admin_password : option string;
  reset_password : bool;
  marker_id : option string;
  default_run_post_script : bool;
  nics : list pyval;
  name_servers : list string;
  dns_suffixes : list string;
  meta_data_name : option string;
  user_data_name : option string;
}.

(** [bool(s)] for an optional string. *)
Definition nonempty (s : option string) : bool :=
  match s with
  | Some s => negb (String.eqb s "")
  | None => false
  end.

(** [get_network_config_from_conf].  [generate] stands for
    [NicConfigurator(config.nics, use_system_devices).generate(configure, osfamily)]. *)
Definition get_network_config_from_conf
    (generate : list pyval → bool → bool → option string → result (list pyval))
    (config : Config) (use_system_devices configure : bool)
    (osfamily : option string) : result pyval :=
  match generate (nics config) use_system_devices configure osfamily with
  | Raise e => Raise e
  | Ok nics_cfg_list =>
      get_network_config (PyList nics_cfg_list)
        (PyList (PyStr <$> name_servers config))
        (PyList (PyStr <$> dns_suffixes config))
  end.

(** ** Marker store *)

(** A marker directory is the finite map from the names of its entries to
    their contents; [os.path.join(marker_dir, name)] names the entry [name]. *)
Abbreviation directory := (gmap string string).

Definition marker_file (markerid : string) : string :=
  ".markerfile-" +:+ markerid +:+ ".txt".

Definition check_marker_exists (markerid : option string) (marker_dir : directory) : bool :=
  match markerid with
  | None => false
  | Some markerid =>
      if String.eqb markerid "" then false
      else bool_decide (is_Some (marker_dir !! marker_file markerid))
  end.

(** [os.listdir]: the entry names, in no particular order. *)
Definition listdir (d : directory) : list string := (map_to_list d).*1.

Definition setup_marker_files (markerid : string) (marker_dir : directory) : directory :=
  let markerfile := marker_file markerid in
  let swept :=
    foldl (λ d fname, if String.prefix ".markerfile" fname then delete fname d else d)
      marker_dir (listdir marker_dir) in
  <[markerfile := ""]> swept.

(** The marker files of a directory. *)
Definition markers (d : directory) : directory :=
  filter (λ kv, String.prefix ".markerfile" kv.1 = true) d.

(** ** OVF environment parser *)

(** A [minidom] tree.  An attribute is stored under its namespace URI and
    local name, as [getNamedItemNS] looks it up. *)
Inductive node :=
| Element (namespaceURI : option string) (localName : string)
    (attributes : list (option string * string * string))
    (childNodes : list node)
| Text (data : string)
| Comment (data : string).

Record document := { documentElement : node }.

(** [n.localName]: [None] for a node that is not an element. *)
Definition node_localName (n : node) : option string :=
  match n with
  | Element _ name _ _ => Some name
  | _ => None
  end.

Definition node_childNodes (n : node) : list node :=
  match n with
  | Element _ _ _ children => children
  | _ => []
  end.

Definition node_attributes (n : node) : list (option string * string * string) :=
  match n with
  | Element _ _ attrs _ => attrs
  | _ => []
  end.

Definition hasChildNodes (n : node) : bool :=
  match node_childNodes n with [] => false | _ => true end.

(** [n.localName == name] *)
Definition named (name : string) (n : node) : bool :=
  match node_localName n with
  | Some l => String.eqb l name
  | None => false
  end.

Definition find_child (n : node) (filter_func : node → bool) : list node :=
  if negb (hasChildNodes n) then []
  else List.filter filter_func (node_childNodes n).

(** [attrs.getNamedItemNS(ns, name)], giving the attribute's value. *)
Fixpoint getNamedItemNS (attrs : list (option string * string * string))
    (ns name : string) : option string :=
  match attrs with
  | [] => None
  | (ns', name', value) :: attrs' =>
      if bool_decide (ns' = Some ns) && String.eqb name' name then Some value
      else getNamedItemNS attrs' ns name
  end.

(** [attrs.getNamedItemNS(ns, name).value]: the lookup gives [None] for a
    missing attribute, and reading [.value] of it raises. *)
Definition attribute_value (attrs : list (option string * string * string))
    (ns name : string) : result string :=
  match getNamedItemNS attrs ns name with
  | Some v => Ok v
  | None => Raise (AttributeError "'NoneType' object has no attribute 'value'")
  end.

Definition envNsURI : string := "http://schemas.dmtf.org/ovf/environment/1".

(** The loop of [get_properties] over the [Property] elements. *)
Fixpoint collect_properties (propElems : list node) (props : dict) : result dict :=
  match propElems with
  | [] => Ok props
  | elem :: rest =>
      match attribute_value (node_attributes elem) envNsURI "key" with
      | Raise e => Raise e
      | Ok key =>
          match attribute_value (node_attributes elem) envNsURI "value" with
          | Raise e => Raise e
          | Ok val => collect_properties rest (dict_set props key (PyStr val))
          end
      end
  end.

(** [get_properties] once [minidom.parseString] has produced the tree. *)
Definition get_properties_dom (dom : document) : result dict :=
  if negb (named "Environment" (documentElement dom)) then
    Raise (XmlError "No Environment Node")
  else if negb (hasChildNodes (documentElement dom)) then
    Raise (XmlError "No Child Nodes")
  else
    let propSections := find_child (documentElement dom) (named "PropertySection") in
    match propSections with
    | [] => Raise (XmlError "No 'PropertySection's")
    | section :: _ =>
        let propElems := find_child section (named "Property") in
        collect_properties propElems []
    end.

(** [get_properties(contents)]; [parseString] is [minidom.parseString], which
    raises on text that is not well-formed XML. *)
Definition get_properties (parseString : string → result document)
    (contents : string) : result dict :=
  match parseString contents with
  | Raise e => Raise e
  | Ok dom => get_properties_dom dom
  end.

(** The three structural conditions the parser validates. *)
Definition malformed (dom : document) : bool :=
  negb (named "Environment" (documentElement dom))
  || negb (hasChildNodes (documentElement dom))
  || negb (existsb (named "PropertySection") (node_childNodes (documentElement dom))).

(** The first [PropertySection] child of the root. *)
Definition first_property_section (dom : document) : option node :=
  List.find (named "PropertySection") (node_childNodes (documentElement dom)).

(** A [Property] element that carries both namespaced attributes. *)
Definition property_pair (n : node) : option (string * string) :=
  match getNamedItemNS (node_attributes n) envNsURI "key",
        getNamedItemNS (node_attributes n) envNsURI "value" with
  | Some k, Some v => Some (k, v)
  | _, _ => None
  end.

(** The [Property] children of a section, and the dict that their key/value
    pairs make, a later pair replacing an earlier one with the same key. *)
Definition property_elements (section : node) : list node :=
  List.filter (named "Property") (node_childNodes section).

Definition dict_of_pairs (pairs : list (string * string)) : dict :=
  foldl (λ props kv, dict_set props kv.1 (PyStr kv.2)) [] pairs.

(** An OVF environment whose only [Property] has a value but no key. *)
Definition property_without_key : document :=
  {| documentElement :=
       Element (Some envNsURI) "Environment" []
         [Element (Some envNsURI) "PropertySection" []
            [Element (Some envNsURI) "Property"
               [(Some envNsURI, "value", "host1")] []]] |}.

(** An OVF environment with two properties. *)
Definition two_properties : document :=
  {| documentElement :=
       Element (Some envNsURI) "Environment" []
         [Text " ";
          Element (Some envNsURI) "PropertySection" []
            [Element (Some envNsURI) "Property"
               [(Some envNsURI, "key", "instance-id");
                (Some envNsURI, "value", "iid-1")] [];
             Element (Some envNsURI) "Property"
               [(Some envNsURI, "key", "hostname");
                (Some envNsURI, "value", "host1")] []]] |}.

(** ** IMC file set *)

(** [collect_imc_file_paths]; [path_exists] is [os.path.exists]. *)
Definition collect_imc_file_paths (path_exists : string → bool) (cust_conf : Config)
    : result (option string * option string * option string) :=
  let md_file := meta_data_name cust_conf in
  if nonempty md_file then
    let md_path := path_join VMWARE_IMC_DIR (default "" md_file) in
    if negb (path_exists md_path) then
      Raise (FileNotFoundError ("meta data file is not found: " +:+ md_path))
    else
      let ud_file := user_data_name cust_conf in
      if nonempty ud_file then
        let ud_path := path_join VMWARE_IMC_DIR (default "" ud_file) in
        if negb (path_exists ud_path) then
          Raise (FileNotFoundError ("user data file is not found: " +:+ ud_path))
        else Ok (Some md_path, Some ud_path, None)
      else Ok (Some md_path, None, None)
  else
    let nics_path := path_join VMWARE_IMC_DIR "nics.txt" in
    if negb (path_exists nics_path) then Ok (None, None, None)
    else Ok (None, None, Some nics_path).

(** A descriptor that declares nothing. *)
Definition empty_config : Config := {|
  host_name := None; domain_name := None; timezone := None;
  admin_password := None; reset_password := false; marker_id := None;
  default_run_post_script := false; nics := []; name_servers := [];
  dns_suffixes := []; meta_data_name := None; user_data_name := None;
|}.

(** A descriptor that declares a metadata file and, maybe, a userdata file. *)
Definition raw_data_config (md_file : string) (ud_file : option string) : Config := {|
  host_name := None; domain_name := None; timezone := None;
  admin_password := None; reset_password := false; marker_id := None;
  default_run_post_script := false; nics := []; name_servers := [];
  dns_suffixes := []; meta_data_name := Some md_file; user_data_name := ud_file;
|}.

(** Exactly one of the metadata path and the NICs path is there. *)
Definition exactly_one (md_path nics_path : option string) : Prop :=
  (is_Some md_path ∧ nics_path = None) ∨ (md_path = None ∧ is_Some nics_path).

(** ** Paths and strings *)

Definition is_slash (c : ascii) : bool := Ascii.eqb c "/".

(** On a reversed path: drop the last component, up to the last slash. *)
Fixpoint drop_basename (s : list ascii) : list ascii :=
  match s with
  | [] => []
  | c :: s' => if is_slash c then s else drop_basename s'
  end.

Fixpoint drop_slashes (s : list ascii) : list ascii :=
  match s with
  | [] => []
  | c :: s' => if is_slash c then drop_slashes s' else s
  end.

(** [os.path.dirname]: the text up to the last slash, without its trailing
    slashes unless it consists of slashes only. *)
Definition dirname (p : string) : string :=
  let head := drop_basename (rev (list_ascii_of_string p)) in
  string_of_list_ascii
    (rev (if forallb is_slash head then head else drop_slashes head)).

Definition lower_ascii (c : ascii) : ascii :=
  let n := nat_of_ascii c in
  if ((65 <=? n) && (n <=? 90))%nat then ascii_of_nat (n + 32) else c.

(** [s.lower()] *)
Fixpoint lower (s : string) : string :=
  match s with
  | EmptyString => EmptyString
  | String c s' => String (lower_ascii c) (lower s')
  end.

(** [sub in s] *)
Fixpoint contains (sub s : string) : bool :=
  String.prefix sub s ||
  match s with
  | EmptyString => false
  | String _ s' => contains sub s'
  end.

(** [sep.join(l)] *)
Fixpoint join (sep : string) (l : list string) : string :=
  match l with
  | [] => ""
  | [x] => x
  | x :: l' => x +:+ sep +:+ join sep l'
  end.

(** ** The acquisition run: world, collaborators and monad *)

(** [GuestCustStateEnum], and the [GuestCustEventEnum] and
    [GuestCustErrorEnum] codes this module reports. *)
Inductive GuestCustState :=
| GUESTCUST_STATE_RUNNING
| GUESTCUST_STATE_DONE.

Inductive GuestCustCode :=
| GUESTCUST_EVENT_CUSTOMIZE_FAILED
| GUESTCUST_EVENT_NETWORK_SETUP_FAILED
| GUESTCUST_ERROR_SUCCESS
| GUESTCUST_ERROR_SCRIPT_DISABLED
| GUESTCUST_ERROR_WRONG_META_FORMAT.

(** The calls a run makes to its collaborators, in the order it makes them. *)
Inductive Event :=
| SetCustomizationStatus (state : GuestCustState) (code : GuestCustCode)
| SetGcStatus (conf : option Config) (msg : string)
| DelDir (path : string)
| EnableNics (nics : pyval)
| ConfigurePassword (adminpwd : option string) (resetpwd : bool)
| Transport (name : string).

(** What a run reads from its surroundings.  Collaborators that live outside
    this module are functions of their arguments. *)
Record Env := {
  (* self.paths, self.sys_cfg, self.ds_cfg, self.distro *)
  paths_seed_dir : string;
  paths_cloud_dir : string;
  sys_cfg : option dict;
  ds_cfg : option dict;
  osfamily : option string;
  generate_fallback_config : pyval;
  (* class attributes set by the constructor *)
  supported_seed_starts : list string;
  vmware_customization_supported : bool;
  (* util, dmi *)
  get_cfg_option_bool : option dict → string → bool → bool;
  read_dmi_data : string → option string;
  read_seeded : string → result (dict * pyval * pyval);
  (* the file system; the IMC directory fills while the run waits *)
  isfile : string → bool;
  path_exists : string → bool;
  load_file : string → result string;
  walk : string → list (string * list string);
  imc_isfile : Z → string → bool;
  (* parsers; a metadata document that is not a mapping counts as an error *)
  parseString : string → result document;
  b64decode : string → result string;
  safeyaml_load : string → result dict;
  read_config : string → result Config;
  (* imc helpers *)
  nic_generate : list pyval → bool → bool → option string → result (list pyval);
  get_nics_to_enable : option string → result pyval;
  password_configure : option string → bool → result unit;
  (* the transports of the last resort *)
  transport_vmware_guestinfo : option string;
  transport_iso9660 : option string;
}.

(** The attributes of the data source that a run assigns. *)
Record DataSourceOVF := {
  seed : option string;
  environment : option string;
  cfg : dict;
  network_config_ : option pyval;
  vmware_nics_to_enable : option pyval;
  vmware_cust_conf : option Config;
  vmware_cust_found : bool;
  metadata : dict;
  userdata_raw : pyval;
  vendordata_raw : pyval;
}.

(** [DataSourceOVF.__init__] *)
Definition init : DataSourceOVF := {|
  seed := None; environment := None; cfg := [];
  network_config_ := None; vmware_nics_to_enable := None;
  vmware_cust_conf := None; vmware_cust_found := false;
  metadata := []; userdata_raw := PyNone; vendordata_raw := PyNone;
|}.

Record World := {
  self : DataSourceOVF;
  marker_dir : directory;     (* the entries of <cloud_dir>/data *)
  events : list Event;
}.

(** A computation changes the world and returns or raises; [None] means the
    fuel of the wait loop ran out. *)
Definition M (A : Type) : Type := World → option (result A * World).

#[global] Instance M_ret : MRet M := λ A a w, Some (Ok a, w).

#[global] Instance M_bind : MBind M := λ A B k m w,
  match m w with
  | Some (Ok a, w') => k a w'
  | Some (Raise e, w') => Some (Raise e, w')
  | None => None
  end.

Definition raise {A} (e : exn) : M A := λ w, Some (Raise e, w).

Definition lift {A} (r : result A) : M A := λ w, Some (r, w).

(** [try: m except <exceptions selected by handler>: ...] *)
Definition try_except {A} (m : M A) (handler : exn → option (M A)) : M A := λ w,
  match m w with
  | Some (Raise e, w') =>
      match handler e with
      | Some h => h w'
      | None => Some (Raise e, w')
      end
  | r => r
  end.

Definition emit (e : Event) : M unit := λ w,
  Some (Ok (), {| self := self w; marker_dir := marker_dir w;
                  events := events w ++ [e] |}).

Definition update_self (f : DataSourceOVF → DataSourceOVF) : M unit := λ w,
  Some (Ok (), {| self := f (self w); marker_dir := marker_dir w;
                  events := events w |}).

Definition update_marker_dir (f : directory → directory) : M unit := λ w,
  Some (Ok (), {| self := self w; marker_dir := f (marker_dir w);
                  events := events w |}).

Definition get_marker_dir : M directory := λ w, Some (Ok (marker_dir w), w).

Definition get_self : M DataSourceOVF := λ w, Some (Ok (self w), w).

Definition set_environment (v : option string) (s : DataSourceOVF) : DataSourceOVF :=
  {| seed := seed s; environment := v; cfg := cfg s;
     network_config_ := network_config_ s;
     vmware_nics_to_enable := vmware_nics_to_enable s;
     vmware_cust_conf := vmware_cust_conf s;
     vmware_cust_found := vmware_cust_found s; metadata := metadata s;
     userdata_raw := userdata_raw s; vendordata_raw := vendordata_raw s |}.

Definition set_network_config (v : option pyval) (s : DataSourceOVF) : DataSourceOVF :=
  {| seed := seed s; environment := environment s; cfg := cfg s;
     network_config_ := v;
     vmware_nics_to_enable := vmware_nics_to_enable s;
     vmware_cust_conf := vmware_cust_conf s;
     vmware_cust_found := vmware_cust_found s; metadata := metadata s;
     userdata_raw := userdata_raw s; vendordata_raw := vendordata_raw s |}.

Definition set_vmware_nics_to_enable (v : option pyval) (s : DataSourceOVF) : DataSourceOVF :=
  {| seed := seed s; environment := environment s; cfg := cfg s;
     network_config_ := network_config_ s;
     vmware_nics_to_enable := v;
     vmware_cust_conf := vmware_cust_conf s;
     vmware_cust_found := vmware_cust_found s; metadata := metadata s;
     userdata_raw := userdata_raw s; vendordata_raw := vendordata_raw s |}.

Definition set_vmware_cust_conf (v : option Config) (s : DataSourceOVF) : DataSourceOVF :=
  {| seed := seed s; environment := environment s; cfg := cfg s;
     network_config_ := network_config_ s;
     vmware_nics_to_enable := vmware_nics_to_enable s;
     vmware_cust_conf := v;
     vmware_cust_found := vmware_cust_found s; metadata := metadata s;
     userdata_raw := userdata_raw s; vendordata_raw := vendordata_raw s |}.

Definition set_vmware_cust_found (v : bool) (s : DataSourceOVF) : DataSourceOVF :=
  {| seed := seed s; environment := environment s; cfg := cfg s;
     network_config_ := network_config_ s;
     vmware_nics_to_enable := vmware_nics_to_enable s;
     vmware_cust_conf := vmware_cust_conf s;
     vmware_cust_found := v; metadata := metadata s;
     userdata_raw := userdata_raw s; vendordata_raw := vendordata_raw s |}.

(** The assignments that end a successful [_get_data]. *)
Definition set_results (sd : string) (md : dict) (ud vd : pyval) (c : dict)
    (s : DataSourceOVF) : DataSourceOVF :=
  {| seed := Some sd; environment := environment s; cfg := c;
     network_config_ := network_config_ s;
     vmware_nics_to_enable := vmware_nics_to_enable s;
     vmware_cust_conf := vmware_cust_conf s;
     vmware_cust_found := vmware_cust_found s; metadata := md;
     userdata_raw := ud; vendordata_raw := vd |}.

(** ** Readers of the two metadata formats *)

(** [read_vmware_imc] *)
Definition read_vmware_imc (config : Config) : dict * pyval * dict :=
  let md : dict := [] in
  let cfg : dict := [] in
  let ud := PyNone in
  let md :=
    match host_name config with
    | Some h =>
        if String.eqb h "" then md
        else if nonempty (domain_name config) then
          dict_set md "local-hostname" (PyStr (h +:+ "." +:+ default "" (domain_name config)))
        else dict_set md "local-hostname" (PyStr h)
    | None => md
    end in
  let cfg :=
    match timezone config with
    | Some tz => if String.eqb tz "" then cfg else dict_set cfg "timezone" (PyStr tz)
    | None => cfg
    end in
  let md := dict_set md "instance-id" (PyStr "iid-vmware-imc") in
  (md, ud, cfg).

(** [safeload_yaml_or_dict] *)
Definition safeload_yaml_or_dict (env : Env) (data : string) : result dict :=
  if String.eqb data "" then Ok [] else safeyaml_load env data.

(** [val.encode()]: defined on strings. *)
Definition encode (v : pyval) : result string :=
  match v with
  | PyStr s => Ok s
  | _ => Raise (AttributeError "object has no attribute 'encode'")
  end.

Definition in_list (x : string) (l : list string) : bool :=
  existsb (String.eqb x) l.

(** One turn of the loop of [read_ovf_environment] over [props.items()]. *)
Definition read_ovf_property (env : Env) (read_network : bool)
    (acc : result (dict * pyval * dict)) (item : string * pyval)
    : result (dict * pyval * dict) :=
  match acc with
  | Raise e => Raise e
  | Ok (md, ud, cfg) =>
      let '(prop, val) := item in
      let prop := if String.eqb prop "hostname" then "local-hostname" else prop in
      if in_list prop ["seedfrom"; "local-hostname"; "public-keys"; "instance-id"] then
        Ok (dict_set md prop val, ud, cfg)
      else if in_list prop ["password"] then
        Ok (md, ud, dict_set cfg prop val)
      else if in_list prop ["network-config"] && read_network then
        match encode val with
        | Ok bytes =>
            match b64decode env bytes with
            | Ok network_config =>
                match safeload_yaml_or_dict env network_config with
                | Ok doc => Ok (dict_set md prop (default PyNone (dict_get doc "network")), ud, cfg)
                | Raise _ => Ok (md, ud, cfg)
                end
            | Raise _ => Ok (md, ud, cfg)
            end
        | Raise _ => Ok (md, ud, cfg)
        end
      else if String.eqb prop "user-data" then
        match encode val with
        | Ok bytes =>
            match b64decode env bytes with
            | Ok decoded => Ok (md, PyBytes decoded, cfg)
            | Raise _ => Ok (md, PyBytes bytes, cfg)
            end
        | Raise e => Raise e
        end
      else Ok (md, ud, cfg)
  end.

(** [read_ovf_environment] *)
Definition read_ovf_environment (env : Env) (contents : string) (read_network : bool)
    : result (dict * pyval * dict) :=
  match get_properties (parseString env) contents with
  | Raise e => Raise e
  | Ok props => foldl (read_ovf_property env read_network) (Ok ([], PyNone, [])) props
  end.

(** The loop of [get_ovf_env] over the candidate file names. *)
Fixpoint get_ovf_env_in (env : Env) (dirname : string) (env_names : list string)
    : option (string * string) :=
  match env_names with
  | [] => None
  | fname :: rest =>
      let full_fn := path_join dirname fname in
      if isfile env full_fn then
        match load_file env full_fn with
        | Ok contents => Some (fname, contents)
        | Raise _ => get_ovf_env_in env dirname rest
        end
      else get_ovf_env_in env dirname rest
  end.

(** [get_ovf_env]: [None] stands for the pair [(None, False)]. *)
Definition get_ovf_env (env : Env) (dirname : string) : option (string * string) :=
  get_ovf_env_in env dirname ["ovf-env.xml"; "ovf_env.xml"; "OVF_ENV.XML"; "OVF-ENV.XML"].

(** [search_file] *)
Definition search_file (env : Env) (dirpath filename : string) : option string :=
  if String.eqb dirpath "" || String.eqb filename "" then None
  else
    match List.find (λ entry, in_list filename entry.2) (walk env dirpath) with
    | Some (root, _) => Some (path_join root filename)
    | None => None
    end.

(** [s.replace(old, "")] for a one-character [old]. *)
Fixpoint remove_char (old : ascii) (s : string) : string :=
  match s with
  | EmptyString => EmptyString
  | String c s' => if Ascii.eqb c old then remove_char old s' else String c (remove_char old s')
  end.

(** [load_cloudinit_data] *)
Definition load_cloudinit_data (env : Env) (md_path : string) (ud_path : option string)
    : result (dict * pyval * dict * option pyval) :=
  match load_file env md_path with
  | Raise e => Raise e
  | Ok text =>
      match safeload_yaml_or_dict env text with
      | Raise e => Raise e
      | Ok md =>
          let network := dict_get md "network" in
          if nonempty ud_path then
            match load_file env (default "" ud_path) with
            | Raise e => Raise e
            | Ok ud => Ok (md, PyStr (remove_char "013" ud), [], network)
            end
          else Ok (md, PyNone, [], network)
      end
  end.

(** Modelled from the spec: [util.mergemanydict] lives in cloudinit/util.py,
    a module that this development does not embed.  The specification has the
    defaults merged by [mergemanydict([md, defaults])] "under everything
    already resolved -- defaults never override discovered values", and its
    first scenario keeps the instance id found in the seed file: a key keeps
    the value of the earliest dict that has it, later dicts add their new
    keys. *)
Definition merge_dict (merged source : dict) : dict :=
  foldl (λ acc item, if dict_mem acc item.1 then acc else dict_set acc item.1 item.2)
    merged source.

Definition mergemanydict (srcs : list dict) : dict :=
  foldl merge_dict [] srcs.

(** ** [_raise_error_status] and [_get_data] *)

(** [_raise_error_status]: report the failure to the platform, clean the IMC
    directory up, raise [error] again. *)
Definition _raise_error_status {A} (prefix : string) (error : exn)
    (event : GuestCustCode) (config_file : string) (conf : option Config) : M A :=
  emit (SetCustomizationStatus GUESTCUST_STATE_RUNNING event);;
  emit (SetGcStatus conf prefix);;
  emit (DelDir (dirname config_file));;
  raise error.

(** [except FileNotFoundError as e] *)
Definition only_FileNotFoundError {A} (h : exn → M A) (e : exn) : option (M A) :=
  match e with
  | FileNotFoundError _ => Some (h e)
  | _ => None
  end.

(** [except Exception as e] *)
Definition any_Exception {A} (h : exn → M A) (e : exn) : option (M A) :=
  Some (h e).

(** The local variables of [_get_data] that outlive the probing of the seed
    directory and of the VMware customization files. *)
Record Locals := {
  found : list string;
  md : dict;
  ud : pyval;
  vd : pyval;
  cfg_ : dict;
  vmwareImcConfigFilePath : option string;
  nicspath : option string;
  md_path : option string;
  ud_path : option string;
}.

Definition initial_locals : Locals := {|
  found := []; md := []; ud := PyStr ""; vd := PyStr ""; cfg_ := [];
  vmwareImcConfigFilePath := None; nicspath := None;
  md_path := None; ud_path := None;
|}.

Definition search_paths : list string :=
  ["/usr/lib/vmware-tools"; "/usr/lib64/vmware-tools";
   "/usr/lib/open-vm-tools"; "/usr/lib64/open-vm-tools";
   "/usr/lib/x86_64-linux-gnu/open-vm-tools";
   "/usr/lib/aarch64-linux-gnu/open-vm-tools"].

(** The loop over [search_paths]: the first place where the plugin is. *)
Fixpoint find_plugin (env : Env) (paths : list string) (plugin : string) : option string :=
  match paths with
  | [] => None
  | path :: rest =>
      match search_file env path plugin with
      | Some deployPkgPluginPath =>
          if String.eqb deployPkgPluginPath "" then find_plugin env rest plugin
          else Some deployPkgPluginPath
      | None => find_plugin env rest plugin
      end
  end.

(** [wait_for_imc_cfg_file("cust.cfg", max_wait)] inside a run. *)
Definition wait (fuel : nat) (env : Env) (max_wait : Z) : M (option string) := λ w,
  match wait_for_imc_cfg_file fuel (imc_isfile env) "cust.cfg" max_wait 5
          "/var/run/vmware-imc" with
  | Some out => Some (Ok (wait_result out), w)
  | None => None
  end.

(** The branch of [_get_data] for a VMware platform, up to the choice of the
    customization path. *)
Definition probe_vmware (fuel : nat) (env : Env) : M Locals :=
  let '(allow_vmware_cust, allow_raw_data) :=
    if negb (vmware_customization_supported env) then (false, false)
    else (negb (get_cfg_option_bool env (sys_cfg env) "disable_vmware_customization" true),
          get_cfg_option_bool env (ds_cfg env) "allow_raw_data" true) in
  if negb (allow_vmware_cust || allow_raw_data) then mret initial_locals
  else
    let plugin := "libdeployPkgPlugin.so" in
    config_file ←
      match find_plugin env search_paths plugin with
      | Some _ =>
          max_wait ← lift (get_max_wait_from_cfg (ds_cfg env)).2;
          wait fuel env max_wait
      | None => mret None
      end;
    if nonempty config_file then
      let vmwareImcConfigFilePath := default "" config_file in
      conf ← lift (read_config env vmwareImcConfigFilePath);
      update_self (set_vmware_cust_conf (Some conf));;
      '(md_path, ud_path, nicspath) ←
        try_except (lift (collect_imc_file_paths (path_exists env) conf))
          (only_FileNotFoundError (λ e,
             _raise_error_status "File(s) missing in directory" e
               GUESTCUST_EVENT_CUSTOMIZE_FAILED vmwareImcConfigFilePath (Some conf)));
      let config_file :=
        if nonempty md_path && negb allow_raw_data then None else config_file in
      let config_file :=
        if bool_decide (md_path = None) && negb allow_vmware_cust then None
        else config_file in
      mret {| found := []; md := []; ud := PyStr ""; vd := PyStr ""; cfg_ := [];
              vmwareImcConfigFilePath := config_file; nicspath := nicspath;
              md_path := md_path; ud_path := ud_path |}
    else mret initial_locals.

(** Lines 87-178: the seed directory first, the VMware files second. *)
Definition probe (fuel : nat) (env : Env) : M Locals :=
  let system_type := read_dmi_data env "system-product-name" in
  match get_ovf_env env (paths_seed_dir env) with
  | Some (seedfile, contents) =>
      let seed := path_join (paths_seed_dir env) seedfile in
      '(md, ud, cfg) ← lift (read_ovf_environment env contents false);
      update_self (set_environment (Some contents));;
      mret {| found := [seed]; md := md; ud := ud; vd := PyStr ""; cfg_ := cfg;
              vmwareImcConfigFilePath := None; nicspath := None;
              md_path := None; ud_path := None |}
  | None =>
      if nonempty system_type && contains "vmware" (lower (default "" system_type))
      then probe_vmware fuel env
      else mret initial_locals
  end.

(** [except safeyaml.YAMLError as e: ... except Exception as e: ...] of the
    raw-data path. *)
Definition raw_data_handler {A} (config_file : string) (conf : option Config)
    (e : exn) : option (M A) :=
  match e with
  | YAMLError _ =>
      Some (_raise_error_status "Error parsing the cloud-init meta data" e
              GUESTCUST_ERROR_WRONG_META_FORMAT config_file conf)
  | _ =>
      Some (_raise_error_status "Error loading cloud-init configuration" e
              GUESTCUST_EVENT_CUSTOMIZE_FAILED config_file conf)
  end.

(** Lines 181-216: cloud-init metadata and userdata files in the IMC
    directory. *)
Definition load_raw_data (env : Env) (l : Locals) (config_file md_file : string)
    : M Locals :=
  s ← get_self;
  let conf := vmware_cust_conf s in
  let imcdirpath := dirname config_file in
  emit (SetGcStatus conf "Started");;
  '(md, ud, cfg, network) ←
    try_except
      ('(md, ud, cfg, network) ← lift (load_cloudinit_data env md_file (ud_path l));
       update_self (set_network_config
         (if match network with Some n => truthy n | None => false end
          then network else Some (generate_fallback_config env)));;
       mret (md, ud, cfg, network))
      (raw_data_handler config_file conf);
  update_self (set_vmware_cust_found true);;
  emit (DelDir imcdirpath);;
  emit (SetCustomizationStatus GUESTCUST_STATE_DONE GUESTCUST_ERROR_SUCCESS);;
  emit (SetGcStatus conf "Successful");;
  mret {| found := found l ++ ["vmware-tools"]; md := md; ud := ud; vd := vd l;
          cfg_ := cfg; vmwareImcConfigFilePath := vmwareImcConfigFilePath l;
          nicspath := nicspath l; md_path := md_path l; ud_path := ud_path l |}.

(** [if b: m] *)
Definition when (b : bool) (m : M unit) : M unit :=
  if b then m else mret ().

(** [except Exception as e: _raise_error_status(prefix, e, code, ...)] *)
Definition failed {A} (config_file : string) (conf : option Config)
    (prefix : string) (code : GuestCustCode) : exn → option (M A) :=
  any_Exception (λ e, _raise_error_status prefix e code config_file conf).

(** Lines 218-353: customization from the IMC configuration.  [customscript]
    is bound to [None], so none of the steps guarded by it runs. *)
Definition load_vmware_imc (env : Env) (l : Locals) (config_file : string)
    : M Locals :=
  s ← get_self;
  let conf := vmware_cust_conf s in
  update_self (set_vmware_nics_to_enable (Some (PyStr "")));;
  '(config, md, ud, cfg, product_marker, special_customization) ←
    try_except
      (emit (SetGcStatus conf "Started");;
       config ← lift (match conf with
                      | Some config => Ok config
                      | None => Raise (AttributeError
                                  "'NoneType' object has no attribute 'host_name'")
                      end);
       let '(md, ud, cfg) := read_vmware_imc config in
       nics_to_enable ← lift (get_nics_to_enable env (nicspath l));
       update_self (set_vmware_nics_to_enable (Some nics_to_enable));;
       let product_marker := marker_id config in
       data ← get_marker_dir;
       let hasmarkerfile := check_marker_exists product_marker data in
       let special_customization := nonempty product_marker && negb hasmarkerfile in
       mret (config, md, ud, cfg, product_marker, special_customization))
      (failed config_file conf "Error parsing the customization Config File"
         GUESTCUST_EVENT_CUSTOMIZE_FAILED);
  try_except
    (network ← lift (get_network_config_from_conf (nic_generate env) config
                       true true (osfamily env));
     update_self (set_network_config (Some network)))
    (failed config_file conf "Error preparing Network Configuration"
       GUESTCUST_EVENT_NETWORK_SETUP_FAILED);;
  when special_customization
    (let adminpwd := admin_password config in
     try_except
       (let resetpwd := reset_password config in
        when (nonempty adminpwd || resetpwd)
          (emit (ConfigurePassword adminpwd resetpwd);;
           lift (password_configure env adminpwd resetpwd)))
       (failed config_file conf "Error applying Password Configuration"
          GUESTCUST_EVENT_CUSTOMIZE_FAILED));;
  when (nonempty product_marker)
    (try_except
       (update_marker_dir (setup_marker_files (default "" product_marker)))
       (failed config_file conf "Error creating marker files"
          GUESTCUST_EVENT_CUSTOMIZE_FAILED));;
  update_self (set_vmware_cust_found true);;
  emit (DelDir (dirname config_file));;
  s ← get_self;
  emit (EnableNics (default PyNone (vmware_nics_to_enable s)));;
  emit (SetCustomizationStatus GUESTCUST_STATE_DONE GUESTCUST_ERROR_SUCCESS);;
  emit (SetGcStatus conf "Successful");;
  mret {| found := found l ++ ["vmware-tools"]; md := md; ud := ud; vd := vd l;
          cfg_ := cfg; vmwareImcConfigFilePath := vmwareImcConfigFilePath l;
          nicspath := nicspath l; md_path := md_path l; ud_path := ud_path l |}.

(** The loop over the two transports: the name of the last one tried and
    what it returned. *)
Definition try_transports (env : Env) : M (string * option string) :=
  emit (Transport "com.vmware.guestInfo");;
  if nonempty (transport_vmware_guestinfo env) then
    mret ("com.vmware.guestInfo", transport_vmware_guestinfo env)
  else
    emit (Transport "iso");;
    mret ("iso", transport_iso9660 env).

(** Lines 355-368: the guest-RPC channel, then the ISO9660 devices. *)
Definition load_transports (env : Env) (l : Locals) : M Locals :=
  '(name, contents) ← try_transports env;
  if nonempty contents then
    let contents := default "" contents in
    '(md, ud, cfg) ← lift (read_ovf_environment env contents true);
    update_self (set_environment (Some contents));;
    when (match dict_get md "network-config" with
          | Some n => truthy n
          | None => false
          end)
      (update_self (set_network_config (dict_get md "network-config")));;
    mret {| found := found l ++ [name]; md := md; ud := ud; vd := vd l;
            cfg_ := cfg; vmwareImcConfigFilePath := vmwareImcConfigFilePath l;
            nicspath := nicspath l; md_path := md_path l; ud_path := ud_path l |}
  else mret l.

(** Lines 180-368 *)
Definition load (env : Env) (l : Locals) : M Locals :=
  let use_raw_data := nonempty (vmwareImcConfigFilePath l) && nonempty (md_path l) in
  if use_raw_data then
    load_raw_data env l (default "" (vmwareImcConfigFilePath l)) (default "" (md_path l))
  else if nonempty (vmwareImcConfigFilePath l) then
    load_vmware_imc env l (default "" (vmwareImcConfigFilePath l))
  else load_transports env l.

Definition defaults : dict := [("instance-id", PyStr "iid-dsovf")].

(** [seedfrom.startswith(proto)] for the first [proto] that fits. *)
Definition seed_proto (starts : list string) (seedfrom : string) : option string :=
  List.find (λ proto, String.prefix proto seedfrom) starts.

(** [md['seedfrom'].startswith]: defined on strings. *)
Definition as_str (v : pyval) : result string :=
  match v with
  | PyStr s => Ok s
  | _ => Raise (AttributeError "object has no attribute 'startswith'")
  end.

(** Lines 370-400: seed redirection, defaults, and the assignments to the
    instance.  The result is the value [_get_data] returns. *)
Definition finish (env : Env) (l : Locals) : M bool :=
  if bool_decide (length (found l) = 0%nat) then mret false
  else
    r ←
      match dict_get (md l) "seedfrom" with
      | Some v =>
          if truthy v then
            seedfrom ← lift (as_str v);
            if negb (nonempty (seed_proto (supported_seed_starts env) seedfrom)) then
              mret None
            else
              '(md_seed, ud, vd) ← lift (read_seeded env seedfrom);
              let md := mergemanydict [md l; md_seed] in
              mret (Some (md, ud, vd, found l ++ [seedfrom]))
          else mret (Some (md l, ud l, vd l, found l))
      | None => mret (Some (md l, ud l, vd l, found l))
      end;
    match r with
    | None => mret false
    | Some (md, ud, vd, found) =>
        let md := mergemanydict [md; defaults] in
        update_self (set_results (join "," found) md ud vd (cfg_ l));;
        mret true
    end.

(** [DataSourceOVF._get_data] *)
Definition _get_data (fuel : nat) (env : Env) : M bool :=
  l ← probe fuel env;
  l ← load env l;
  finish env l.

(** [DataSourceOVF.check_instance_id] *)
Definition check_instance_id (self : DataSourceOVF) (sys_cfg : option dict) : bool :=
  true.

(** ** Sample surroundings *)

(** Surroundings in which nothing is configured and nothing is found, but
    for the given platform name, plugin directories, IMC directory and seed
    location. *)
Definition make_env (system_type : option string)
    (walk : string → list (string * list string))
    (imc_isfile : Z → string → bool) (path_exists : string → bool)
    (read_config : string → result Config)
    (supported_seed_starts : list string)
    (read_seeded : string → result (dict * pyval * pyval)) : Env := {|
  paths_seed_dir := "/var/lib/cloud/seed";
  paths_cloud_dir := "/var/lib/cloud";
  sys_cfg := None;
  ds_cfg := None;
  osfamily := None;
  generate_fallback_config := PyNone;
  supported_seed_starts := supported_seed_starts;
  vmware_customization_supported := true;
  get_cfg_option_bool := λ _ _ default, default;
  read_dmi_data := λ _, system_type;
  read_seeded := read_seeded;
  isfile := λ _, false;
  path_exists := path_exists;
  load_file := λ _, Raise (FileNotFoundError "No such file or directory");
  walk := walk;
  imc_isfile := imc_isfile;
  parseString := λ _, Raise (OtherError "syntax error");
  b64decode := λ _, Raise (ValueError "Incorrect padding");
  safeyaml_load := λ _, Raise (YAMLError "not a mapping");
  read_config := read_config;
  nic_generate := λ _ _ _ _, Ok [];
  get_nics_to_enable := λ _, Ok PyNone;
  password_configure := λ _ _, Ok ();
  transport_vmware_guestinfo := None;
  transport_iso9660 := None;
|}.

(** A VMware guest with the customization plugin installed, whose IMC
    directory holds a cust.cfg that declares metadata.yaml and nothing
    else. *)
Definition missing_metadata_env : Env :=
  make_env (Some "VMware Virtual Platform")
    (λ dir, if String.eqb dir "/usr/lib/vmware-tools"
            then [("/usr/lib/vmware-tools/plugins/vmsvc", ["libdeployPkgPlugin.so"])]
            else [])
    (λ _ path, String.eqb path "/var/run/vmware-imc/cust.cfg")
    (λ path, String.eqb path "/var/run/vmware-imc/cust.cfg")
    (λ _, Ok (raw_data_config "metadata.yaml" None))
    ["/"; "file://"]
    (λ _, Raise (OtherError "no seed")).

(** A seed location that serves an instance id of its own. *)
Definition seeded_env : Env :=
  make_env None (λ _, []) (λ _ _, false) (λ _, false)
    (λ _, Raise (OtherError "no configuration file"))
    ["/"; "file://"]
    (λ _, Ok ([("instance-id", PyStr "iid-seed"); ("local-hostname", PyStr "seeded")],
              PyStr "#cloud-config", PyNone)).

(** Metadata resolved from an OVF environment that redirects to a seed. *)
Definition redirected_locals : Locals := {|
  found := ["/var/lib/cloud/seed/ovf-env.xml"];
  md := [("seedfrom", PyStr "/var/lib/cloud/seed/extra/");
         ("instance-id", PyStr "iid-1")];
  ud := PyNone; vd := PyStr ""; cfg_ := [];
  vmwareImcConfigFilePath := None; nicspath := None;
  md_path := None; ud_path := None;
|}.

Definition initial_world : World :=
  {| self := init; marker_dir := ∅; events := [] |}.

(** ** Device names *)

(** [s.split(sep)] for a one-character [sep]. *)
Fixpoint split_on (sep : ascii) (s : string) : list string :=
  match s with
  | EmptyString => [EmptyString]
  | String c s' =>
      if Ascii.eqb c sep then EmptyString :: split_on sep s'
      else
        match split_on sep s' with
        | comp :: comps => String c comp :: comps
        | [] => [String c EmptyString]
        end
  end.

(** [s.count("/")] *)
Fixpoint count_slash (s : string) : nat :=
  match s with
  | EmptyString => 0
  | String c s' => if is_slash c then S (count_slash s') else count_slash s'
  end.

(** [s[n:]] *)
Fixpoint drop_chars (n : nat) (s : string) : string :=
  match n, s with
  | S n', String _ s' => drop_chars n' s'
  | _, _ => s
  end.

(** [s.partition(sep)[-1]]: what follows the first [sep], or nothing. *)
Fixpoint after_first (sep s : string) : string :=
  if String.prefix sep s then drop_chars (String.length sep) s
  else
    match s with
    | EmptyString => EmptyString
    | String _ s' => after_first sep s'
    end.

(** The loop body of [posixpath.normpath]. *)
Definition normpath_step (initial_slashes : nat) (new_comps : list string)
    (comp : string) : list string :=
  if String.eqb comp "" || String.eqb comp "." then new_comps
  else if negb (String.eqb comp "..")
          || ((initial_slashes =? 0)%nat && bool_decide (new_comps = []))
          || (bool_decide (new_comps ≠ [])
              && bool_decide (last new_comps = Some "..")) then
    new_comps ++ [comp]
  else if bool_decide (new_comps ≠ []) then removelast new_comps
  else new_comps.

(** [os.path.normpath] *)
Definition normpath (path : string) : string :=
  if String.eqb path "" then "."
  else
    let initial_slashes :=
      if String.prefix "/" path then
        if String.prefix "//" path && negb (String.prefix "///" path) then 2%nat
        else 1%nat
      else 0%nat in
    let comps := foldl (normpath_step initial_slashes) [] (split_on "/" path) in
    let path := join "/" comps in
    let path :=
      match initial_slashes with
      | 0%nat => path
      | 1%nat => "/" +:+ path
      | _ => "//" +:+ path
      end in
    if String.eqb path "" then "." else path.

Definition is_digit (c : ascii) : bool :=
  let n := nat_of_ascii c in ((48 <=? n) && (n <=? 57))%nat.

Definition is_lower (c : ascii) : bool :=
  let n := nat_of_ascii c in ((97 <=? n) && (n <=? 122))%nat.

(** [re.match] of the default pattern, whose three alternatives, anchored at
    the start, are "sr" and one or more digits, "hd" and a small letter, and
    "xvd" and anything: the name starts with "sr" and a digit, or with "hd"
    and a small letter, or with "xvd". *)
Definition default_regex_match (devname : string) : bool :=
  match devname with
  | String "s" (String "r" (String c _)) => is_digit c
  | String "h" (String "d" (String c _)) => is_lower c
  | String "x" (String "v" (String "d" _)) => true
  | _ => false
  end.

(** [maybe_cdrom_device].  [environ_regex] is the value of
    CLOUD_INIT_CDROM_DEV_REGEX, if it is set, and [re_compile] is
    [re.compile]: it raises on a pattern that is not well formed, and else
    gives the compiled pattern as the test [match(devname) is not None].
    The default pattern is well formed and is matched by
    [default_regex_match]. *)
Definition maybe_cdrom_device (environ_regex : option string)
    (re_compile : string → result (string → bool)) (devname : pyval)
    : result bool :=
  if negb (truthy devname) then Ok false
  else
    match devname with
    | PyStr devname =>
        let devname := normpath devname in
        let devname :=
          if String.prefix "/dev/" devname then after_first "/dev/" devname
          else devname in
        let after_slash :=
          if String.prefix "/" devname then
            Some (default "" (last (split_on "/" devname)))
          else if (0 <? count_slash devname)%nat then None
          else Some devname in
        match after_slash with
        | None => Ok false
        | Some devname =>
            if String.eqb devname "" then Ok false
            else
              match environ_regex with
              | Some devname_regex =>
                  match re_compile devname_regex with
                  | Ok cdmatch => Ok (cdmatch devname)
                  | Raise e => Raise e
                  end
              | None => Ok (default_regex_match devname)
              end
        end
    | _ => Raise (ValueError "Unexpected input for devname")
    end.

(** ** The transports *)

Module Transports.

(** What [subp.subp] gives: the output of a command that exited with 0, or
    the exit code it raises [ProcessExecutionError] with. *)
Inductive Completed :=
| Exited0 (out err : string)
| ProcessExecutionError (exit_code : Z).

(** What [util.mount_cb(dev, get_ovf_env, mtype)] meets: the device mounted
    on a temporary directory, or [MountFailedError]. *)
Inductive Mount :=
| Mounted (mountpoint : string)
| MountFailedError.

(** The host as the transports see it. *)
Record Host := {
  which : string → option string;
  subp : list string → Completed;
  mounts : list (string * (string * string));  (* dev, fstype, mountpoint *)
  find_devs_with : option string → list string;
  mount_cb : string → option string → Mount;
  environ_regex : option string;
  re_compile : string → result (string → bool);
}.

(** [transport_vmware_guestinfo], with what it logs. *)
Definition transport_vmware_guestinfo (host : Host) : list LogRecord * option string :=
  let rpctool := "vmware-rpctool" in
  let not_found := None in
  if negb (nonempty (which host rpctool)) then ([], not_found)
  else
    let cmd := [rpctool; "info-get guestinfo.ovfEnv"] in
    match subp host cmd with
    | Exited0 out _err =>
        if negb (String.eqb out "") then ([], Some out)
        else ([Debug "cmd %s exited 0 with empty stdout: %s"
                 [PyList (PyStr <$> cmd); PyStr out]], not_found)
    | ProcessExecutionError exit_code =>
        if negb (exit_code =? 1) then
          ([Warning "%s exited with code %d" [PyStr rpctool; PyInt exit_code];
            Debug "%s" [PyStr "ProcessExecutionError"]], not_found)
        else ([], not_found)
    end.

(** The first loop of [transport_iso9660], over the mounted file systems. *)
Fixpoint scan_mounts (env : Env) (host : Host) (require_iso : bool)
    (mounted : list (string * (string * string))) : result (option string) :=
  match mounted with
  | [] => Ok None
  | (dev, (fstype, mp)) :: rest =>
      if negb (String.eqb fstype "iso9660") && require_iso then
        scan_mounts env host require_iso rest
      else
        match maybe_cdrom_device (environ_regex host) (re_compile host) (PyStr dev) with
        | Raise e => Raise e
        | Ok false => scan_mounts env host require_iso rest
        | Ok true =>
            match get_ovf_env env mp with
            | Some (_fname, contents) => Ok (Some contents)
            | None => scan_mounts env host require_iso rest
            end
        end
  end.

(** The list comprehension of [transport_iso9660]: the devices of the wanted
    type whose names may be those of a CD-ROM drive. *)
Fixpoint cdrom_devices (host : Host) (found : list string) : result (list string) :=
  match found with
  | [] => Ok []
  | dev :: rest =>
      match maybe_cdrom_device (environ_regex host) (re_compile host) (PyStr dev) with
      | Raise e => Raise e
      | Ok keep =>
          match cdrom_devices host rest with
          | Raise e => Raise e
          | Ok devs => Ok (if keep then dev :: devs else devs)
          end
      end
  end.

(** The second loop of [transport_iso9660], over the devices to mount. *)
Fixpoint scan_devices (env : Env) (host : Host) (mtype : option string)
    (devs : list string) : option string :=
  match devs with
  | [] => None
  | dev :: rest =>
      match mount_cb host dev mtype with
      | MountFailedError => scan_devices env host mtype rest
      | Mounted mp =>
          match get_ovf_env env mp with
          | Some (_fname, contents) => Some contents
          | None => scan_devices env host mtype rest
          end
      end
  end.

(** [transport_iso9660] *)
Definition transport_iso9660 (env : Env) (host : Host) (require_iso : bool)
    : result (option string) :=
  match scan_mounts env host require_iso (mounts host) with
  | Raise e => Raise e
  | Ok (Some contents) => Ok (Some contents)
  | Ok None =>
      let mtype := if require_iso then Some "iso9660" else None in
      match cdrom_devices host
              (find_devs_with host ((λ t, "TYPE=" +:+ t) <$> mtype)) with
      | Raise e => Raise e
      | Ok devs => Ok (scan_devices env host mtype devs)
      end
  end.

End Transports.

(** ** The smaller methods of the data source *)

(** [DataSourceOVF.get_public_ssh_keys] *)
Definition get_public_ssh_keys (self : DataSourceOVF) : list pyval :=
  match dict_get (metadata self) "public-keys" with
  | None => []
  | Some (PyList pks) => pks
  | Some pks => [pks]
  end.

(** ['%s' % seed] *)
Definition format_seed (seed : option string) : string :=
  default "None" seed.

(** [DataSourceOVF._get_subplatform] *)
Definition _get_subplatform (env : Env) (self : DataSourceOVF) : result string :=
  match read_dmi_data env "system-product-name" with
  | None => Raise (AttributeError "'NoneType' object has no attribute 'lower'")
  | Some name =>
      let system_type := lower name in
      if String.eqb system_type "vmware" then
        Ok ("vmware (" +:+ format_seed (seed self) +:+ ")")
      else Ok ("ovf (" +:+ format_seed (seed self) +:+ ")")
  end.

(** ** More sample surroundings *)

(** The candidate names of [get_ovf_env], in its order. *)
Definition env_names : list string :=
  ["ovf-env.xml"; "ovf_env.xml"; "OVF_ENV.XML"; "OVF-ENV.XML"].

(** A name is usable when it is a regular file that can be read. *)
Definition usable (env : Env) (dirname fname : string) : Prop :=
  isfile env (path_join dirname fname) = true
  ∧ ∃ contents, load_file env (path_join dirname fname) = Ok contents.

(** [files] as a file system: the readable files with their contents, and
    the files that are there but cannot be read. *)
Definition lookup_file (files : list (string * option string)) (path : string)
    : option (option string) :=
  snd <$> List.find (λ entry, String.eqb entry.1 path) files.

(** Surroundings with the given files, platform name, parsers and transport
    results, and nothing else. *)
Definition file_env (files : list (string * option string))
    (system_type : option string)
    (parseString : string → result document)
    (b64decode : string → result string)
    (safeyaml_load : string → result dict)
    (guestinfo iso : option string) : Env := {|
  paths_seed_dir := "/var/lib/cloud/seed";
  paths_cloud_dir := "/var/lib/cloud";
  sys_cfg := None;
  ds_cfg := None;
  osfamily := None;
  generate_fallback_config := PyDict [("version", PyInt 1)];
  supported_seed_starts := ["/"; "file://"];
  vmware_customization_supported := true;
  get_cfg_option_bool := λ _ _ default, default;
  read_dmi_data := λ _, system_type;
  read_seeded := λ _, Raise (OtherError "no seed");
  isfile := λ path, bool_decide (is_Some (lookup_file files path));
  path_exists := λ path, bool_decide (is_Some (lookup_file files path));
  load_file := λ path,
    match lookup_file files path with
    | Some (Some contents) => Ok contents
    | Some None => Raise (OtherError "Permission denied")
    | None => Raise (FileNotFoundError "No such file or directory")
    end;
  walk := λ _, [];
  imc_isfile := λ _ path, bool_decide (is_Some (lookup_file files path));
  parseString := parseString;
  b64decode := b64decode;
  safeyaml_load := safeyaml_load;
  read_config := λ _, Raise (OtherError "no configuration file");
  nic_generate := λ _ _ _ _, Ok [];
  get_nics_to_enable := λ _, Ok PyNone;
  password_configure := λ _ _, Ok ();
  transport_vmware_guestinfo := guestinfo;
  transport_iso9660 := iso;
|}.

(** A mounted CD-ROM whose ovf-env.xml cannot be read and whose OVF_ENV.XML
    can. *)
Definition cdrom_env : Env :=
  file_env [("/media/cdrom/ovf-env.xml", None);
            ("/media/cdrom/OVF_ENV.XML", Some "<Environment/>")]
    None (λ _, Raise (OtherError "syntax error"))
    (λ _, Raise (ValueError "Incorrect padding"))
    (λ _, Raise (YAMLError "not a mapping")) None None.

(** Every value of the dict is a string. *)
Definition all_str (d : dict) : Prop :=
  Forall (λ item, ∃ s, item.2 = PyStr s) d.

(** The keys under which [read_ovf_environment] files metadata. *)
Definition md_keys : list string :=
  ["seedfrom"; "local-hostname"; "public-keys"; "instance-id"; "network-config"].

(** An OVF environment document with a password, a host name, user data and
    a property that the data source does not know. *)
Definition four_properties : document :=
  {| documentElement :=
       Element (Some envNsURI) "Environment" []
         [Element (Some envNsURI) "PropertySection" []
            [Element (Some envNsURI) "Property"
               [(Some envNsURI, "key", "password"); (Some envNsURI, "value", "s3cret")] [];
             Element (Some envNsURI) "Property"
               [(Some envNsURI, "key", "hostname"); (Some envNsURI, "value", "host1")] [];
             Element (Some envNsURI) "Property"
               [(Some envNsURI, "key", "user-data"); (Some envNsURI, "value", "#!/bin/sh")] [];
             Element (Some envNsURI) "Property"
               [(Some envNsURI, "key", "public-keys");
                (Some envNsURI, "value", "ssh-rsa AAAA one,ssh-rsa BBBB two")] [];
             Element (Some envNsURI) "Property"
               [(Some envNsURI, "key", "color"); (Some envNsURI, "value", "blue")] []]] |}.

(** Surroundings whose XML parser knows that one document, and whose
    base64 decoder rejects everything. *)
Definition ovf_env : Env :=
  file_env [] None (λ _, Ok four_properties)
    (λ _, Raise (ValueError "Incorrect padding"))
    (λ _, Raise (YAMLError "not a mapping")) None None.

(** A data source whose metadata is [md]. *)
Definition with_metadata (md : dict) : DataSourceOVF :=
  set_results "" md PyNone PyNone [] init.

(** What one turn of the loop keeps true of the metadata and the
    configuration gathered so far. *)
Definition filed (read_network : bool) (acc : dict * pyval * dict) : Prop :=
  (∀ k v, dict_get acc.1.1 k = Some v →
     k ∈ md_keys
     ∧ (k = "network-config" → read_network = true)
     ∧ (k ≠ "network-config" → ∃ s, v = PyStr s))
  ∧ (∀ k v, dict_get acc.2 k = Some v → k = "password" ∧ ∃ s, v = PyStr s).

(** Two lines of text with a DOS line end between them. *)
Definition crlf_text : string :=
  "#cloud-config" +:+ String "013" (String "010" "hostname: vm").

(** An IMC directory with cust.cfg, a metadata file and a user data file;
    the YAML loader reads every text as the same metadata. *)
Definition raw_data_env : Env :=
  file_env [("/var/run/vmware-imc/cust.cfg", Some "");
            ("/var/run/vmware-imc/metadata.yaml", Some "instance-id: cloud-vm");
            ("/var/run/vmware-imc/userdata", Some crlf_text)]
    (Some "VMware Virtual Platform")
    (λ _, Raise (OtherError "syntax error"))
    (λ _, Raise (ValueError "Incorrect padding"))
    (λ _, Ok [("instance-id", PyStr "cloud-vm");
              ("network", PyDict [("version", PyInt 2)])])
    None None.

(** The pattern that decides in [maybe_cdrom_device]: the one of the
    environment variable if it is set, which has to compile first, else the
    default one. *)
Definition cdrom_match (environ_regex : option string)
    (re_compile : string → result (string → bool)) (devname : string)
    : result bool :=
  match environ_regex with
  | Some devname_regex =>
      match re_compile devname_regex with
      | Ok cdmatch => Ok (cdmatch devname)
      | Raise e => Raise e
      end
  | None => Ok (default_regex_match devname)
  end.

(** A path component that [normpath] leaves alone: it has no slash and is
    neither empty nor "." nor "..". *)
Definition plain_name (n : string) : Prop :=
  count_slash n = 0%nat ∧ n ≠ "" ∧ n ≠ "." ∧ n ≠ "..".

(** A host with the root file system and a CD-ROM mounted, one more drive
    that cannot be mounted, and a guest-RPC tool that finds no OVF
    environment. *)
Definition cdrom_host : Transports.Host := {|
  Transports.which := λ _, Some "/usr/bin/vmware-rpctool";
  Transports.subp := λ _, Transports.ProcessExecutionError 1;
  Transports.mounts := [("/dev/sda1", ("ext4", "/"));
                        ("/dev/sr0", ("iso9660", "/media/cdrom"))];
  Transports.find_devs_with := λ _, ["/dev/sr1"];
  Transports.mount_cb := λ _ _, Transports.MountFailedError;
  Transports.environ_regex := None;
  Transports.re_compile := λ _, Ok (λ _, false);
|}.

(** The command line of [transport_vmware_guestinfo]. *)
Definition guestinfo_cmd : list string :=
  ["vmware-rpctool"; "info-get guestinfo.ovfEnv"].

(** [maybe_cdrom_device(dev)] is True on this host. *)
Definition is_cdrom (host : Transports.Host) (dev : string) : Prop :=
  maybe_cdrom_device (Transports.environ_regex host) (Transports.re_compile host)
    (PyStr dev) = Ok true.

(** The file system type that [transport_iso9660] asks for. *)
Definition iso_mtype (require_iso : bool) : option string :=
  if require_iso then Some "iso9660" else None.

(** The two switches of the VMware branch, as [_get_data] reads them when
    customization is supported. *)
Definition allow_vmware_cust (env : Env) : bool :=
  negb (get_cfg_option_bool env (sys_cfg env) "disable_vmware_customization" true).

Definition allow_raw_data (env : Env) : bool :=
  get_cfg_option_bool env (ds_cfg env) "allow_raw_data" true.

(** A descriptor of the legacy kind: host identity, a password to set and a
    marker id, no metadata file. *)
Definition legacy_config : Config := {|
  host_name := Some "vm1"; domain_name := Some "example.org"; timezone := None;
  admin_password := Some "s3cret"; reset_password := false;
  marker_id := Some "42"; default_run_post_script := false; nics := [];
  name_servers := ["10.0.0.2"]; dns_suffixes := [];
  meta_data_name := None; user_data_name := None;
|}.

(** A VMware guest with the plugin installed and an IMC directory that
    holds cust.cfg and nics.txt. *)
Definition legacy_env : Env :=
  make_env (Some "VMware Virtual Platform")
    (λ dir, if String.eqb dir "/usr/lib/vmware-tools"
            then [("/usr/lib/vmware-tools/plugins/vmsvc", ["libdeployPkgPlugin.so"])]
            else [])
    (λ _ path, String.eqb path "/var/run/vmware-imc/cust.cfg")
    (λ path, String.eqb path "/var/run/vmware-imc/cust.cfg"
             || String.eqb path "/var/run/vmware-imc/nics.txt")
    (λ _, Ok legacy_config)
    ["/"; "file://"]
    (λ _, Raise (OtherError "no seed")).

(** The world once the descriptor has been read. *)
Definition legacy_world : World :=
  {| self := set_vmware_cust_conf (Some legacy_config) init;
     marker_dir := ∅; events := [] |}.

(** The local variables on entry to the legacy path. *)
Definition legacy_locals : Locals := {|
  found := []; md := []; ud := PyStr ""; vd := PyStr ""; cfg_ := [];
  vmwareImcConfigFilePath := Some "/var/run/vmware-imc/cust.cfg";
  nicspath := Some "/var/run/vmware-imc/nics.txt";
  md_path := None; ud_path := None;
|}.

(** Whether a run of the legacy path is a special customization, and
    whether it then sets a password. *)
Definition special_customization (config : Config) (w : World) : bool :=
  nonempty (marker_id config)
  && negb (check_marker_exists (marker_id config) (marker_dir w)).

Definition sets_password (config : Config) (w : World) : bool :=
  special_customization config w
  && (nonempty (admin_password config) || reset_password config).

(** The network configuration of the legacy path, from the records of the
    NIC configurator. *)
Definition network_of (config : Config) (records : list pyval) : pyval :=
  PyDict
    [("version", PyInt 1);
     ("config",
      PyList (records ++
              if truthy (PyList (PyStr <$> name_servers config))
                 || truthy (PyList (PyStr <$> dns_suffixes config))
              then [nameserver_record (PyList (PyStr <$> name_servers config))
                      (PyList (PyStr <$> dns_suffixes config))]
              else []))].

(** The surroundings [env] with another NIC configurator and another
    password configurator. *)
Definition with_configurators
    (generate : list pyval → bool → bool → option string → result (list pyval))
    (configure : option string → bool → result unit) (env : Env) : Env := {|
  paths_seed_dir := paths_seed_dir env;
  paths_cloud_dir := paths_cloud_dir env;
  sys_cfg := sys_cfg env;
  ds_cfg := ds_cfg env;
  osfamily := osfamily env;
  generate_fallback_config := generate_fallback_config env;
  supported_seed_starts := supported_seed_starts env;
  vmware_customization_supported := vmware_customization_supported env;
  get_cfg_option_bool := get_cfg_option_bool env;
  read_dmi_data := read_dmi_data env;
  read_seeded := read_seeded env;
  isfile := isfile env;
  path_exists := path_exists env;
  load_file := load_file env;
  walk := walk env;
  imc_isfile := imc_isfile env;
  parseString := parseString env;
  b64decode := b64decode env;
  safeyaml_load := safeyaml_load env;
  read_config := read_config env;
  nic_generate := generate;
  get_nics_to_enable := get_nics_to_enable env;
  password_configure := configure;
  transport_vmware_guestinfo := transport_vmware_guestinfo env;
  transport_iso9660 := transport_iso9660 env;
|}.

(** The local variables on entry to the raw-data path. *)
Definition raw_data_locals : Locals := {|
  found := []; md := []; ud := PyStr ""; vd := PyStr ""; cfg_ := [];
  vmwareImcConfigFilePath := Some "/var/run/vmware-imc/cust.cfg";
  nicspath := None;
  md_path := Some "/var/run/vmware-imc/metadata.yaml";
  ud_path := Some "/var/run/vmware-imc/userdata";
|}.

(** The network configuration that the raw-data path keeps: the one of the
    metadata if it is true, else the fallback of the distribution. *)
Definition network_or_fallback (env : Env) (network : option pyval) : option pyval :=
  if match network with Some n => truthy n | None => false end
  then network else Some (generate_fallback_config env).

(** The status code and the message that the raw-data path reports for an
    exception. *)
Definition raw_data_failure (e : exn) : GuestCustCode * string :=
  match e with
  | YAMLError _ =>
      (GUESTCUST_ERROR_WRONG_META_FORMAT, "Error parsing the cloud-init meta data")
  | _ =>
      (GUESTCUST_EVENT_CUSTOMIZE_FAILED, "Error loading cloud-init configuration")
  end.

(** The calls by which [_raise_error_status] reports a failure. *)
Definition failure_report (conf : option Config) (code : GuestCustCode)
    (prefix config_file : string) : list Event :=
  [SetCustomizationStatus GUESTCUST_STATE_RUNNING code;
   SetGcStatus conf prefix;
   DelDir (dirname config_file)].

(** The calls that end a customization that went through. *)
Definition success_report (conf : option Config) : list Event :=
  [SetCustomizationStatus GUESTCUST_STATE_DONE GUESTCUST_ERROR_SUCCESS;
   SetGcStatus conf "Successful"].

(** Whether the password configurator was called in a trace. *)
Definition is_ConfigurePassword (ev : Event) : bool :=
  match ev with
  | ConfigurePassword _ _ => true
  | _ => false
  end.

(** An IMC directory whose metadata file is not YAML. *)
Definition bad_yaml_env : Env :=
  file_env [("/var/run/vmware-imc/cust.cfg", Some "");
            ("/var/run/vmware-imc/metadata.yaml", Some "{");
            ("/var/run/vmware-imc/userdata", Some crlf_text)]
    (Some "VMware Virtual Platform")
    (λ _, Raise (OtherError "syntax error"))
    (λ _, Raise (ValueError "Incorrect padding"))
    (λ _, Raise (YAMLError "while parsing a flow node"))
    None None.

(** [system_type and 'vmware' in system_type.lower()] *)
Definition on_vmware (env : Env) : bool :=
  nonempty (read_dmi_data env "system-product-name")
  && contains "vmware" (lower (default "" (read_dmi_data env "system-product-name"))).

(** Lines 87-368 of [_get_data]: all of it but the seed redirection and the
    assignments of the results. *)
Definition gather (fuel : nat) (env : Env) : M Locals :=
  l ← probe fuel env;
  load env l.

(** A seed directory with an OVF environment file, on a guest whose
    guest-RPC channel also holds an OVF environment; the XML parser reads
    the text of the seed file as the document with two properties and any
    other text as the one with four. *)
Definition seed_and_guestinfo_env : Env :=
  file_env [("/var/lib/cloud/seed/ovf-env.xml", Some "<seed/>")]
    None
    (λ text, if String.eqb text "<seed/>" then Ok two_properties
             else Ok four_properties)
    (λ _, Raise (ValueError "Incorrect padding"))
    (λ _, Raise (YAMLError "not a mapping"))
    (Some "<guestinfo/>") None.

(** The name under which [read_ovf_environment] looks a property up:
    [if prop == 'hostname': prop = "local-hostname"]. *)
Definition filed_as (prop : string) : string :=
  if String.eqb prop "hostname" then "local-hostname" else prop.

(** The user data that [read_ovf_environment] makes of a user-data
    property: its base64 decoding, or its bytes as they are if it does not
    decode. *)
Definition user_data (env : Env) (val : string) : pyval :=
  match b64decode env val with
  | Ok decoded => PyBytes decoded
  | Raise _ => PyBytes val
  end.

(** * Properties *)

(** ** Dicts *)

Lemma dict_get_set_eq (d : dict) (k : string) (v : pyval) :
  dict_get (dict_set d k v) k = Some v.
Proof.
  induction d as [|[k' v'] d IH]; simpl.
  - by rewrite String.eqb_refl.
  - destruct (String.eqb k' k) eqn:E; simpl; rewrite E; [done | exact IH].
Qed.

Lemma dict_get_set_ne (d : dict) (k k' : string) (v : pyval) :
  k ≠ k' → dict_get (dict_set d k v) k' = dict_get d k'.
Proof.
  intros Hne. induction d as [|[k0 v0] d IH]; simpl.
  - destruct (String.eqb k k') eqn:E; [|done].
    apply String.eqb_eq in E. contradiction.
  - destruct (String.eqb k0 k) eqn:E; simpl.
    + apply String.eqb_eq in E. subst k0.
      destruct (String.eqb k k') eqn:E'; [|done].
      apply String.eqb_eq in E'. contradiction.
    + destruct (String.eqb k0 k'); [done | exact IH].
Qed.

Lemma dict_set_not_nil (d : dict) (k : string) (v : pyval) :
  dict_set d k v ≠ [].
Proof. destruct d as [|[k' v'] d]; simpl; [done|]. by destruct (String.eqb k' k). Qed.

(** ** The configured wait *)

(** The value found under the option decides the outcome, whatever else the
    configuration holds. *)
Lemma get_max_wait_from_cfg_set (cfg : dict) (v : pyval) :
  get_max_wait_from_cfg (Some (dict_set cfg max_wait_cfg_option v))
  = get_max_wait_from_cfg (Some [(max_wait_cfg_option, v)]).
Proof.
  pose proof (dict_set_not_nil cfg max_wait_cfg_option v) as Hne.
  pose proof (dict_get_set_eq cfg max_wait_cfg_option v) as Hget.
  unfold get_max_wait_from_cfg.
  destruct (dict_set cfg max_wait_cfg_option v) as [|p d] eqn:E; [done|].
  rewrite Hget. reflexivity.
Qed.

(** C8: [get_max_wait_from_cfg] returns 30 for the configured value 30; the
    default 15, with a warning, for the negative value -5; the default for
    the non-numeric value "abc"; and the default when the configuration is
    empty or absent. *)
Theorem get_max_wait_from_cfg_cases (cfg : dict) :
  get_max_wait_from_cfg (Some (dict_set cfg "vmware_cust_file_max_wait" (PyInt 30)))
    = ([], Ok 30)
  ∧ get_max_wait_from_cfg (Some (dict_set cfg "vmware_cust_file_max_wait" (PyInt (-5))))
    = ([Warning "Invalid value '%s' for '%s', using '%s' instead"
          [PyInt (-5); PyStr "vmware_cust_file_max_wait"; PyInt 15]], Ok 15)
  ∧ get_max_wait_from_cfg (Some (dict_set cfg "vmware_cust_file_max_wait" (PyStr "abc")))
    = ([Warning "Failed to get '%s', using %s"
          [PyStr "vmware_cust_file_max_wait"; PyInt 15]], Ok 15)
  ∧ get_max_wait_from_cfg (Some []) = ([], Ok 15)
  ∧ get_max_wait_from_cfg None = ([], Ok 15).
Proof.
  repeat split; try reflexivity;
    rewrite (get_max_wait_from_cfg_set cfg); reflexivity.
Qed.

(** A non-negative integer is returned as it is, a negative one replaced. *)
Lemma get_max_wait_from_cfg_int (cfg : dict) (z : Z) :
  (get_max_wait_from_cfg (Some (dict_set cfg max_wait_cfg_option (PyInt z)))).2
  = Ok (if z <? 0 then 15 else z).
Proof.
  rewrite get_max_wait_from_cfg_set. unfold get_max_wait_from_cfg. simpl.
  by destruct (z <? 0).
Qed.

(** The returned wait is never negative. *)
Lemma get_max_wait_from_cfg_nonneg (cfg : option dict) (z : Z) :
  (get_max_wait_from_cfg cfg).2 = Ok z → 0 ≤ z.
Proof.
  unfold get_max_wait_from_cfg.
  destruct cfg as [[|p d]|]; simpl; try (intros [= <-]; done).
  destruct (py_int _) as [z'|[]]; simpl; try discriminate;
    try (intros [= <-]; done).
  destruct (Z.ltb_spec z' 0); simpl; intros [= <-];
    unfold default_max_wait; lia.
Qed.

(** ** Waiting for the customization file *)





(** With a budget of zero the adjusted interval is 1, but then the loop body,
    and with it the sleep, is never reached. *)
Lemma effective_naplen_zero_budget (naplen : Z) :
  0 ≤ naplen → effective_naplen 0 naplen = 1.
Proof. intros H. unfold effective_naplen. by destruct (Z.leb_spec 0 naplen); [|lia]. Qed.

(** C10: with [maxwait] 0, a value [get_max_wait_from_cfg] accepts,
    [wait_for_imc_cfg_file] returns None at once: it neither looks for the
    file nor sleeps, whatever the directory holds. *)
Theorem wait_for_imc_cfg_file_zero (cfg : dict) (isfile : Z → string → bool)
    (filename dirpath : string) (naplen : Z) (fuel : nat) :
  get_max_wait_from_cfg (Some (dict_set cfg "vmware_cust_file_max_wait" (PyInt 0)))
    = ([], Ok 0)
  ∧ wait_for_imc_cfg_file (S fuel) isfile filename 0 naplen dirpath
    = Some {| wait_result := None; wait_waited := 0; wait_trace := [] |}.
Proof.
  split; [rewrite (get_max_wait_from_cfg_set cfg)|]; reflexivity.
Qed.

(** ** The trailing nameserver record *)

Lemma nameserver_record_is_nameserver (nameservers search : pyval) :
  is_nameserver_record (nameserver_record nameservers search) = true.
Proof. reflexivity. Qed.

Lemma filter_none {A} (f : A → bool) (l : list A) :
  Forall (λ x, f x = false) l → List.filter f l = [].
Proof.
  induction 1 as [|x l Hx _ IH]; simpl; [done|]. by rewrite Hx.
Qed.

(** A Python list is true exactly when it is not empty. *)
Lemma truthy_list (l : list pyval) : truthy (PyList l) = true ↔ l ≠ [].
Proof. by destruct l. Qed.

(** The document that [get_network_config] builds from a list of records. *)
Lemma get_network_config_list (nics : list pyval) (nameservers search : pyval) :
  get_network_config (PyList nics) nameservers search
  = Ok (PyDict
          [("version", PyInt 1);
           ("config",
            PyList (nics ++
                    if truthy nameservers || truthy search
                    then [nameserver_record nameservers search] else []))]).
Proof.
  unfold get_network_config.
  destruct (truthy nameservers || truthy search); [done|]. by rewrite app_nil_r.
Qed.

Lemma filter_nameserver_snoc (nics : list pyval) (r : pyval) :
  Forall (λ r, is_nameserver_record r = false) nics →
  is_nameserver_record r = true →
  List.filter is_nameserver_record (nics ++ [r]) = [r].
Proof.
  intros Hnics Hr. rewrite List.filter_app, (filter_none _ _ Hnics). simpl.
  by rewrite Hr.
Qed.

(** C4: for every list of NIC records (records that are not themselves of
    type 'nameserver') and every nameserver and search input,
    [get_network_config] returns a version-1 document; when the nameservers
    or the search domains are a non-empty list, its config list is the NIC
    records followed by one record of type 'nameserver', the only one in the
    list; when both are empty (or None), the config list is the NIC records
    and holds no such record. *)
Theorem get_network_config_nameserver (nics : list pyval)
    (nameservers search : pyval) :
  Forall (λ r, is_nameserver_record r = false) nics →
  ∃ config_list,
    get_network_config (PyList nics) nameservers search
      = Ok (PyDict [("version", PyInt 1); ("config", PyList config_list)])
    ∧ (truthy nameservers = true ∨ truthy search = true →
       ∃ r, config_list = nics ++ [r]
            ∧ r = nameserver_record nameservers search
            ∧ is_nameserver_record r = true
            ∧ last config_list = Some r
            ∧ List.filter is_nameserver_record config_list = [r])
    ∧ (truthy nameservers = false ∧ truthy search = false →
       config_list = nics
       ∧ List.filter is_nameserver_record config_list = []).
Proof.
  intros Hnics. eexists. split; [apply get_network_config_list|].
  destruct (truthy nameservers), (truthy search); simpl; split;
    try (by intros [? ?]); try (by intros [?|?]).
  all: try (intros _; eexists; repeat split;
            [apply last_snoc | by apply filter_nameserver_snoc]).
  intros _. rewrite app_nil_r. split; [done|]. by apply filter_none.
Qed.

Lemma get_network_config_nameserver_witness :
  ∃ config_list,
    get_network_config (PyList [PyDict [("type", PyStr "physical")]])
      (PyList [PyStr "10.0.0.2"]) (PyList [])
      = Ok (PyDict [("version", PyInt 1); ("config", PyList config_list)])
    ∧ (truthy (PyList [PyStr "10.0.0.2"]) = true ∨ truthy (PyList []) = true →
       ∃ r, config_list = [PyDict [("type", PyStr "physical")]] ++ [r]
            ∧ r = nameserver_record (PyList [PyStr "10.0.0.2"]) (PyList [])
            ∧ is_nameserver_record r = true
            ∧ last config_list = Some r
            ∧ List.filter is_nameserver_record config_list = [r])
    ∧ (truthy (PyList [PyStr "10.0.0.2"]) = false ∧ truthy (PyList []) = false →
       config_list = [PyDict [("type", PyStr "physical")]]
       ∧ List.filter is_nameserver_record config_list = []).
Proof.
  apply (get_network_config_nameserver [PyDict [("type", PyStr "physical")]]
           (PyList [PyStr "10.0.0.2"]) (PyList [])).
  repeat constructor.
Defined.

(** The same holds for the configuration derived from an IMC descriptor,
    whenever the NIC configurator yields NIC records. *)
Lemma get_network_config_from_conf_nameserver
    (generate : list pyval → bool → bool → option string → result (list pyval))
    (config : Config) (use_system_devices configure : bool)
    (osfamily : option string) (nics_cfg_list : list pyval) :
  generate (nics config) use_system_devices configure osfamily = Ok nics_cfg_list →
  Forall (λ r, is_nameserver_record r = false) nics_cfg_list →
  ∃ config_list,
    get_network_config_from_conf generate config use_system_devices configure osfamily
      = Ok (PyDict [("version", PyInt 1); ("config", PyList config_list)])
    ∧ List.filter is_nameserver_record config_list
      = if bool_decide (name_servers config = [] ∧ dns_suffixes config = [])
        then []
        else [nameserver_record (PyList (PyStr <$> name_servers config))
                (PyList (PyStr <$> dns_suffixes config))].
Proof.
  intros Hgen Hnics. unfold get_network_config_from_conf. rewrite Hgen.
  eexists. split; [apply get_network_config_list|].
  destruct (name_servers config) as [|n ns], (dns_suffixes config) as [|d ds];
    simpl.
  - rewrite app_nil_r. by apply filter_none.
  - by apply filter_nameserver_snoc.
  - by apply filter_nameserver_snoc.
  - by apply filter_nameserver_snoc.
Qed.

(** ** The marker store *)

Lemma marker_file_prefix (markerid : string) :
  String.prefix ".markerfile" (marker_file markerid) = true.
Proof. reflexivity. Qed.

Lemma sweep_lookup (names : list string) (d : directory) (k : string) :
  foldl (λ d fname, if String.prefix ".markerfile" fname then delete fname d else d)
    d names !! k
  = if bool_decide (k ∈ names) && String.prefix ".markerfile" k then None else d !! k.
Proof.
  revert d. induction names as [|n names IH]; intros d; cbn [foldl].
  - by rewrite bool_decide_eq_false_2 by apply not_elem_of_nil.
  - rewrite IH. destruct (decide (k = n)) as [->|Hne].
    + rewrite (bool_decide_eq_true_2 (n ∈ n :: names)) by apply list_elem_of_here.
      destruct (String.prefix ".markerfile" n) eqn:E; simpl.
      * rewrite lookup_delete_eq. by destruct (bool_decide _).
      * by rewrite andb_false_r.
    + assert (bool_decide (k ∈ n :: names) = bool_decide (k ∈ names)) as ->.
      { apply bool_decide_ext. rewrite elem_of_cons.
        split; [intros [?|?]; [contradiction | done] | by right]. }
      destruct (bool_decide (k ∈ names) && String.prefix ".markerfile" k); [done|].
      destruct (String.prefix ".markerfile" n); [|done].
      by rewrite lookup_delete_ne.
Qed.

Lemma elem_of_listdir (d : directory) (k : string) :
  k ∈ listdir d ↔ is_Some (d !! k).
Proof.
  unfold listdir. rewrite list_elem_of_fmap. split.
  - intros ([k' v] & -> & Hin). apply elem_of_map_to_list in Hin. by exists v.
  - intros [v Hv]. exists (k, v). split; [done|]. by apply elem_of_map_to_list.
Qed.

(** What a directory holds after [setup_marker_files]. *)
Lemma setup_marker_files_lookup (markerid : string) (d : directory) (k : string) :
  setup_marker_files markerid d !! k
  = if decide (k = marker_file markerid) then Some ""
    else if String.prefix ".markerfile" k then None else d !! k.
Proof.
  unfold setup_marker_files. destruct (decide _) as [->|Hne].
  - by rewrite lookup_insert_eq.
  - rewrite lookup_insert_ne by done. rewrite sweep_lookup.
    destruct (String.prefix ".markerfile" k); [|by rewrite andb_false_r].
    rewrite andb_true_r. case_bool_decide as Hin; [done|].
    rewrite elem_of_listdir in Hin. by apply eq_None_not_Some.
Qed.

Lemma markers_setup_marker_files (markerid : string) (d : directory) :
  markers (setup_marker_files markerid d) = {[ marker_file markerid := "" ]}.
Proof.
  apply map_eq. intros k. unfold markers.
  rewrite map_lookup_filter, setup_marker_files_lookup.
  destruct (decide (k = marker_file markerid)) as [->|Hne].
  - by rewrite lookup_singleton_eq.
  - rewrite lookup_singleton_ne by done.
    destruct (String.prefix ".markerfile" k) eqn:E; [done|].
    destruct (d !! k); simpl; [|done].
    case_guard as Hg; simpl in *; [congruence | done].
Qed.

(** C5: [setup_marker_files] leaves exactly one marker file, the empty file
    named from the marker id, whatever the directory held; the other files
    stay as they were; and a second call with the same id changes nothing. *)
Theorem setup_marker_files_idempotent (markerid : string) (d : directory) :
  markers (setup_marker_files markerid d) = {[ marker_file markerid := "" ]}
  ∧ size (markers (setup_marker_files markerid d)) = 1%nat
  ∧ (∀ name, String.prefix ".markerfile" name = false →
       setup_marker_files markerid d !! name = d !! name)
  ∧ setup_marker_files markerid (setup_marker_files markerid d)
    = setup_marker_files markerid d
  ∧ size (markers (setup_marker_files markerid (setup_marker_files markerid d)))
    = 1%nat.
Proof.
  repeat split.
  - apply markers_setup_marker_files.
  - rewrite markers_setup_marker_files. apply map_size_singleton.
  - intros name Hname. rewrite setup_marker_files_lookup, Hname.
    destruct (decide _) as [->|]; [|done].
    by rewrite marker_file_prefix in Hname.
  - apply map_eq. intros k. rewrite !setup_marker_files_lookup.
    destruct (decide _); [done|]. by destruct (String.prefix ".markerfile" k).
  - rewrite markers_setup_marker_files. apply map_size_singleton.
Qed.

(** After [setup_marker_files] the marker of a non-empty id is found. *)
Lemma check_marker_exists_after_setup (markerid : string) (d : directory) :
  markerid ≠ "" →
  check_marker_exists (Some markerid) (setup_marker_files markerid d) = true.
Proof.
  intros Hne. unfold check_marker_exists.
  destruct (String.eqb_spec markerid ""); [done|].
  apply bool_decide_eq_true_2. rewrite setup_marker_files_lookup.
  destruct (decide _); [eauto | done].
Qed.

(** ** The OVF environment parser *)

Lemma find_filter_head {A} (f : A → bool) (l : list A) :
  List.find f l = head (List.filter f l).
Proof. induction l as [|x l IH]; simpl; [done|]. by destruct (f x). Qed.

Lemma existsb_find_none {A} (f : A → bool) (l : list A) :
  existsb f l = false ↔ List.find f l = None.
Proof.
  induction l as [|x l IH]; simpl; [done|]. destruct (f x); simpl; [|done].
  split; discriminate.
Qed.

(** The loop returns the dict of the pairs when every element has both
    attributes ... *)
Lemma collect_properties_ok (propElems : list node) (props : dict) :
  Forall (λ n, is_Some (property_pair n)) propElems →
  collect_properties propElems props
  = Ok (foldl (λ props kv, dict_set props kv.1 (PyStr kv.2)) props
          (omap property_pair propElems)).
Proof.
  intros Hall. revert props.
  induction Hall as [|n l [[k v] Hn] _ IH]; intros props; simpl; [done|].
  unfold property_pair in *. unfold attribute_value.
  destruct (getNamedItemNS _ _ "key") as [k'|]; [|done].
  destruct (getNamedItemNS _ _ "value") as [v'|]; [|done].
  simpl. apply IH.
Qed.

(** ... and fails on the first element that lacks one. *)
Lemma collect_properties_raise (propElems : list node) (props : dict) :
  Exists (λ n, property_pair n = None) propElems →
  ∃ msg, collect_properties propElems props = Raise (AttributeError msg).
Proof.
  intros Hex. revert props.
  induction propElems as [|n l IH]; intros props; [by apply Exists_nil in Hex|].
  simpl. unfold attribute_value.
  destruct (getNamedItemNS _ _ "key") as [k|] eqn:Ek; [|by eexists].
  destruct (getNamedItemNS _ _ "value") as [v|] eqn:Ev; [|by eexists].
  apply IH. apply Exists_cons in Hex as [Hn|Hl]; [|done].
  unfold property_pair in Hn. by rewrite Ek, Ev in Hn.
Qed.

(** Passing the three checks does not mean that properties are returned:
    this document passes them, and the parser fails on its [Property], which
    has no key. *)
Lemma get_properties_dom_without_key :
  malformed property_without_key = false
  ∧ get_properties_dom property_without_key
    = Raise (AttributeError "'NoneType' object has no attribute 'value'")
  ∧ ¬ ∃ props, get_properties_dom property_without_key = Ok props.
Proof. repeat split. intros [props H]. discriminate. Qed.

(** C6, amended: the parser raises [XmlError], and so extracts nothing, when
    the root is not named Environment, or has no child nodes, or has no
    PropertySection child.  Otherwise its result is decided by the Property
    children of the first PropertySection: when each carries the namespaced
    key and value attributes, the parser returns their key/value pairs (the
    last pair of a key counts); when one does not, the parser fails with an
    error that is not [XmlError]. *)
Theorem get_properties_dom_cases (dom : document) :
  (malformed dom = true → ∃ msg, get_properties_dom dom = Raise (XmlError msg))
  ∧ (malformed dom = false →
     ∃ section,
       first_property_section dom = Some section
       ∧ (Forall (λ n, is_Some (property_pair n)) (property_elements section) →
          get_properties_dom dom
          = Ok (dict_of_pairs (omap property_pair (property_elements section))))
       ∧ (Exists (λ n, property_pair n = None) (property_elements section) →
          ∃ msg, get_properties_dom dom = Raise (AttributeError msg))).
Proof.
  unfold malformed, get_properties_dom, first_property_section, find_child.
  destruct (named "Environment" (documentElement dom)); simpl;
    [|split; [by eexists | discriminate]].
  destruct (hasChildNodes (documentElement dom)); simpl;
    [|split; [by eexists | discriminate]].
  rewrite find_filter_head.
  destruct (existsb _ _) eqn:Hex; simpl.
  - split; [discriminate|]. intros _.
    destruct (List.filter _ _) as [|section rest] eqn:Hf.
    { apply not_false_iff_true in Hex. destruct Hex.
      apply existsb_find_none. by rewrite find_filter_head, Hf. }
    exists section. split; [done|].
    assert (List.filter (named "Property") (node_childNodes section)
            = property_elements section) as Hp by done.
    split; intros H.
    + destruct (hasChildNodes section) eqn:Hc; simpl.
      * by apply collect_properties_ok.
      * unfold hasChildNodes in Hc. unfold property_elements.
        by destruct (node_childNodes section).
    + destruct (hasChildNodes section) eqn:Hc; simpl.
      * by apply collect_properties_raise.
      * unfold hasChildNodes in Hc. unfold property_elements in H.
        destruct (node_childNodes section); [|done]. by apply Exists_nil in H.
  - split; [|discriminate]. intros _.
    apply existsb_find_none in Hex. rewrite find_filter_head in Hex.
    destruct (List.filter _ _); [by eexists | discriminate].
Qed.

Lemma get_properties_dom_cases_witness :
  get_properties_dom two_properties
  = Ok [("instance-id", PyStr "iid-1"); ("hostname", PyStr "host1")].
Proof.
  destruct (get_properties_dom_cases two_properties) as [_ H].
  destruct (H eq_refl) as (section & Hsec & Hok & _).
  injection Hsec as <-. apply Hok. repeat constructor; by eexists.
Defined.

(** ** The IMC file set *)

(** "Exactly one" is too strong: with no metadata declared and no nics.txt
    in the IMC directory, neither path is there (the fourth of the returns
    that the docstring of [collect_imc_file_paths] lists). *)
Lemma collect_imc_file_paths_none :
  collect_imc_file_paths (λ _, false) empty_config = Ok (None, None, None)
  ∧ ¬ exactly_one None None.
Proof.
  split; [reflexivity|]. intros [[[x H] _]|[_ [x H]]]; discriminate.
Qed.

(** C1, amended: in the file set that [collect_imc_file_paths] returns at
    most one of the metadata path and the NICs path is there.  When the
    configuration declares a metadata file name, the metadata path is there
    and the NICs path is not; otherwise the metadata path is not there, and
    the NICs path is there exactly when nics.txt exists in the IMC
    directory. *)
Theorem collect_imc_file_paths_exclusive (path_exists : string → bool)
    (cust_conf : Config) (md_path ud_path nics_path : option string) :
  collect_imc_file_paths path_exists cust_conf = Ok (md_path, ud_path, nics_path) →
  ¬ (is_Some md_path ∧ is_Some nics_path)
  ∧ (nonempty (meta_data_name cust_conf) = true →
     is_Some md_path ∧ nics_path = None)
  ∧ (nonempty (meta_data_name cust_conf) = false →
     md_path = None
     ∧ ud_path = None
     ∧ (is_Some nics_path ↔ path_exists (path_join VMWARE_IMC_DIR "nics.txt") = true)).
Proof.
  unfold collect_imc_file_paths.
  destruct (nonempty (meta_data_name cust_conf)).
  - destruct (path_exists (path_join VMWARE_IMC_DIR _)); simpl; [|discriminate].
    destruct (nonempty (user_data_name cust_conf)).
    + destruct (path_exists _); simpl; [|discriminate].
      intros [= <- <- <-]. repeat split; try done. by intros [_ [x ?]].
    + intros [= <- <- <-]. repeat split; try done. by intros [_ [x ?]].
  - destruct (path_exists _); simpl; intros [= <- <- <-];
      repeat split; try done; try (by intros [[x ?] _]); try (by intros [x ?]).
Qed.

Lemma collect_imc_file_paths_exclusive_witness :
  ¬ (is_Some (Some "/var/run/vmware-imc/metadata.yaml") ∧ is_Some (@None string))
  ∧ (nonempty (meta_data_name (raw_data_config "metadata.yaml" None)) = true →
     is_Some (Some "/var/run/vmware-imc/metadata.yaml") ∧ @None string = None)
  ∧ (nonempty (meta_data_name (raw_data_config "metadata.yaml" None)) = false →
     Some "/var/run/vmware-imc/metadata.yaml" = None
     ∧ @None string = None
     ∧ (is_Some (@None string)
        ↔ (λ _ : string, true) (path_join VMWARE_IMC_DIR "nics.txt") = true)).
Proof.
  apply (collect_imc_file_paths_exclusive (λ _, true)
           (raw_data_config "metadata.yaml" None)
           (Some "/var/run/vmware-imc/metadata.yaml") None None).
  reflexivity.
Defined.

(** ** A missing declared file ends the run *)

(** The state-and-exception monad: an exception skips what follows. *)
Lemma bind_raise {A B} (m : M A) (k : A → M B) (w w' : World) (e : exn) :
  m w = Some (Raise e, w') → (m ≫= k) w = Some (Raise e, w').
Proof. intros H. unfold mbind, M_bind. by rewrite H. Qed.

Lemma bind_ok {A B} (m : M A) (k : A → M B) (w w' : World) (a : A) :
  m w = Some (Ok a, w') → (m ≫= k) w = k a w'.
Proof. intros H. unfold mbind, M_bind. by rewrite H. Qed.

(** A path returned by the wait loop is the path it looked for. *)
Lemma wait_loop_found (fuel : nat) (isfile : Z → string → bool)
    (filename dirpath : string) (maxwait naplen waited : Z)
    (trace : list WaitEvent) (out : WaitOutcome) (path : string) :
  wait_loop fuel isfile filename dirpath maxwait naplen waited trace = Some out →
  wait_result out = Some path →
  path = path_join dirpath filename.
Proof.
  revert waited trace. induction fuel as [|fuel IH]; intros waited trace; simpl;
    [discriminate|].
  destruct (waited <? maxwait); [|by intros [= <-]].
  destruct (isfile waited _); [|apply IH].
  intros [= <-]. simpl. by intros [= <-].
Qed.

(** C3: on a VMware platform with customization allowed, the plugin
    installed and cust.cfg arrived, if the configuration declares a metadata
    file that does not exist (or, the metadata file existing, a userdata
    file that does not), then [collect_imc_file_paths] raises
    [FileNotFoundError] and [_get_data] reports RUNNING with the
    customize-failed event, pushes the prefix "File(s) missing in directory"
    as status text, deletes the IMC directory and raises that same error;
    these three calls are all it does to its collaborators, so no transport
    is tried. *)
Theorem missing_file_is_fatal (fuel : nat) (env : Env) (w : World)
    (system_type plugin_path config_file : string) (max_wait : Z)
    (out : WaitOutcome) (conf : Config) :
  get_ovf_env env (paths_seed_dir env) = None →
  read_dmi_data env "system-product-name" = Some system_type →
  contains "vmware" (lower system_type) = true →
  vmware_customization_supported env = true →
  negb (get_cfg_option_bool env (sys_cfg env) "disable_vmware_customization" true)
    || get_cfg_option_bool env (ds_cfg env) "allow_raw_data" true = true →
  find_plugin env search_paths "libdeployPkgPlugin.so" = Some plugin_path →
  (get_max_wait_from_cfg (ds_cfg env)).2 = Ok max_wait →
  wait_for_imc_cfg_file fuel (imc_isfile env) "cust.cfg" max_wait 5
    "/var/run/vmware-imc" = Some out →
  wait_result out = Some config_file →
  read_config env config_file = Ok conf →
  nonempty (meta_data_name conf) = true →
  path_exists env (path_join VMWARE_IMC_DIR (default "" (meta_data_name conf))) = false
  ∨ (nonempty (user_data_name conf) = true
     ∧ path_exists env (path_join VMWARE_IMC_DIR (default "" (user_data_name conf)))
       = false) →
  ∃ msg,
    collect_imc_file_paths (path_exists env) conf = Raise (FileNotFoundError msg)
    ∧ _get_data fuel env w
      = Some (Raise (FileNotFoundError msg),
              {| self := set_vmware_cust_conf (Some conf) (self w);
                 marker_dir := marker_dir w;
                 events := events w ++
                   [SetCustomizationStatus GUESTCUST_STATE_RUNNING
                      GUESTCUST_EVENT_CUSTOMIZE_FAILED;
                    SetGcStatus (Some conf) "File(s) missing in directory";
                    DelDir VMWARE_IMC_DIR] |}).
Proof.
  intros Hseed Hdmi Hvm Hsup Hflags Hplugin Hmax Hwait Hres Hconf Hmd Hmissing.
  assert (config_file = "/var/run/vmware-imc/cust.cfg") as ->.
  { unfold wait_for_imc_cfg_file in Hwait.
    by rewrite (wait_loop_found _ _ _ _ _ _ _ _ _ _ Hwait Hres). }
  assert (∃ msg, collect_imc_file_paths (path_exists env) conf
                 = Raise (FileNotFoundError msg)) as [msg Hcollect].
  { unfold collect_imc_file_paths. rewrite Hmd.
    destruct Hmissing as [->|[Hud ->]]; simpl; [by eexists|].
    rewrite Hud. destruct (path_exists env _); simpl; by eexists. }
  exists msg. split; [done|].
  assert (String.eqb system_type "" = false) as Hne.
  { destruct system_type; [discriminate | done]. }
  unfold _get_data, probe. rewrite Hseed, Hdmi.
  change (default "" (Some system_type)) with system_type.
  unfold nonempty at 1. rewrite Hne, Hvm. cbn [negb andb].
  apply bind_raise.
  unfold probe_vmware. rewrite Hsup. cbn [negb]. rewrite Hflags. cbn [negb].
  rewrite Hplugin.
  cbv [mbind M_bind lift mret M_ret wait]. rewrite Hmax, Hwait, Hres. simpl.
  rewrite Hconf. simpl. unfold try_except, lift. rewrite Hcollect. simpl.
  by rewrite <- !app_assoc.
Qed.

Lemma missing_file_is_fatal_witness :
  ∃ msg,
    collect_imc_file_paths (path_exists missing_metadata_env)
      (raw_data_config "metadata.yaml" None) = Raise (FileNotFoundError msg)
    ∧ _get_data 4 missing_metadata_env initial_world
      = Some (Raise (FileNotFoundError msg),
              {| self := set_vmware_cust_conf
                           (Some (raw_data_config "metadata.yaml" None))
                           (self initial_world);
                 marker_dir := marker_dir initial_world;
                 events := events initial_world ++
                   [SetCustomizationStatus GUESTCUST_STATE_RUNNING
                      GUESTCUST_EVENT_CUSTOMIZE_FAILED;
                    SetGcStatus (Some (raw_data_config "metadata.yaml" None))
                      "File(s) missing in directory";
                    DelDir VMWARE_IMC_DIR] |}).
Proof.
  apply (missing_file_is_fatal 4 missing_metadata_env initial_world
           "VMware Virtual Platform"
           "/usr/lib/vmware-tools/plugins/vmsvc/libdeployPkgPlugin.so"
           "/var/run/vmware-imc/cust.cfg" 15
           {| wait_result := Some "/var/run/vmware-imc/cust.cfg";
              wait_waited := 0;
              wait_trace := [CheckFile "/var/run/vmware-imc/cust.cfg"] |});
    try reflexivity.
  left. reflexivity.
Defined.

(** ** Seed redirection *)

Lemma dict_mem_get (d : dict) (k : string) :
  dict_mem d k = bool_decide (is_Some (dict_get d k)).
Proof.
  unfold dict_mem. destruct (dict_get d k); symmetry.
  - by apply bool_decide_eq_true_2.
  - apply bool_decide_eq_false_2. by intros [? ?].
Qed.

(** A merged dict answers from the first dict when it can. *)
Lemma merge_dict_get (merged source : dict) (k : string) :
  dict_get (merge_dict merged source) k
  = match dict_get merged k with
    | Some v => Some v
    | None => dict_get source k
    end.
Proof.
  unfold merge_dict. revert merged.
  induction source as [|[k0 v0] source IH]; intros merged; simpl.
  - by destruct (dict_get merged k).
  - rewrite IH. unfold dict_mem.
    destruct (String.eqb_spec k0 k) as [->|Hne].
    + destruct (dict_get merged k) eqn:E; [by rewrite E|].
      by rewrite dict_get_set_eq.
    + destruct (dict_get merged k0); [done|].
      by rewrite dict_get_set_ne.
Qed.

Lemma mergemanydict_get (a b : dict) (k : string) :
  dict_get (mergemanydict [a; b]) k
  = match dict_get a k with
    | Some v => Some v
    | None => dict_get b k
    end.
Proof.
  unfold mergemanydict. simpl. rewrite !merge_dict_get. simpl.
  by destruct (dict_get a k).
Qed.

(** The model of [mergemanydict] does what the specification asks of the
    merge of the defaults: they never override a discovered value, and the
    metadata always has an instance id afterwards. *)
Lemma defaults_never_override (md : dict) (k : string) (v : pyval) :
  dict_get md k = Some v → dict_get (mergemanydict [md; defaults]) k = Some v.
Proof. intros H. by rewrite mergemanydict_get, H. Qed.

Lemma instance_id_after_defaults (md : dict) :
  is_Some (dict_get (mergemanydict [md; defaults]) "instance-id").
Proof. rewrite mergemanydict_get. destruct (dict_get md _); by eexists. Qed.

(** Whatever [util.mergemanydict] does, it is called with the resolved
    metadata first both for the seed and for the defaults: a merge under
    which the defaults never override a discovered value cannot let the
    seed win every tie. *)
Section AnyMerge.

Variable merge : list dict → dict.

Hypothesis merge_defaults_never_override :
  ∀ (md : dict) (k : string) (v : pyval),
    dict_get md k = Some v → dict_get (merge [md; defaults]) k = Some v.

Lemma seed_cannot_win_every_tie :
  ¬ ∀ (md md_seed : dict) (k : string) (v : pyval),
      is_Some (dict_get md k) → dict_get md_seed k = Some v →
      dict_get (merge [md; md_seed]) k = Some v.
Proof.
  intros Hseed.
  pose proof (merge_defaults_never_override
                [("instance-id", PyStr "iid-1")] "instance-id" (PyStr "iid-1")
                eq_refl) as H1.
  pose proof (Hseed [("instance-id", PyStr "iid-1")] defaults "instance-id"
                (PyStr "iid-dsovf") (ltac:(by eexists)) eq_refl) as H2.
  rewrite H1 in H2. discriminate.
Qed.

End AnyMerge.

(** The seed does not win a tie: here the resolved metadata and the seed
    both have an instance id, and the resolved one is kept. *)
Lemma finish_keeps_resolved_value :
  ∃ w',
    finish seeded_env redirected_locals initial_world = Some (Ok true, w')
    ∧ dict_get (md redirected_locals) "instance-id" = Some (PyStr "iid-1")
    ∧ (∃ md_seed ud vd,
         read_seeded seeded_env "/var/lib/cloud/seed/extra/" = Ok (md_seed, ud, vd)
         ∧ dict_get md_seed "instance-id" = Some (PyStr "iid-seed"))
    ∧ dict_get (metadata (self w')) "instance-id" = Some (PyStr "iid-1")
    ∧ dict_get (metadata (self w')) "instance-id" ≠ Some (PyStr "iid-seed").
Proof.
  eexists. split; [vm_compute; reflexivity|]. repeat split; try done.
  by eexists _, _, _.
Qed.

(** C2, amended: when the resolved metadata has a non-empty [seedfrom] that
    starts with a supported scheme, the run reads the seed and merges its
    metadata with the resolved metadata so that a key present in both keeps
    the resolved value, the seed supplying the keys that were missing, and
    the userdata and vendordata of the seed are taken; when [seedfrom] starts
    with no supported scheme, the run reports no data. *)
Theorem finish_seed_redirection (env : Env) (l : Locals) (w : World)
    (seedfrom : string) :
  found l ≠ [] →
  dict_get (md l) "seedfrom" = Some (PyStr seedfrom) →
  seedfrom ≠ "" →
  (∀ proto md_seed ud_seed vd_seed,
     seed_proto (supported_seed_starts env) seedfrom = Some proto →
     proto ≠ "" →
     read_seeded env seedfrom = Ok (md_seed, ud_seed, vd_seed) →
     ∃ w',
       finish env l w = Some (Ok true, w')
       ∧ metadata (self w') = mergemanydict [mergemanydict [md l; md_seed]; defaults]
       ∧ userdata_raw (self w') = ud_seed
       ∧ vendordata_raw (self w') = vd_seed
       ∧ seed (self w') = Some (join "," (found l ++ [seedfrom]))
       ∧ (∀ k v, dict_get (md l) k = Some v →
            dict_get (metadata (self w')) k = Some v)
       ∧ (∀ k v, dict_get (md l) k = None → dict_get md_seed k = Some v →
            dict_get (metadata (self w')) k = Some v))
  ∧ (seed_proto (supported_seed_starts env) seedfrom = None →
     finish env l w = Some (Ok false, w)).
Proof.
  intros Hfound Hseedfrom Hne.
  assert (bool_decide (length (found l) = 0%nat) = false) as Hlen.
  { apply bool_decide_eq_false_2. by destruct (found l). }
  assert (truthy (PyStr seedfrom) = true) as Htruthy.
  { simpl. by destruct (String.eqb_spec seedfrom ""). }
  split.
  - intros proto md_seed ud_seed vd_seed Hproto Hproto_ne Hread.
    unfold finish. rewrite Hlen, Hseedfrom, Htruthy.
    cbv [mbind M_bind lift mret M_ret as_str]. rewrite Hproto.
    assert (nonempty (Some proto) = true) as ->.
    { simpl. by destruct (String.eqb_spec proto ""). }
    cbn [negb]. rewrite Hread. eexists. split; [reflexivity|]. simpl.
    repeat split.
    + intros k v Hk. by rewrite !mergemanydict_get, Hk.
    + intros k v Hk Hs. by rewrite !mergemanydict_get, Hk, Hs.
  - intros Hproto. unfold finish. rewrite Hlen, Hseedfrom, Htruthy.
    cbv [mbind M_bind lift mret M_ret as_str]. by rewrite Hproto.
Qed.

Lemma finish_seed_redirection_witness :
  ∃ w',
    finish seeded_env redirected_locals initial_world = Some (Ok true, w')
    ∧ metadata (self w')
      = [("seedfrom", PyStr "/var/lib/cloud/seed/extra/");
         ("instance-id", PyStr "iid-1"); ("local-hostname", PyStr "seeded")]
    ∧ userdata_raw (self w') = PyStr "#cloud-config".
Proof.
  destruct (finish_seed_redirection seeded_env redirected_locals initial_world
              "/var/lib/cloud/seed/extra/") as [Hok _];
    [done | reflexivity | done |].
  destruct (Hok "/" [("instance-id", PyStr "iid-seed");
                     ("local-hostname", PyStr "seeded")]
              (PyStr "#cloud-config") PyNone)
    as (w' & Hrun & Hmd & Hud & _); [reflexivity | done | reflexivity |].
  exists w'. by rewrite Hrun, Hmd, Hud.
Defined.

(** * Further properties of the module *)

(** ** The wait loop, when the file is there *)

Lemma wait_loop_some (fuel : nat) (isfile : Z → string → bool)
    (filename dirpath : string) (maxwait naplen waited : Z)
    (trace : list WaitEvent) (out : WaitOutcome) (path : string) :
  wait_loop fuel isfile filename dirpath maxwait naplen waited trace = Some out →
  wait_result out = Some path →
  wait_waited out < maxwait
  ∧ isfile (wait_waited out) path = true
  ∧ ∃ before, wait_trace out = before ++ [CheckFile path].
Proof.
  revert waited trace. induction fuel as [|fuel IH]; intros waited trace; simpl;
    [discriminate|].
  destruct (Z.ltb_spec waited maxwait) as [Hlt|Hge]; [|by intros [= <-]].
  destruct (isfile waited _) eqn:Hfile; [|apply IH].
  intros [= <-]. simpl. intros [= <-]. eauto.
Qed.

(** A path that [wait_for_imc_cfg_file] returns is the joined path it was
    asked to wait for; the file was seen there at the last look, which took
    place before the budget [maxwait] was used up. *)
Theorem wait_for_imc_cfg_file_found (fuel : nat) (isfile : Z → string → bool)
    (filename dirpath : string) (maxwait naplen : Z)
    (out : WaitOutcome) (path : string) :
  wait_for_imc_cfg_file fuel isfile filename maxwait naplen dirpath = Some out →
  wait_result out = Some path →
  path = path_join dirpath filename
  ∧ wait_waited out < maxwait
  ∧ isfile (wait_waited out) path = true
  ∧ ∃ before, wait_trace out = before ++ [CheckFile path].
Proof.
  unfold wait_for_imc_cfg_file. intros Hrun Hres. split.
  - eapply wait_loop_found; eauto.
  - eapply wait_loop_some; eauto.
Qed.

Lemma wait_for_imc_cfg_file_found_witness :
  "/var/run/vmware-imc/cust.cfg" = path_join "/var/run/vmware-imc" "cust.cfg"
  ∧ 5 < 15
  ∧ (λ t (_ : string), 5 <=? t) 5 "/var/run/vmware-imc/cust.cfg" = true
  ∧ ∃ before,
      [CheckFile "/var/run/vmware-imc/cust.cfg"; Sleep 5;
       CheckFile "/var/run/vmware-imc/cust.cfg"]
      = before ++ [CheckFile "/var/run/vmware-imc/cust.cfg"].
Proof.
  apply (wait_for_imc_cfg_file_found 3 (λ t _, 5 <=? t) "cust.cfg"
           "/var/run/vmware-imc" 15 5
           {| wait_result := Some "/var/run/vmware-imc/cust.cfg";
              wait_waited := 5;
              wait_trace := [CheckFile "/var/run/vmware-imc/cust.cfg"; Sleep 5;
                             CheckFile "/var/run/vmware-imc/cust.cfg"] |}
           "/var/run/vmware-imc/cust.cfg"); reflexivity.
Defined.

(** A file that is already there is returned at the first look, without any
    sleep, whenever there is a budget at all. *)
Theorem wait_for_imc_cfg_file_present (fuel : nat) (isfile : Z → string → bool)
    (filename dirpath : string) (maxwait naplen : Z) :
  0 < maxwait →
  isfile 0 (path_join dirpath filename) = true →
  wait_for_imc_cfg_file (S fuel) isfile filename maxwait naplen dirpath
  = Some {| wait_result := Some (path_join dirpath filename);
            wait_waited := 0;
            wait_trace := [CheckFile (path_join dirpath filename)] |}.
Proof.
  intros Hmax Hfile. unfold wait_for_imc_cfg_file. simpl.
  destruct (Z.ltb_spec 0 maxwait); [|lia]. by rewrite Hfile.
Qed.

Lemma wait_for_imc_cfg_file_present_witness :
  wait_for_imc_cfg_file 1 (λ _ _, true) "cust.cfg" 15 5 "/var/run/vmware-imc"
  = Some {| wait_result := Some (path_join "/var/run/vmware-imc" "cust.cfg");
            wait_waited := 0;
            wait_trace := [CheckFile (path_join "/var/run/vmware-imc" "cust.cfg")] |}.
Proof.
  apply (wait_for_imc_cfg_file_present 0 (λ _ _, true) "cust.cfg"
           "/var/run/vmware-imc" 15 5); [lia | reflexivity].
Defined.

(** ** The configured wait, at its edges *)

Lemma get_max_wait_from_cfg_nonneg_witness :
  (get_max_wait_from_cfg (Some [("vmware_cust_file_max_wait", PyInt (-5))])).2
  = Ok 15
  ∧ 0 ≤ 15.
Proof.
  split; [reflexivity|].
  apply (get_max_wait_from_cfg_nonneg
           (Some [("vmware_cust_file_max_wait", PyInt (-5))]) 15).
  reflexivity.
Defined.

(** A configured value that is neither a number nor a string does not fall
    back to the default: [int] raises [TypeError], which the function does
    not catch. *)
Theorem get_max_wait_from_cfg_type_error (cfg : dict) (l : list pyval) (d : dict) :
  (∃ msg, (get_max_wait_from_cfg
             (Some (dict_set cfg "vmware_cust_file_max_wait" PyNone))).2
          = Raise (TypeError msg))
  ∧ (∃ msg, (get_max_wait_from_cfg
               (Some (dict_set cfg "vmware_cust_file_max_wait" (PyList l)))).2
            = Raise (TypeError msg))
  ∧ (∃ msg, (get_max_wait_from_cfg
               (Some (dict_set cfg "vmware_cust_file_max_wait" (PyDict d)))).2
            = Raise (TypeError msg)).
Proof.
  repeat split; rewrite (get_max_wait_from_cfg_set cfg); by eexists.
Qed.

(** A configuration that says nothing about the wait gives the default, and
    no warning. *)
Theorem get_max_wait_from_cfg_missing_key (cfg : dict) :
  dict_get cfg "vmware_cust_file_max_wait" = None →
  get_max_wait_from_cfg (Some cfg) = ([], Ok 15).
Proof.
  intros Hget. unfold get_max_wait_from_cfg.
  destruct cfg as [|p cfg]; [done|].
  unfold max_wait_cfg_option. by rewrite Hget.
Qed.

Lemma get_max_wait_from_cfg_missing_key_witness :
  get_max_wait_from_cfg (Some [("allow_raw_data", PyBool true)]) = ([], Ok 15).
Proof.
  apply (get_max_wait_from_cfg_missing_key [("allow_raw_data", PyBool true)]).
  reflexivity.
Defined.

(** ** One marker at a time *)

Lemma string_length_app (a b : string) :
  String.length (a +:+ b) = (String.length a + String.length b)%nat.
Proof. induction a as [|c a IH]; simpl; [done|]. by rewrite IH. Qed.

Lemma string_app_inj_r (a b t : string) : a +:+ t = b +:+ t → a = b.
Proof.
  revert b. induction a as [|c a IH]; intros [|c' b] H; simpl in H.
  - done.
  - apply (f_equal String.length) in H.
    rewrite !string_length_app in H. simpl in H. lia.
  - apply (f_equal String.length) in H.
    rewrite !string_length_app in H. simpl in H. lia.
  - injection H as -> H. f_equal. by apply IH.
Qed.

Lemma marker_file_inj (a b : string) : marker_file a = marker_file b → a = b.
Proof.
  unfold marker_file. intros H. injection H as H.
  apply (string_app_inj_r a b ".txt"). exact H.
Qed.

(** [setup_marker_files] makes the marker of its id the one that
    [check_marker_exists] finds: the id is found afterwards if it is not
    empty, and no other id is, whatever markers were there before. *)
Theorem setup_marker_files_replaces (markerid other : string) (d : directory) :
  markerid ≠ "" →
  other ≠ markerid →
  check_marker_exists (Some markerid) (setup_marker_files markerid d) = true
  ∧ check_marker_exists (Some other) (setup_marker_files markerid d) = false.
Proof.
  intros Hne Hother. unfold check_marker_exists. split.
  - destruct (String.eqb_spec markerid ""); [done|].
    apply bool_decide_eq_true_2. rewrite setup_marker_files_lookup.
    destruct (decide _); [eauto | done].
  - destruct (String.eqb other ""); [done|].
    apply bool_decide_eq_false_2. rewrite setup_marker_files_lookup.
    destruct (decide _) as [Heq|_].
    + by apply marker_file_inj in Heq.
    + rewrite marker_file_prefix. by intros [? ?].
Qed.

Lemma setup_marker_files_replaces_witness :
  check_marker_exists (Some "42")
    (setup_marker_files "42" {[ ".markerfile-41.txt" := "" ]}) = true
  ∧ check_marker_exists (Some "41")
      (setup_marker_files "42" {[ ".markerfile-41.txt" := "" ]}) = false.
Proof.
  apply (setup_marker_files_replaces "42" "41" {[ ".markerfile-41.txt" := "" ]});
    done.
Defined.

(** No marker is ever found for a missing or empty id, not even the file
    that [setup_marker_files] creates for the empty id. *)
Theorem check_marker_exists_empty_id (d : directory) :
  check_marker_exists None d = false
  ∧ check_marker_exists (Some "") d = false
  ∧ setup_marker_files "" d !! ".markerfile-.txt" = Some ""
  ∧ check_marker_exists (Some "") (setup_marker_files "" d) = false.
Proof.
  repeat split. rewrite setup_marker_files_lookup. by destruct (decide _).
Qed.

(** ** Finding the environment file and the plugin *)

Lemma get_ovf_env_in_some (env : Env) (dirname : string) (names : list string)
    (fname contents : string) :
  get_ovf_env_in env dirname names = Some (fname, contents) →
  ∃ before after,
    names = before ++ fname :: after
    ∧ isfile env (path_join dirname fname) = true
    ∧ load_file env (path_join dirname fname) = Ok contents
    ∧ Forall (λ n, ¬ usable env dirname n) before.
Proof.
  induction names as [|n names IH]; simpl; [discriminate|].
  destruct (isfile env (path_join dirname n)) eqn:Hfile.
  - destruct (load_file env (path_join dirname n)) as [c|e] eqn:Hload.
    + intros [= <- <-]. by exists [], names.
    + intros (before & after & -> & ? & ? & ?)%IH.
      exists (n :: before), after. repeat split; try done.
      constructor; [|done]. intros [_ [c Hc]]. congruence.
  - intros (before & after & -> & ? & ? & ?)%IH.
    exists (n :: before), after. repeat split; try done.
    constructor; [|done]. intros [Hf _]. congruence.
Qed.

Lemma get_ovf_env_in_none (env : Env) (dirname : string) (names : list string) :
  get_ovf_env_in env dirname names = None ↔ Forall (λ n, ¬ usable env dirname n) names.
Proof.
  induction names as [|n names IH]; simpl; [by split|].
  rewrite Forall_cons. unfold usable at 1.
  destruct (isfile env (path_join dirname n)).
  - destruct (load_file env (path_join dirname n)) as [c|e].
    + split; [discriminate|]. intros [H _]. destruct H. eauto.
    + rewrite IH. split; [|by intros [_ ?]].
      intros H. split; [|done]. by intros [_ [c ?]].
  - rewrite IH. split; [|by intros [_ ?]].
    intros H. split; [|done]. by intros [? _].
Qed.

(** [get_ovf_env] returns the first of the four names, in the order
    ovf-env.xml, ovf_env.xml, OVF_ENV.XML, OVF-ENV.XML, that is a regular
    file of the directory and can be read, with its contents: a name before
    it is no file or cannot be read. *)
Theorem get_ovf_env_first_usable (env : Env) (dirname fname contents : string) :
  get_ovf_env env dirname = Some (fname, contents) →
  ∃ before after,
    env_names = before ++ fname :: after
    ∧ isfile env (path_join dirname fname) = true
    ∧ load_file env (path_join dirname fname) = Ok contents
    ∧ Forall (λ n, ¬ usable env dirname n) before.
Proof. apply get_ovf_env_in_some. Qed.

Lemma get_ovf_env_first_usable_witness :
  get_ovf_env cdrom_env "/media/cdrom" = Some ("OVF_ENV.XML", "<Environment/>")
  ∧ ∃ before after,
      env_names = before ++ "OVF_ENV.XML" :: after
      ∧ isfile cdrom_env (path_join "/media/cdrom" "OVF_ENV.XML") = true
      ∧ load_file cdrom_env (path_join "/media/cdrom" "OVF_ENV.XML")
        = Ok "<Environment/>"
      ∧ Forall (λ n, ¬ usable cdrom_env "/media/cdrom" n) before.
Proof.
  split; [reflexivity|].
  apply (get_ovf_env_first_usable cdrom_env "/media/cdrom" "OVF_ENV.XML"
           "<Environment/>").
  reflexivity.
Defined.

(** [get_ovf_env] reports "not found" exactly when none of the four names
    is a regular file of the directory that can be read; a file that is
    there but unreadable counts as absent. *)
Theorem get_ovf_env_not_found (env : Env) (dirname : string) :
  get_ovf_env env dirname = None
  ↔ Forall (λ n, ¬ usable env dirname n) env_names.
Proof. apply get_ovf_env_in_none. Qed.

(** [search_file] answers None for an empty directory path or file name
    without walking; a path it returns is the file name joined to a
    directory of the walk that lists the file name among its files. *)
Theorem search_file_found (env : Env) (dirpath filename : string) :
  (dirpath = "" ∨ filename = "" → search_file env dirpath filename = None)
  ∧ (∀ path, search_file env dirpath filename = Some path →
       dirpath ≠ "" ∧ filename ≠ ""
       ∧ ∃ root files,
           (root, files) ∈ walk env dirpath
           ∧ filename ∈ files
           ∧ path = path_join root filename).
Proof.
  unfold search_file. split.
  - intros [-> | ->]; [done|]. simpl. by rewrite orb_true_r.
  - intros path.
    destruct (String.eqb_spec dirpath ""); [done|].
    destruct (String.eqb_spec filename ""); [done|]. simpl.
    destruct (List.find _ _) as [[root files]|] eqn:Hfind; [|done].
    intros [= <-]. repeat split; try done.
    apply List.find_some in Hfind as [Hin Hfile]. exists root, files.
    repeat split; [by apply list_elem_of_In|].
    unfold in_list in Hfile. simpl in Hfile.
    apply existsb_exists in Hfile as (x & Hx & Heq).
    apply String.eqb_eq in Heq. subst x. by apply list_elem_of_In.
Qed.

(** ** Reading the OVF environment *)

Lemma dict_get_set (d : dict) (k k' : string) (v : pyval) :
  dict_get (dict_set d k v) k' = if String.eqb k k' then Some v else dict_get d k'.
Proof.
  destruct (String.eqb_spec k k') as [->|Hne].
  - apply dict_get_set_eq.
  - by apply dict_get_set_ne.
Qed.

Lemma dict_get_all_str (d : dict) (k : string) (v : pyval) :
  all_str d → dict_get d k = Some v → ∃ s, v = PyStr s.
Proof.
  induction 1 as [|[k0 v0] d Hv _ IH]; simpl; [discriminate|].
  destruct (String.eqb k0 k); [|exact IH]. by intros [= <-].
Qed.

Lemma dict_set_all_str (d : dict) (k s : string) :
  all_str d → all_str (dict_set d k (PyStr s)).
Proof.
  induction 1 as [|[k0 v0] d Hv Hd IH]; simpl.
  - repeat constructor. by eexists.
  - destruct (String.eqb k0 k); constructor; try done. by eexists.
Qed.

(** The properties that the parser returns are strings. *)
Lemma collect_properties_all_str (propElems : list node) (props result : dict) :
  all_str props → collect_properties propElems props = Ok result → all_str result.
Proof.
  revert props. induction propElems as [|n l IH]; intros props Hprops; simpl.
  - by intros [= <-].
  - destruct (attribute_value _ _ "key") as [k|]; [|done].
    destruct (attribute_value _ _ "value") as [v|]; [|done].
    apply IH. by apply dict_set_all_str.
Qed.

Lemma get_properties_all_str (parse : string → result document)
    (contents : string) (props : dict) :
  get_properties parse contents = Ok props → all_str props.
Proof.
  unfold get_properties, get_properties_dom.
  destruct (parse contents) as [dom|]; [|done].
  destruct (negb _); [done|]. destruct (negb _); [done|].
  destruct (find_child _ _); [done|].
  apply collect_properties_all_str. constructor.
Qed.

Lemma filed_set_md (read_network : bool) (md : dict) (ud ud' : pyval)
    (cfg : dict) (k s : string) :
  filed read_network (md, ud, cfg) → k ∈ md_keys → k ≠ "network-config" →
  filed read_network (dict_set md k (PyStr s), ud', cfg).
Proof.
  intros [Hmd Hcfg] Hk Hne. split; [|done]. intros k' v. simpl.
  rewrite dict_get_set. destruct (String.eqb_spec k k') as [<-|]; [|by apply Hmd].
  intros [= <-]. repeat split; [done | done | by eexists].
Qed.

Lemma filed_set_network (md : dict) (ud : pyval) (cfg : dict) (v : pyval) :
  filed true (md, ud, cfg) → filed true (dict_set md "network-config" v, ud, cfg).
Proof.
  intros [Hmd Hcfg]. split; [|done]. intros k' v'. simpl.
  rewrite dict_get_set.
  destruct (String.eqb_spec "network-config" k') as [<-|]; [|by apply Hmd].
  intros _. repeat split; [|done]. unfold md_keys. repeat constructor.
Qed.

Lemma filed_set_cfg (read_network : bool) (md : dict) (ud : pyval)
    (cfg : dict) (s : string) :
  filed read_network (md, ud, cfg) →
  filed read_network (md, ud, dict_set cfg "password" (PyStr s)).
Proof.
  intros [Hmd Hcfg]. split; [done|]. intros k' v. simpl.
  rewrite dict_get_set.
  destruct (String.eqb_spec "password" k') as [<-|]; [|by apply Hcfg].
  intros [= <-]. split; [done | by eexists].
Qed.

Lemma filed_set_ud (read_network : bool) (md : dict) (ud ud' : pyval) (cfg : dict) :
  filed read_network (md, ud, cfg) → filed read_network (md, ud', cfg).
Proof. by intros [Hmd Hcfg]. Qed.

Lemma read_ovf_property_filed (env : Env) (read_network : bool)
    (acc : dict * pyval * dict) (prop s : string) :
  filed read_network acc →
  ∃ acc', read_ovf_property env read_network (Ok acc) (prop, PyStr s) = Ok acc'
          ∧ filed read_network acc'.
Proof.
  destruct acc as [[md ud] cfg]. intros Hacc. unfold read_ovf_property.
  set (p := if String.eqb prop "hostname" then "local-hostname" else prop).
  unfold in_list. cbn [existsb orb encode].
  destruct (String.eqb_spec p "seedfrom") as [->|H1].
  { eexists. split; [done|]. apply (filed_set_md _ _ ud); [done | | done].
    unfold md_keys. repeat constructor. }
  destruct (String.eqb_spec p "local-hostname") as [->|H2].
  { eexists. split; [done|]. apply (filed_set_md _ _ ud); [done | | done].
    unfold md_keys. repeat constructor. }
  destruct (String.eqb_spec p "public-keys") as [->|H3].
  { eexists. split; [done|]. apply (filed_set_md _ _ ud); [done | | done].
    unfold md_keys. repeat constructor. }
  destruct (String.eqb_spec p "instance-id") as [->|H4].
  { eexists. split; [done|]. apply (filed_set_md _ _ ud); [done | | done].
    unfold md_keys. repeat constructor. }
  cbn [orb].
  destruct (String.eqb_spec p "password") as [->|H5].
  { eexists. split; [done|]. by apply filed_set_cfg. }
  cbn [orb].
  destruct (String.eqb_spec p "network-config") as [->|H6].
  { destruct read_network; cbn [orb andb].
    - destruct (b64decode env s) as [network_config|]; [|by eexists].
      destruct (safeload_yaml_or_dict env network_config) as [doc|]; [|by eexists].
      eexists. split; [done|]. by apply filed_set_network.
    - change (String.eqb "network-config" "user-data") with false.
      cbn iota. by eexists. }
  cbn [orb andb].
  destruct (String.eqb p "user-data"); [|by eexists].
  destruct (b64decode env s); eexists; (split; [done|]);
    by eapply filed_set_ud.
Qed.

Lemma read_ovf_properties_filed (env : Env) (read_network : bool) (props : dict)
    (acc : dict * pyval * dict) :
  all_str props → filed read_network acc →
  ∃ acc', foldl (read_ovf_property env read_network) (Ok acc) props = Ok acc'
          ∧ filed read_network acc'.
Proof.
  intros Hprops. revert acc.
  induction Hprops as [|[k v] props [s Hs] _ IH]; intros acc Hacc; cbn [foldl].
  - by exists acc.
  - simpl in Hs. subst v.
    destruct (read_ovf_property_filed env read_network acc k s Hacc)
      as (acc' & -> & Hacc').
    by apply IH.
Qed.

Lemma filed_empty (read_network : bool) : filed read_network ([], PyNone, []).
Proof. split; intros k v; simpl; discriminate. Qed.

(** [read_ovf_environment] fails only where [get_properties] fails: a value
    that does not decode, as network configuration or as user data, never
    makes it raise. *)
Theorem read_ovf_environment_total (env : Env) (contents : string)
    (read_network : bool) (props : dict) :
  get_properties (parseString env) contents = Ok props →
  ∃ md ud cfg, read_ovf_environment env contents read_network = Ok (md, ud, cfg).
Proof.
  intros Hprops. unfold read_ovf_environment. rewrite Hprops.
  destruct (read_ovf_properties_filed env read_network props ([], PyNone, []))
    as ([[md ud] cfg] & Hrun & _).
  - by eapply get_properties_all_str.
  - apply filed_empty.
  - by exists md, ud, cfg.
Qed.

Lemma read_ovf_environment_total_witness :
  get_properties (parseString ovf_env) "<Environment/>"
  = Ok [("password", PyStr "s3cret"); ("hostname", PyStr "host1");
        ("user-data", PyStr "#!/bin/sh");
        ("public-keys", PyStr "ssh-rsa AAAA one,ssh-rsa BBBB two");
        ("color", PyStr "blue")]
  ∧ ∃ md ud cfg, read_ovf_environment ovf_env "<Environment/>" true = Ok (md, ud, cfg).
Proof.
  split; [reflexivity|].
  apply (read_ovf_environment_total ovf_env "<Environment/>" true
           [("password", PyStr "s3cret"); ("hostname", PyStr "host1");
            ("user-data", PyStr "#!/bin/sh");
            ("public-keys", PyStr "ssh-rsa AAAA one,ssh-rsa BBBB two");
            ("color", PyStr "blue")]).
  reflexivity.
Defined.

Lemma read_ovf_environment_filed (env : Env) (contents : string)
    (read_network : bool) (acc : dict * pyval * dict) :
  read_ovf_environment env contents read_network = Ok acc → filed read_network acc.
Proof.
  unfold read_ovf_environment.
  destruct (get_properties _ _) as [props|] eqn:Hprops; [|done].
  destruct (read_ovf_properties_filed env read_network props ([], PyNone, []))
    as (acc' & Hrun & Hfiled).
  - by eapply get_properties_all_str.
  - apply filed_empty.
  - intros Heq.
    assert (Ok acc' = Ok acc) as [= ->]
      by (etrans; [symmetry; exact Hrun | exact Heq]).
    exact Hfiled.
Qed.

Lemma dict_get_none_keys (d : dict) (k : string) :
  dict_get d k = None ↔ k ∉ d.*1.
Proof.
  induction d as [|[k' v'] d IH]; simpl.
  - split; [intros _; apply not_elem_of_nil | done].
  - rewrite not_elem_of_cons. destruct (String.eqb_spec k' k) as [->|Hne].
    + split; [done | by intros [? _]].
    + rewrite IH. split; [by split | by intros [_ ?]].
Qed.

Lemma dict_set_keys (d : dict) (k : string) (v : pyval) :
  (dict_set d k v).*1 = if dict_mem d k then d.*1 else d.*1 ++ [k].
Proof.
  unfold dict_mem. induction d as [|[k' v'] d IH]; simpl; [done|].
  destruct (String.eqb k' k); simpl; [done|].
  revert IH. destruct (dict_get d k); simpl; intros IH; f_equal; exact IH.
Qed.

(** A dict holds each key once. *)
Lemma dict_set_NoDup (d : dict) (k : string) (v : pyval) :
  NoDup d.*1 → NoDup (dict_set d k v).*1.
Proof.
  intros Hd. pose proof (dict_set_keys d k v) as Hkeys. unfold dict_mem in Hkeys.
  destruct (dict_get d k) as [v'|] eqn:E.
  - eapply eq_ind_r; [exact Hd | exact Hkeys].
  - apply dict_get_none_keys in E.
    eapply eq_ind_r; [|exact Hkeys]. apply NoDup_app. split; [done|].
    split; [|apply NoDup_singleton].
    intros x Hx Hk. apply elem_of_cons in Hk as [->|Hk]; [done|].
    by apply not_elem_of_nil in Hk.
Qed.

Lemma collect_properties_NoDup (propElems : list node) (props result : dict) :
  NoDup props.*1 → collect_properties propElems props = Ok result →
  NoDup result.*1.
Proof.
  revert props. induction propElems as [|n l IH]; intros props Hprops; simpl.
  - by intros [= <-].
  - destruct (attribute_value _ _ "key") as [k|]; [|done].
    destruct (attribute_value _ _ "value") as [v|]; [|done].
    apply IH. by apply dict_set_NoDup.
Qed.

Lemma get_properties_NoDup (parse : string → result document)
    (contents : string) (props : dict) :
  get_properties parse contents = Ok props → NoDup props.*1.
Proof.
  unfold get_properties, get_properties_dom.
  destruct (parse contents) as [dom|]; [|done].
  destruct (negb _); [done|]. destruct (negb _); [done|].
  destruct (find_child _ _); [done|].
  apply collect_properties_NoDup. constructor.
Qed.

(** What one turn of the loop of [read_ovf_environment] does to the
    metadata (but for the network configuration), to the user data and to
    the configuration. *)
Lemma read_ovf_property_step (env : Env) (read_network : bool)
    (md md' : dict) (ud ud' : pyval) (cfg cfg' : dict) (prop s : string) :
  read_ovf_property env read_network (Ok (md, ud, cfg)) (prop, PyStr s)
  = Ok (md', ud', cfg') →
  (∀ k, k ≠ "network-config" →
     dict_get md' k
     = if String.eqb (filed_as prop) k
          && in_list k ["seedfrom"; "local-hostname"; "public-keys"; "instance-id"]
       then Some (PyStr s) else dict_get md k)
  ∧ ud' = (if String.eqb (filed_as prop) "user-data" then user_data env s else ud)
  ∧ (∀ k, dict_get cfg' k
          = if String.eqb (filed_as prop) "password" && String.eqb k "password"
            then Some (PyStr s) else dict_get cfg k).
Proof.
  unfold read_ovf_property. fold (filed_as prop). generalize (filed_as prop).
  intros p. cbn [encode].
  destruct (in_list p ["seedfrom"; "local-hostname"; "public-keys"; "instance-id"])
    eqn:Hmd.
  { intros [= <- <- <-]. split; [|split].
    - intros k _. rewrite dict_get_set.
      destruct (String.eqb_spec p k) as [<-|]; [by rewrite Hmd | done].
    - destruct (String.eqb_spec p "user-data") as [->|]; [|done].
      vm_compute in Hmd. discriminate.
    - intros k. destruct (String.eqb_spec p "password") as [->|]; [|done].
      vm_compute in Hmd. discriminate. }
  assert (∀ k, String.eqb p k
               && in_list k ["seedfrom"; "local-hostname"; "public-keys";
                             "instance-id"] = false) as Hkeep.
  { intros k. destruct (String.eqb_spec p k) as [<-|]; [by rewrite Hmd | done]. }
  destruct (in_list p ["password"]) eqn:Hcfg.
  { unfold in_list in Hcfg. cbn [existsb] in Hcfg. rewrite orb_false_r in Hcfg.
    apply String.eqb_eq in Hcfg as ->. intros [= <- <- <-]. split; [|split].
    - intros k _. by rewrite Hkeep.
    - done.
    - intros k. rewrite dict_get_set, String.eqb_refl. cbn [andb].
      by rewrite (String.eqb_sym k). }
  assert (String.eqb p "password" = false) as Hpw.
  { unfold in_list in Hcfg. cbn [existsb] in Hcfg. by rewrite orb_false_r in Hcfg. }
  rewrite Hpw. cbn [andb].
  destruct (in_list p ["network-config"] && read_network) eqn:Hnet.
  { apply andb_prop in Hnet as [Hnet _].
    unfold in_list in Hnet. cbn [existsb] in Hnet. rewrite orb_false_r in Hnet.
    apply String.eqb_eq in Hnet as ->.
    destruct (b64decode env s) as [network_config|];
      [|intros [= <- <- <-]; split; [intros k _; by rewrite Hkeep | done]].
    destruct (safeload_yaml_or_dict env network_config) as [doc|];
      intros [= <- <- <-]; (split; [|done]); intros k Hk.
    - rewrite dict_get_set_ne by done. by rewrite Hkeep.
    - by rewrite Hkeep. }
  destruct (String.eqb p "user-data") eqn:Hud.
  - unfold user_data. destruct (b64decode env s);
      intros [= <- <- <-]; (split; [intros k _; by rewrite Hkeep | done]).
  - intros [= <- <- <-]. split; [intros k _; by rewrite Hkeep | done].
Qed.

Lemma read_ovf_properties_raise (env : Env) (read_network : bool) (e : exn)
    (props : dict) :
  foldl (read_ovf_property env read_network) (Raise e) props = Raise e.
Proof. induction props as [|item props IH]; [done | exact IH]. Qed.

Lemma filed_as_other (prop k : string) :
  k ≠ "hostname" → k ≠ "local-hostname" →
  String.eqb (filed_as prop) k = String.eqb prop k.
Proof.
  intros H1 H2. unfold filed_as.
  destruct (String.eqb_spec prop "hostname") as [->|]; [|done].
  destruct (String.eqb_spec "local-hostname" k); [done|].
  by destruct (String.eqb_spec "hostname" k).
Qed.

Lemma filed_as_local_hostname (prop : string) :
  String.eqb (filed_as prop) "local-hostname"
  = String.eqb prop "hostname" || String.eqb prop "local-hostname".
Proof.
  unfold filed_as. by destruct (String.eqb_spec prop "hostname") as [->|].
Qed.

(** The loop of [read_ovf_environment] over properties with distinct names:
    where each part of the result comes from. *)
Lemma read_ovf_properties_exact (env : Env) (read_network : bool) (props : dict) :
  all_str props → NoDup props.*1 →
  ∀ md ud cfg md' ud' cfg',
    foldl (read_ovf_property env read_network) (Ok (md, ud, cfg)) props
    = Ok (md', ud', cfg') →
    (∀ k, k ∈ ["seedfrom"; "public-keys"; "instance-id"] →
       dict_get md' k = match dict_get props k with
                        | Some v => Some v
                        | None => dict_get md k
                        end)
    ∧ (∀ v, dict_get md' "local-hostname" = Some v →
         dict_get props "hostname" = Some v
         ∨ dict_get props "local-hostname" = Some v
         ∨ dict_get md "local-hostname" = Some v)
    ∧ (dict_get md' "local-hostname" = None →
         dict_get props "hostname" = None
         ∧ dict_get props "local-hostname" = None
         ∧ dict_get md "local-hostname" = None)
    ∧ ud' = match dict_get props "user-data" with
            | Some (PyStr s) => user_data env s
            | _ => ud
            end
    ∧ (∀ k, dict_get cfg' k
            = if String.eqb k "password"
              then match dict_get props "password" with
                   | Some v => Some v
                   | None => dict_get cfg k
                   end
              else dict_get cfg k).
Proof.
  induction 1 as [|[k0 v0] props [s0 Hs0] _ IH]; intros Hdup md ud cfg md' ud' cfg'.
  { cbn [foldl]. intros [= <- <- <-]. repeat split; try done.
    - by right; right.
    - intros k. by destruct (String.eqb k "password"). }
  simpl in Hs0. subst v0. cbn [foldl].
  apply NoDup_cons in Hdup as [Hfresh Hdup]. fold (props.*1) in Hfresh.
  destruct (read_ovf_property env read_network (Ok (md, ud, cfg)) (k0, PyStr s0))
    as [[[md1 ud1] cfg1]|e] eqn:Hstep;
    [|by rewrite read_ovf_properties_raise].
  apply read_ovf_property_step in Hstep as (Hmd1 & Hud1 & Hcfg1).
  intros Hrun. destruct (IH Hdup _ _ _ _ _ _ Hrun) as (Hthree & Hsome & Hnone & Hud & Hcfg).
  assert (∀ k, String.eqb k0 k = true → dict_get props k = None) as Hrest.
  { intros k ->%String.eqb_eq. by apply dict_get_none_keys. }
  split; [|split; [|split; [|split]]].
  - intros k Hk. rewrite (Hthree k Hk). cbn [dict_get].
    assert (k ≠ "network-config" ∧ k ≠ "hostname" ∧ k ≠ "local-hostname"
            ∧ in_list k ["seedfrom"; "local-hostname"; "public-keys";
                         "instance-id"] = true) as (Hn & Hh & Hl & Hin).
    { repeat (apply elem_of_cons in Hk as [->|Hk]; [by repeat split|]).
      by apply not_elem_of_nil in Hk. }
    rewrite (Hmd1 k Hn), filed_as_other, Hin, andb_true_r by done.
    destruct (String.eqb k0 k) eqn:E; [|done]. by rewrite (Hrest k E).
  - intros v Hv. cbn [dict_get].
    destruct (Hsome v Hv) as [Hh|[Hl|Hm]].
    + left. destruct (String.eqb k0 "hostname") eqn:E; [|done].
      by rewrite (Hrest _ E) in Hh.
    + right; left. destruct (String.eqb k0 "local-hostname") eqn:E.
      * by rewrite (Hrest _ E) in Hl.
      * destruct (String.eqb k0 "hostname") eqn:E'; [|done].
        apply String.eqb_eq in E' as ->. done.
    + rewrite Hmd1, filed_as_local_hostname in Hm by done.
      change (in_list "local-hostname" ["seedfrom"; "local-hostname";
                "public-keys"; "instance-id"]) with true in Hm.
      rewrite andb_true_r in Hm.
      destruct (String.eqb k0 "hostname") eqn:E; [by left|].
      destruct (String.eqb k0 "local-hostname") eqn:E'; [by right; left|].
      by right; right.
  - intros Hv. cbn [dict_get]. destruct (Hnone Hv) as (Hh & Hl & Hm).
    rewrite Hmd1, filed_as_local_hostname in Hm by done.
    change (in_list "local-hostname" ["seedfrom"; "local-hostname";
              "public-keys"; "instance-id"]) with true in Hm.
    rewrite andb_true_r in Hm.
    destruct (String.eqb k0 "hostname"); [done|].
    by destruct (String.eqb k0 "local-hostname").
  - rewrite Hud, Hud1. cbn [dict_get].
    rewrite filed_as_other by done.
    destruct (String.eqb k0 "user-data") eqn:E; [|done]. by rewrite (Hrest _ E).
  - intros k. rewrite Hcfg, Hcfg1. cbn [dict_get].
    rewrite filed_as_other by done.
    destruct (String.eqb k "password") eqn:Ek; [|by rewrite andb_false_r].
    rewrite andb_true_r.
    destruct (String.eqb k0 "password") eqn:E; [|done]. by rewrite (Hrest _ E).
Qed.

(** [read_ovf_environment] files a property under one of five metadata keys
    or under the configuration key password, and drops every other one
    (but user-data); the metadata never has a key hostname, and has the key
    network-config only when the network is to be read.  What is filed is
    the value of the property: seedfrom, public-keys and instance-id are in
    the metadata exactly as they are in the document, local-hostname holds
    the value of the property hostname or local-hostname and is there if
    one of them is, the configuration holds password exactly as the
    document does and nothing else, and the user data is the decoding of
    the property user-data, or its bytes if it does not decode. *)
Theorem read_ovf_environment_keys (env : Env) (contents : string)
    (read_network : bool) (props md : dict) (ud : pyval) (cfg : dict) :
  get_properties (parseString env) contents = Ok props →
  read_ovf_environment env contents read_network = Ok (md, ud, cfg) →
  (∀ k v, dict_get md k = Some v →
     k ∈ md_keys
     ∧ (k = "network-config" → read_network = true)
     ∧ (k ≠ "network-config" → ∃ s, v = PyStr s))
  ∧ (∀ k v, dict_get cfg k = Some v → k = "password" ∧ ∃ s, v = PyStr s)
  ∧ dict_get md "hostname" = None
  ∧ (∀ k, k ∈ ["seedfrom"; "public-keys"; "instance-id"] →
       dict_get md k = dict_get props k)
  ∧ (∀ v, dict_get md "local-hostname" = Some v →
       dict_get props "hostname" = Some v
       ∨ dict_get props "local-hostname" = Some v)
  ∧ (dict_get md "local-hostname" = None →
       dict_get props "hostname" = None
       ∧ dict_get props "local-hostname" = None)
  ∧ (∀ k, dict_get cfg k
          = if String.eqb k "password" then dict_get props "password" else None)
  ∧ ud = match dict_get props "user-data" with
         | Some (PyStr s) => user_data env s
         | _ => PyNone
         end.
Proof.
  intros Hprops Hread.
  pose proof (read_ovf_environment_filed _ _ _ _ Hread) as [Hmd Hcfg].
  simpl in Hmd, Hcfg. split; [exact Hmd|]. split; [exact Hcfg|]. split.
  { destruct (dict_get md "hostname") as [value|] eqn:E; [|done].
    apply Hmd in E as [E _]. unfold md_keys in E.
    repeat (apply elem_of_cons in E as [E|E]; [discriminate|]).
    by apply not_elem_of_nil in E. }
  unfold read_ovf_environment in Hread. rewrite Hprops in Hread.
  destruct (read_ovf_properties_exact env read_network props
              (get_properties_all_str _ _ _ Hprops)
              (get_properties_NoDup _ _ _ Hprops) _ _ _ _ _ _ Hread)
    as (Hthree & Hsome & Hnone & Hud & Hpw).
  split; [|split; [|split; [|split]]].
  - intros k Hk. rewrite (Hthree k Hk). by destruct (dict_get props k).
  - intros v Hv. by destruct (Hsome v Hv) as [?|[?|?]]; [left | right |].
  - intros Hv. by destruct (Hnone Hv) as (? & ? & _).
  - intros k. rewrite Hpw. destruct (String.eqb k "password"); [|done].
    by destruct (dict_get props "password").
  - exact Hud.
Qed.

Lemma read_ovf_environment_keys_witness :
  read_ovf_environment ovf_env "<Environment/>" false
  = Ok ([("local-hostname", PyStr "host1");
         ("public-keys", PyStr "ssh-rsa AAAA one,ssh-rsa BBBB two")],
        PyBytes "#!/bin/sh", [("password", PyStr "s3cret")])
  ∧ dict_get [("local-hostname", PyStr "host1");
              ("public-keys", PyStr "ssh-rsa AAAA one,ssh-rsa BBBB two")]
      "public-keys"
    = dict_get [("password", PyStr "s3cret"); ("hostname", PyStr "host1");
                ("user-data", PyStr "#!/bin/sh");
                ("public-keys", PyStr "ssh-rsa AAAA one,ssh-rsa BBBB two");
                ("color", PyStr "blue")] "public-keys".
Proof.
  split; [reflexivity|].
  apply (read_ovf_environment_keys ovf_env "<Environment/>" false
           [("password", PyStr "s3cret"); ("hostname", PyStr "host1");
            ("user-data", PyStr "#!/bin/sh");
            ("public-keys", PyStr "ssh-rsa AAAA one,ssh-rsa BBBB two");
            ("color", PyStr "blue")]
           [("local-hostname", PyStr "host1");
            ("public-keys", PyStr "ssh-rsa AAAA one,ssh-rsa BBBB two")]
           (PyBytes "#!/bin/sh") [("password", PyStr "s3cret")]);
    [reflexivity | reflexivity |].
  apply elem_of_cons. right. apply elem_of_cons. by left.
Defined.

(** A public-keys property of an OVF environment is handed out by
    [get_public_ssh_keys] as one key, the string of the property as it is;
    without the property there are no keys. *)
Theorem get_public_ssh_keys_of_ovf (env : Env) (contents : string)
    (read_network : bool) (md : dict) (ud : pyval) (cfg : dict) :
  read_ovf_environment env contents read_network = Ok (md, ud, cfg) →
  (dict_get md "public-keys" = None ∧ get_public_ssh_keys (with_metadata md) = [])
  ∨ (∃ s, dict_get md "public-keys" = Some (PyStr s)
          ∧ get_public_ssh_keys (with_metadata md) = [PyStr s]).
Proof.
  intros [Hmd _]%read_ovf_environment_filed. simpl in Hmd.
  unfold get_public_ssh_keys, with_metadata. simpl.
  destruct (dict_get md "public-keys") as [v|] eqn:E; [|by left].
  destruct (Hmd _ _ E) as (_ & _ & [s ->]); [done|]. right. by exists s.
Qed.

Lemma get_public_ssh_keys_of_ovf_witness :
  (dict_get [("local-hostname", PyStr "host1");
             ("public-keys", PyStr "ssh-rsa AAAA one,ssh-rsa BBBB two")]
     "public-keys" = None
   ∧ get_public_ssh_keys
       (with_metadata [("local-hostname", PyStr "host1");
                       ("public-keys", PyStr "ssh-rsa AAAA one,ssh-rsa BBBB two")])
     = [])
  ∨ (∃ s, dict_get [("local-hostname", PyStr "host1");
                    ("public-keys", PyStr "ssh-rsa AAAA one,ssh-rsa BBBB two")]
            "public-keys" = Some (PyStr s)
          ∧ get_public_ssh_keys
              (with_metadata
                 [("local-hostname", PyStr "host1");
                  ("public-keys", PyStr "ssh-rsa AAAA one,ssh-rsa BBBB two")])
            = [PyStr s]).
Proof.
  apply (get_public_ssh_keys_of_ovf ovf_env "<Environment/>" false
           [("local-hostname", PyStr "host1");
            ("public-keys", PyStr "ssh-rsa AAAA one,ssh-rsa BBBB two")]
           (PyBytes "#!/bin/sh") [("password", PyStr "s3cret")]).
  reflexivity.
Defined.

(** ** Loading cloud-init data from the IMC directory *)

Lemma remove_char_absent (old : ascii) (s : string) :
  Forall (λ c, c ≠ old) (list_ascii_of_string (remove_char old s)).
Proof.
  induction s as [|c s IH]; simpl; [constructor|].
  destruct (Ascii.eqb_spec c old); [done|]. simpl. by constructor.
Qed.

Lemma remove_char_filter (old : ascii) (s : string) :
  list_ascii_of_string (remove_char old s)
  = List.filter (λ c, negb (Ascii.eqb c old)) (list_ascii_of_string s).
Proof.
  induction s as [|c s IH]; simpl; [done|].
  destruct (Ascii.eqb c old); simpl; [done | by rewrite IH].
Qed.

(** What [load_cloudinit_data] returns: the metadata is what the YAML
    loader makes of the text of the metadata file, the configuration is
    empty, the network configuration is the value under network of the
    metadata, and the user data, if a user data file is named, is the text
    of that file with its carriage returns taken out and nothing else
    changed; with no user data file the user data is None. *)
Theorem load_cloudinit_data_result (env : Env) (md_path : string)
    (ud_path : option string) (md : dict) (ud : pyval) (cfg : dict)
    (network : option pyval) :
  load_cloudinit_data env md_path ud_path = Ok (md, ud, cfg, network) →
  (∃ text, load_file env md_path = Ok text
           ∧ safeload_yaml_or_dict env text = Ok md)
  ∧ cfg = []
  ∧ network = dict_get md "network"
  ∧ (if nonempty ud_path
     then ∃ raw s,
            load_file env (default "" ud_path) = Ok raw
            ∧ ud = PyStr s
            ∧ list_ascii_of_string s
              = List.filter (λ c, negb (Ascii.eqb c "013"))
                  (list_ascii_of_string raw)
            ∧ Forall (λ c, c ≠ "013"%char) (list_ascii_of_string s)
     else ud = PyNone).
Proof.
  unfold load_cloudinit_data.
  destruct (load_file env md_path) as [text|]; [|done].
  destruct (safeload_yaml_or_dict env text) as [md'|] eqn:Hmd; [|done].
  destruct (nonempty ud_path).
  - destruct (load_file env _) as [raw|]; [|done].
    intros [= <- <- <- <-]. split; [by exists text|]. repeat split.
    exists raw, (remove_char "013" raw). split; [done|]. split; [done|].
    split; [apply remove_char_filter | apply remove_char_absent].
  - intros [= <- <- <- <-]. split; [by exists text | done].
Qed.

Lemma load_cloudinit_data_result_witness :
  load_cloudinit_data raw_data_env "/var/run/vmware-imc/metadata.yaml"
    (Some "/var/run/vmware-imc/userdata")
  = Ok ([("instance-id", PyStr "cloud-vm");
         ("network", PyDict [("version", PyInt 2)])],
        PyStr ("#cloud-config" +:+ String "010" "hostname: vm"), [],
        Some (PyDict [("version", PyInt 2)]))
  ∧ ∃ raw s,
      load_file raw_data_env "/var/run/vmware-imc/userdata" = Ok raw
      ∧ PyStr ("#cloud-config" +:+ String "010" "hostname: vm") = PyStr s
      ∧ list_ascii_of_string s
        = List.filter (λ c, negb (Ascii.eqb c "013")) (list_ascii_of_string raw)
      ∧ Forall (λ c, c ≠ "013"%char) (list_ascii_of_string s).
Proof.
  split; [reflexivity|].
  apply (load_cloudinit_data_result raw_data_env
           "/var/run/vmware-imc/metadata.yaml"
           (Some "/var/run/vmware-imc/userdata")
           [("instance-id", PyStr "cloud-vm");
            ("network", PyDict [("version", PyInt 2)])]
           (PyStr ("#cloud-config" +:+ String "010" "hostname: vm")) []
           (Some (PyDict [("version", PyInt 2)]))).
  reflexivity.
Defined.

(** ** Device names *)

Lemma split_on_no_slash (s : string) :
  count_slash s = 0%nat → split_on "/" s = [s].
Proof.
  induction s as [|c s IH]; simpl; [done|]. unfold is_slash.
  destruct (Ascii.eqb c "/"); [done|]. intros H. by rewrite (IH H).
Qed.

Lemma split_on_app (a r : string) :
  count_slash a = 0%nat →
  split_on "/" (a +:+ String "/" r) = a :: split_on "/" r.
Proof.
  induction a as [|c a IH]; simpl; [done|]. unfold is_slash.
  destruct (Ascii.eqb c "/"); [done|]. intros H. by rewrite (IH H).
Qed.

Lemma prefix_cons (a b : ascii) (s1 s2 : string) :
  String.prefix (String a s1) (String b s2) = Ascii.eqb a b && String.prefix s1 s2.
Proof.
  change (String.prefix (String a s1) (String b s2))
    with (if ascii_dec a b then String.prefix s1 s2 else false).
  destruct (ascii_dec a b) as [->|Hne].
  - by rewrite Ascii.eqb_refl.
  - by destruct (Ascii.eqb_spec a b).
Qed.

Lemma prefix_slash_no_slash (p n : string) :
  count_slash n = 0%nat → String.prefix (String "/" p) n = false.
Proof.
  destruct n as [|c n]; [done|]. rewrite prefix_cons. cbn [count_slash].
  unfold is_slash. rewrite (Ascii.eqb_sym "/" c). by destruct (Ascii.eqb c "/").
Qed.

Lemma split_on_join (comps : list string) :
  comps ≠ [] → Forall plain_name comps → split_on "/" (join "/" comps) = comps.
Proof.
  intros Hne Hall. induction Hall as [|n comps [Hn _] Hcomps IH]; [done|].
  destruct comps as [|m comps].
  - by apply split_on_no_slash.
  - change (join "/" (n :: m :: comps))
      with (n +:+ String "/" (join "/" (m :: comps))).
    rewrite split_on_app by done. f_equal. by apply IH.
Qed.

Lemma normpath_steps_plain (initial_slashes : nat) (acc comps : list string) :
  Forall plain_name comps →
  foldl (normpath_step initial_slashes) acc comps = acc ++ comps.
Proof.
  intros Hall. revert acc.
  induction Hall as [|n comps (_ & H1 & H2 & H3) _ IH]; intros acc; simpl.
  - by rewrite app_nil_r.
  - unfold normpath_step at 2.
    destruct (String.eqb_spec n ""); [done|].
    destruct (String.eqb_spec n "."); [done|].
    destruct (String.eqb_spec n ".."); [done|]. simpl.
    by rewrite IH, <- app_assoc.
Qed.

Lemma join_plain_head (comps : list string) :
  comps ≠ [] → Forall plain_name comps →
  ∃ c rest, join "/" comps = String c rest ∧ Ascii.eqb "/" c = false.
Proof.
  intros Hne Hall. destruct Hall as [|n comps (Hn & H1 & _) _]; [done|].
  destruct n as [|c n]; [done|]. simpl in Hn. unfold is_slash in Hn.
  exists c. rewrite (Ascii.eqb_sym "/" c).
  destruct (Ascii.eqb c "/"); [done|]. destruct comps as [|m comps]; [by eauto|].
  change (join "/" (String c n :: m :: comps))
    with (String c (n +:+ String "/" (join "/" (m :: comps)))). eauto.
Qed.

(** [normpath] leaves a relative path of plain components as it is ... *)
Lemma normpath_relative (comps : list string) :
  comps ≠ [] → Forall plain_name comps →
  normpath (join "/" comps) = join "/" comps.
Proof.
  intros Hne Hall. destruct (join_plain_head comps Hne Hall) as (c & rest & Hj & Hc).
  unfold normpath. rewrite split_on_join by done.
  rewrite normpath_steps_plain by done. cbn [app].
  rewrite Hj. rewrite prefix_cons, Hc. by cbn.
Qed.

(** ... and an absolute one as well. *)
Lemma normpath_absolute (comps : list string) :
  comps ≠ [] → Forall plain_name comps →
  normpath ("/" +:+ join "/" comps) = "/" +:+ join "/" comps.
Proof.
  intros Hne Hall. destruct (join_plain_head comps Hne Hall) as (c & rest & Hj & Hc).
  unfold normpath.
  change ("/" +:+ join "/" comps) with (String "/" (join "/" comps)).
  change (split_on "/" (String "/" (join "/" comps)))
    with ("" :: split_on "/" (join "/" comps)).
  rewrite split_on_join by done. cbn [foldl].
  change (normpath_step _ [] "") with (@nil string).
  rewrite normpath_steps_plain by done. cbn [app].
  rewrite Hj. rewrite !prefix_cons, Hc. by cbn.
Qed.

Lemma prefix_nil (s : string) : String.prefix "" s = true.
Proof. by destruct s. Qed.

Lemma count_slash_app (a b : string) :
  count_slash (a +:+ b) = (count_slash a + count_slash b)%nat.
Proof.
  induction a as [|c a IH]; [done|]. simpl.
  destruct (is_slash c); simpl; by rewrite IH.
Qed.

Lemma normpath_no_slash (n : string) :
  count_slash n = 0%nat → n ≠ "" → normpath n = n.
Proof.
  intros Hn Hne.
  destruct (String.eqb_spec n ".") as [->|H1]; [done|].
  destruct (String.eqb_spec n "..") as [->|H2]; [done|].
  apply (normpath_relative [n]); [done|]. by repeat constructor.
Qed.

(** The part of [maybe_cdrom_device] that follows the cut of "/dev/", for
    a name without a slash. *)
Lemma maybe_cdrom_device_name (environ_regex : option string)
    (re_compile : string → result (string → bool)) (n : string) :
  count_slash n = 0%nat → n ≠ "" →
  (let after_slash :=
     if String.prefix "/" n then Some (default "" (last (split_on "/" n)))
     else if (0 <? count_slash n)%nat then None
     else Some n in
   match after_slash with
   | None => Ok false
   | Some devname =>
       if String.eqb devname "" then Ok false
       else
         match environ_regex with
         | Some devname_regex =>
             match re_compile devname_regex with
             | Ok cdmatch => Ok (cdmatch devname)
             | Raise e => Raise e
             end
         | None => Ok (default_regex_match devname)
         end
   end) = cdrom_match environ_regex re_compile n.
Proof.
  intros Hn Hne. cbv zeta. rewrite prefix_slash_no_slash by done. rewrite Hn.
  cbn [Nat.ltb Nat.leb]. destruct (String.eqb_spec n ""); [done|].
  by destruct environ_regex.
Qed.

Lemma truthy_str (s : string) : s ≠ "" → truthy (PyStr s) = true.
Proof. intros H. simpl. by destruct (String.eqb_spec s ""). Qed.

Lemma maybe_cdrom_device_of_name (environ_regex : option string)
    (re_compile : string → result (string → bool)) (n : string) :
  count_slash n = 0%nat → n ≠ "" →
  maybe_cdrom_device environ_regex re_compile (PyStr n)
  = cdrom_match environ_regex re_compile n.
Proof.
  intros Hn Hne. unfold maybe_cdrom_device.
  rewrite truthy_str by done. cbn [negb]. cbv zeta.
  rewrite normpath_no_slash by done.
  rewrite (prefix_slash_no_slash "dev/" n) by done.
  by apply maybe_cdrom_device_name.
Qed.

Lemma maybe_cdrom_device_under_dev (environ_regex : option string)
    (re_compile : string → result (string → bool)) (rest : string) :
  (∃ comps, comps ≠ [] ∧ Forall plain_name comps ∧ rest = join "/" comps) →
  maybe_cdrom_device environ_regex re_compile (PyStr ("/dev/" +:+ rest))
  = (let after_slash :=
       if String.prefix "/" rest then Some (default "" (last (split_on "/" rest)))
       else if (0 <? count_slash rest)%nat then None
       else Some rest in
     match after_slash with
     | None => Ok false
     | Some devname =>
         if String.eqb devname "" then Ok false
         else
           match environ_regex with
           | Some devname_regex =>
               match re_compile devname_regex with
               | Ok cdmatch => Ok (cdmatch devname)
               | Raise e => Raise e
               end
           | None => Ok (default_regex_match devname)
           end
     end).
Proof.
  intros (comps & Hne & Hall & ->).
  unfold maybe_cdrom_device. rewrite truthy_str by done. cbn [negb]. cbv zeta.
  destruct comps as [|m comps]; [done|].
  change ("/dev/" +:+ join "/" (m :: comps))
    with ("/" +:+ join "/" ("dev" :: m :: comps)).
  rewrite normpath_absolute by (done || by constructor).
  change ("/" +:+ join "/" ("dev" :: m :: comps))
    with (String "/" (String "d" (String "e" (String "v"
            (String "/" (join "/" (m :: comps))))))).
  rewrite !prefix_cons, prefix_nil. cbn [Ascii.eqb Bool.eqb andb].
  cbn [after_first]. rewrite !prefix_cons, prefix_nil.
  by cbn [Ascii.eqb Bool.eqb andb String.length drop_chars].
Qed.

(** A kernel name, that is a non-empty name without a slash, is a CD-ROM
    candidate exactly when the pattern matches it: the one of
    CLOUD_INIT_CDROM_DEV_REGEX if that is set, else the default one.  A
    pattern of the variable that does not compile makes the call raise the
    error of [re.compile]. *)
Theorem maybe_cdrom_device_kname (environ_regex : option string)
    (re_compile : string → result (string → bool)) (n : string) :
  count_slash n = 0%nat → n ≠ "" →
  maybe_cdrom_device environ_regex re_compile (PyStr n)
  = cdrom_match environ_regex re_compile n.
Proof. apply maybe_cdrom_device_of_name. Qed.

Lemma maybe_cdrom_device_kname_witness :
  maybe_cdrom_device None (λ _, Ok (λ _, false)) (PyStr "sr0") = Ok true
  ∧ maybe_cdrom_device (Some "^vd") (λ _, Ok (String.prefix "vd")) (PyStr "sr0")
    = Ok false.
Proof.
  split.
  - apply (maybe_cdrom_device_kname None (λ _, Ok (λ _, false)) "sr0"); done.
  - apply (maybe_cdrom_device_kname (Some "^vd")
             (λ _, Ok (String.prefix "vd")) "sr0"); done.
Defined.

(** The full path of a device node directly under /dev is judged like its
    kernel name: with the same answer of the pattern, or the same error of
    a pattern that does not compile. *)
Theorem maybe_cdrom_device_dev_path (environ_regex : option string)
    (re_compile : string → result (string → bool)) (n : string) :
  plain_name n →
  maybe_cdrom_device environ_regex re_compile (PyStr ("/dev/" +:+ n))
  = maybe_cdrom_device environ_regex re_compile (PyStr n)
  ∧ maybe_cdrom_device environ_regex re_compile (PyStr ("/dev/" +:+ n))
    = cdrom_match environ_regex re_compile n.
Proof.
  intros Hplain. pose proof Hplain as (Hn & Hne & _).
  rewrite (maybe_cdrom_device_of_name _ _ n) by done.
  assert (maybe_cdrom_device environ_regex re_compile (PyStr ("/dev/" +:+ n))
          = cdrom_match environ_regex re_compile n) as ->; [|done].
  rewrite maybe_cdrom_device_under_dev.
  - by apply maybe_cdrom_device_name.
  - exists [n]. split; [done|]. split; [|done].
    constructor; [exact Hplain | constructor].
Qed.

Lemma maybe_cdrom_device_dev_path_witness :
  maybe_cdrom_device None (λ _, Ok (λ _, false)) (PyStr ("/dev/" +:+ "hda"))
  = maybe_cdrom_device None (λ _, Ok (λ _, false)) (PyStr "hda")
  ∧ maybe_cdrom_device None (λ _, Ok (λ _, false)) (PyStr ("/dev/" +:+ "hda"))
    = cdrom_match None (λ _, Ok (λ _, false)) "hda".
Proof.
  apply (maybe_cdrom_device_dev_path None (λ _, Ok (λ _, false)) "hda").
  by repeat split.
Defined.

(** Closes a goal [Forall plain_name [a; b; ...]] from the hypotheses. *)
Ltac plain_comps :=
  repeat (apply List.Forall_cons; [first [assumption | by repeat split] |]);
  apply List.Forall_nil.

Lemma plain_head (n : string) :
  plain_name n → ∃ c rest, n = String c rest ∧ Ascii.eqb "/" c = false.
Proof.
  intros (Hn & Hne & _). destruct n as [|c n]; [done|].
  exists c, n. split; [done|]. simpl in Hn. unfold is_slash in Hn.
  rewrite (Ascii.eqb_sym "/" c). by destruct (Ascii.eqb c "/").
Qed.

Lemma nested_is_rejected (environ_regex : option string)
    (re_compile : string → result (string → bool)) (a b : string) :
  plain_name a →
  (let rest := a +:+ String "/" b in
   let after_slash :=
     if String.prefix "/" rest then Some (default "" (last (split_on "/" rest)))
     else if (0 <? count_slash rest)%nat then None
     else Some rest in
   match after_slash with
   | None => Ok false
   | Some devname =>
       if String.eqb devname "" then Ok false
       else
         match environ_regex with
         | Some devname_regex =>
             match re_compile devname_regex with
             | Ok cdmatch => Ok (cdmatch devname)
             | Raise e => Raise e
             end
         | None => Ok (default_regex_match devname)
         end
   end) = Ok false.
Proof.
  intros Ha. destruct (plain_head a Ha) as (c & a' & -> & Hc). cbv zeta.
  change (String c a' +:+ String "/" b) with (String c (a' +:+ String "/" b)).
  rewrite prefix_cons, Hc. cbn [andb].
  change (String c (a' +:+ String "/" b)) with (String c a' +:+ String "/" b).
  rewrite count_slash_app. destruct Ha as (-> & _). simpl.
  by destruct (is_slash "/") eqn:E.
Qed.

(** A path with a directory in it is no CD-ROM candidate, be it relative
    or below /dev, whatever its last component is called. *)
Theorem maybe_cdrom_device_nested (environ_regex : option string)
    (re_compile : string → result (string → bool)) (a b : string) :
  plain_name a → plain_name b →
  maybe_cdrom_device environ_regex re_compile (PyStr (a +:+ "/" +:+ b)) = Ok false
  ∧ maybe_cdrom_device environ_regex re_compile (PyStr ("/dev/" +:+ a +:+ "/" +:+ b))
    = Ok false.
Proof.
  intros Ha Hb. split.
  - destruct (plain_head a Ha) as (c & a' & Heq & Hc).
    unfold maybe_cdrom_device. rewrite truthy_str by (by rewrite Heq).
    cbn [negb]. cbv zeta.
    change (a +:+ "/" +:+ b) with (join "/" [a; b]).
    rewrite normpath_relative by (done || plain_comps).
    change (join "/" [a; b]) with (a +:+ String "/" b).
    assert (String.prefix "/dev/" (a +:+ String "/" b) = false) as ->.
    { rewrite Heq.
      change (String c a' +:+ String "/" b) with (String c (a' +:+ String "/" b)).
      by rewrite prefix_cons, Hc. }
    by apply nested_is_rejected.
  - change ("/dev/" +:+ a +:+ "/" +:+ b) with ("/dev/" +:+ join "/" [a; b]).
    rewrite maybe_cdrom_device_under_dev.
    + by apply nested_is_rejected.
    + exists [a; b]. split; [done|]. split; [plain_comps | done].
Qed.

Lemma maybe_cdrom_device_nested_witness :
  maybe_cdrom_device None (λ _, Ok (λ _, false)) (PyStr ("foo" +:+ "/" +:+ "xvdc")) = Ok false
  ∧ maybe_cdrom_device None (λ _, Ok (λ _, false))
      (PyStr ("/dev/" +:+ "foo" +:+ "/" +:+ "xvdc")) = Ok false.
Proof.
  apply (maybe_cdrom_device_nested None (λ _, Ok (λ _, false)) "foo" "xvdc");
    by repeat split.
Defined.

Lemma prefix_component (p a b : string) :
  count_slash p = 0%nat → count_slash a = 0%nat →
  String.prefix (p +:+ "/") (a +:+ String "/" b) = true → a = p.
Proof.
  revert a. induction p as [|x p IH]; intros [|c a]; simpl; unfold is_slash.
  - done.
  - intros _. destruct (Ascii.eqb c "/") eqn:E; [done|]. intros _.
    change (String.prefix "/" (String c (a +:+ String "/" b)) = true → String c a = "").
    rewrite prefix_cons, (Ascii.eqb_sym "/" c), E. done.
  - destruct (Ascii.eqb x "/") eqn:E; [done|]. intros _ _.
    change (String.prefix (String x (p +:+ "/")) (String "/" b) = true → "" = String x p).
    rewrite prefix_cons, E. done.
  - destruct (Ascii.eqb x "/") eqn:Ex; [done|].
    destruct (Ascii.eqb c "/") eqn:Ec; [done|]. intros Hp Ha.
    change (String.prefix (String x (p +:+ "/")) (String c (a +:+ String "/" b)) = true
            → String c a = String x p).
    rewrite prefix_cons. intros [Hxc Hrest]%andb_prop.
    apply Ascii.eqb_eq in Hxc as ->. f_equal. by apply IH.
Qed.

(** An absolute path that does not start with /dev/ is judged by its last
    component alone, as the pattern answers for it (or fails to compile):
    the directory it names is not looked at. *)
Theorem maybe_cdrom_device_outside_dev (environ_regex : option string)
    (re_compile : string → result (string → bool)) (a b : string) :
  plain_name a → plain_name b → a ≠ "dev" →
  maybe_cdrom_device environ_regex re_compile (PyStr ("/" +:+ a +:+ "/" +:+ b))
  = cdrom_match environ_regex re_compile b.
Proof.
  intros Ha Hb Hdev. pose proof Ha as (Hna & _). pose proof Hb as (Hnb & Hneb & _).
  unfold maybe_cdrom_device. rewrite truthy_str by done. cbn [negb]. cbv zeta.
  change ("/" +:+ a +:+ "/" +:+ b) with ("/" +:+ join "/" [a; b]).
  rewrite normpath_absolute by (done || plain_comps).
  change ("/" +:+ join "/" [a; b]) with (String "/" (a +:+ String "/" b)).
  assert (String.prefix "/dev/" (String "/" (a +:+ String "/" b)) = false) as ->.
  { rewrite prefix_cons. cbn [Ascii.eqb Bool.eqb andb].
    destruct (String.prefix "dev/" (a +:+ String "/" b)) eqn:E; [|done].
    destruct Hdev. by apply (prefix_component "dev" a b). }
  rewrite prefix_cons, prefix_nil. cbn [Ascii.eqb Bool.eqb andb].
  change (split_on "/" (String "/" (a +:+ String "/" b)))
    with ("" :: split_on "/" (a +:+ String "/" b)).
  rewrite split_on_app, split_on_no_slash by done. cbn [last default from_option id].
  destruct (String.eqb_spec b ""); [done|]. by destruct environ_regex.
Qed.

Lemma maybe_cdrom_device_outside_dev_witness :
  maybe_cdrom_device None (λ _, Ok (λ _, false)) (PyStr ("/" +:+ "mnt" +:+ "/" +:+ "xvdc"))
  = cdrom_match None (λ _, Ok (λ _, false)) "xvdc".
Proof.
  apply (maybe_cdrom_device_outside_dev None (λ _, Ok (λ _, false)) "mnt" "xvdc");
    by repeat split.
Defined.

(** [maybe_cdrom_device] raises in two ways only: [ValueError] for a true
    value that is not a string, and, for a string, the error with which
    [re.compile] rejects the pattern of CLOUD_INIT_CDROM_DEV_REGEX.  So
    without that variable it never raises for a string. *)
Theorem maybe_cdrom_device_raises (environ_regex : option string)
    (re_compile : string → result (string → bool)) (v : pyval) (e : exn) :
  maybe_cdrom_device environ_regex re_compile v = Raise e →
  (truthy v = true ∧ (∀ s, v ≠ PyStr s) ∧ ∃ msg, e = ValueError msg)
  ∨ (∃ s devname_regex,
       v = PyStr s
       ∧ environ_regex = Some devname_regex
       ∧ re_compile devname_regex = Raise e).
Proof.
  unfold maybe_cdrom_device. destruct (truthy v) eqn:Hv; cbn [negb]; [|done].
  destruct v as [| | |s| | |];
    try (intros [= <-]; left; repeat split; [done | by eexists]).
  intros Hrun. right. exists s. cbv zeta in Hrun.
  destruct (String.prefix "/dev/" (normpath s));
    (destruct (String.prefix "/" _); [|destruct (0 <? _)%nat; [done|]]);
    (destruct (String.eqb _ ""); [done|]);
    (destruct environ_regex as [devname_regex|]; [|done]);
    (destruct (re_compile devname_regex) as [cdmatch|e'] eqn:Hre; [done|]);
    injection Hrun as <-; by exists devname_regex.
Qed.

Lemma maybe_cdrom_device_raises_witness :
  (truthy (PyStr "sr0") = true
   ∧ (∀ s, PyStr "sr0" ≠ PyStr s)
   ∧ ∃ msg, OtherError "missing ), unterminated subpattern" = ValueError msg)
  ∨ (∃ s devname_regex,
       PyStr "sr0" = PyStr s
       ∧ Some "(" = Some devname_regex
       ∧ (λ _ : string, Raise (OtherError "missing ), unterminated subpattern")
            : result (string → bool)) devname_regex
         = Raise (OtherError "missing ), unterminated subpattern")).
Proof.
  apply (maybe_cdrom_device_raises (Some "(")
           (λ _, Raise (OtherError "missing ), unterminated subpattern"))
           (PyStr "sr0") (OtherError "missing ), unterminated subpattern")).
  reflexivity.
Defined.

(** ** The transports *)

(** [transport_vmware_guestinfo] returns the output of the guest-RPC tool
    exactly when the tool is installed, exits with 0 and prints something;
    it logs a warning exactly when the tool is installed and fails with an
    exit code other than 1. *)
Theorem transport_vmware_guestinfo_result (host : Transports.Host) :
  (∀ out,
     (Transports.transport_vmware_guestinfo host).2 = Some out
     ↔ nonempty (Transports.which host "vmware-rpctool") = true
       ∧ out ≠ ""
       ∧ ∃ err, Transports.subp host guestinfo_cmd = Transports.Exited0 out err)
  ∧ ((∃ fmt args, Warning fmt args ∈ (Transports.transport_vmware_guestinfo host).1)
     ↔ nonempty (Transports.which host "vmware-rpctool") = true
       ∧ ∃ code, Transports.subp host guestinfo_cmd
                 = Transports.ProcessExecutionError code
                 ∧ code ≠ 1).
Proof.
  unfold Transports.transport_vmware_guestinfo, guestinfo_cmd.
  destruct (nonempty (Transports.which host "vmware-rpctool")); simpl.
  - destruct (Transports.subp host _) as [out' err|code]; simpl.
    + destruct (String.eqb_spec out' "") as [->|Hne]; simpl; split.
      * intros out. split; [done|]. by intros (_ & Hout & err' & [= <- _]).
      * split; [|by intros (_ & code & ? & _)].
        intros (fmt & args & Hin). apply elem_of_cons in Hin as [?|Hin]; [done|].
        by apply not_elem_of_nil in Hin.
      * intros out. split.
        -- intros [= <-]. eauto.
        -- by intros (_ & _ & err' & [= <- _]).
      * split; [|by intros (_ & code & ? & _)].
        intros (fmt & args & Hin). by apply not_elem_of_nil in Hin.
    + destruct (Z.eqb_spec code 1) as [->|Hne]; simpl; split.
      * intros out. split; [done|]. by intros (_ & _ & err & ?).
      * split.
        -- intros (fmt & args & Hin). by apply not_elem_of_nil in Hin.
        -- by intros (_ & code & [= <-] & ?).
      * intros out. split; [done|]. by intros (_ & _ & err & ?).
      * split; [eauto|]. intros _. eexists _, _. apply list_elem_of_here.
  - split.
    + intros out. split; [done|]. by intros [? _].
    + split; [|by intros [? _]].
      intros (fmt & args & Hin). by apply not_elem_of_nil in Hin.
Qed.

Lemma scan_mounts_some (env : Env) (host : Transports.Host) (require_iso : bool)
    (mounted : list (string * (string * string))) (contents : string) :
  Transports.scan_mounts env host require_iso mounted = Ok (Some contents) →
  ∃ dev fstype mp fname,
    (dev, (fstype, mp)) ∈ mounted
    ∧ (require_iso = true → fstype = "iso9660")
    ∧ is_cdrom host dev
    ∧ get_ovf_env env mp = Some (fname, contents).
Proof.
  induction mounted as [|[dev [fstype mp]] mounted IH]; simpl; [done|].
  destruct (String.eqb_spec fstype "iso9660") as [->|Hfs]; simpl.
  - destruct (maybe_cdrom_device _ _ (PyStr dev)) as [[|]|] eqn:Hcd; [| |done].
    + destruct (get_ovf_env env mp) as [[fname c]|] eqn:Henv.
      * intros [= <-]. exists dev, "iso9660", mp, fname.
        split; [apply list_elem_of_here | by repeat split].
      * intros (d & f & m & n & Hin & ?)%IH. exists d, f, m, n.
        split; [by apply list_elem_of_further | done].
    + intros (d & f & m & n & Hin & ?)%IH. exists d, f, m, n.
      split; [by apply list_elem_of_further | done].
  - destruct require_iso; simpl.
    + intros (d & f & m & n & Hin & ?)%IH. exists d, f, m, n.
      split; [by apply list_elem_of_further | done].
    + destruct (maybe_cdrom_device _ _ (PyStr dev)) as [[|]|] eqn:Hcd; [| |done].
      * destruct (get_ovf_env env mp) as [[fname c]|] eqn:Henv.
        -- intros [= <-]. exists dev, fstype, mp, fname.
           split; [apply list_elem_of_here | by repeat split].
        -- intros (d & f & m & n & Hin & ?)%IH. exists d, f, m, n.
           split; [by apply list_elem_of_further | done].
      * intros (d & f & m & n & Hin & ?)%IH. exists d, f, m, n.
        split; [by apply list_elem_of_further | done].
Qed.

Lemma cdrom_devices_elem (host : Transports.Host) (found devs : list string)
    (dev : string) :
  Transports.cdrom_devices host found = Ok devs →
  dev ∈ devs ↔ dev ∈ found ∧ is_cdrom host dev.
Proof.
  revert devs. induction found as [|d found IH]; intros devs; simpl.
  - intros [= <-]. split; [by intros ?%not_elem_of_nil | by intros [?%not_elem_of_nil _]].
  - destruct (maybe_cdrom_device _ _ (PyStr d)) as [keep|] eqn:Hcd; [|done].
    destruct (Transports.cdrom_devices host found) as [devs'|]; [|done].
    intros [= <-]. specialize (IH devs' eq_refl). rewrite elem_of_cons.
    destruct keep.
    + rewrite elem_of_cons, IH. split.
      * intros [->|[? ?]]; [by split; [left|] | by split; [right|]].
      * intros [[->|?] ?]; [by left | by right].
    + rewrite IH. split.
      * intros [? ?]. by split; [right|].
      * intros [[->|?] Hd]; [|done]. unfold is_cdrom in Hd. congruence.
Qed.

Lemma scan_devices_some (env : Env) (host : Transports.Host)
    (mtype : option string) (devs : list string) (contents : string) :
  Transports.scan_devices env host mtype devs = Some contents →
  ∃ dev mp fname,
    dev ∈ devs
    ∧ Transports.mount_cb host dev mtype = Transports.Mounted mp
    ∧ get_ovf_env env mp = Some (fname, contents).
Proof.
  induction devs as [|d devs IH]; simpl; [done|].
  destruct (Transports.mount_cb host d mtype) as [mp|] eqn:Hm.
  - destruct (get_ovf_env env mp) as [[fname c]|] eqn:Henv.
    + intros [= <-]. exists d, mp, fname. split; [apply list_elem_of_here | done].
    + intros (d' & m & n & Hin & ?)%IH. exists d', m, n.
      split; [by apply list_elem_of_further | done].
  - intros (d' & m & n & Hin & ?)%IH. exists d', m, n.
    split; [by apply list_elem_of_further | done].
Qed.

(** What [transport_iso9660] returns was read from an environment file of a
    device whose name may be that of a CD-ROM drive: of a mounted file
    system, which is of type iso9660 if that is required, or of a device of
    the wanted type that could be mounted. *)
Theorem transport_iso9660_source (env : Env) (host : Transports.Host)
    (require_iso : bool) (contents : string) :
  Transports.transport_iso9660 env host require_iso = Ok (Some contents) →
  (∃ dev fstype mp fname,
     (dev, (fstype, mp)) ∈ Transports.mounts host
     ∧ (require_iso = true → fstype = "iso9660")
     ∧ is_cdrom host dev
     ∧ get_ovf_env env mp = Some (fname, contents))
  ∨ (∃ dev mp fname,
       dev ∈ Transports.find_devs_with host
               ((λ t, "TYPE=" +:+ t) <$> iso_mtype require_iso)
       ∧ is_cdrom host dev
       ∧ Transports.mount_cb host dev (iso_mtype require_iso) = Transports.Mounted mp
       ∧ get_ovf_env env mp = Some (fname, contents)).
Proof.
  unfold Transports.transport_iso9660. fold (iso_mtype require_iso).
  destruct (Transports.scan_mounts _ _ _ _) as [[c|]|] eqn:Hscan; [| |done].
  - intros [= <-]. left. by eapply scan_mounts_some.
  - destruct (Transports.cdrom_devices _ _) as [devs|] eqn:Hdevs; [|done].
    intros [= (dev & mp & fname & Hin & Hm & Henv)%scan_devices_some]. right.
    apply (cdrom_devices_elem _ _ _ dev Hdevs) in Hin as [Hin Hcd].
    by exists dev, mp, fname.
Qed.

Lemma transport_iso9660_source_witness :
  Transports.transport_iso9660 cdrom_env cdrom_host true = Ok (Some "<Environment/>")
  ∧ ((∃ dev fstype mp fname,
        (dev, (fstype, mp)) ∈ Transports.mounts cdrom_host
        ∧ (true = true → fstype = "iso9660")
        ∧ is_cdrom cdrom_host dev
        ∧ get_ovf_env cdrom_env mp = Some (fname, "<Environment/>"))
     ∨ (∃ dev mp fname,
          dev ∈ Transports.find_devs_with cdrom_host
                  ((λ t, "TYPE=" +:+ t) <$> iso_mtype true)
          ∧ is_cdrom cdrom_host dev
          ∧ Transports.mount_cb cdrom_host dev (iso_mtype true) = Transports.Mounted mp
          ∧ get_ovf_env cdrom_env mp = Some (fname, "<Environment/>"))).
Proof.
  split; [reflexivity|].
  apply (transport_iso9660_source cdrom_env cdrom_host true "<Environment/>").
  reflexivity.
Defined.

Lemma scan_mounts_none (env : Env) (host : Transports.Host) (require_iso : bool)
    (mounted : list (string * (string * string))) :
  Transports.scan_mounts env host require_iso mounted = Ok None →
  ∀ dev fstype mp,
    (dev, (fstype, mp)) ∈ mounted →
    (require_iso = true → fstype = "iso9660") →
    is_cdrom host dev →
    get_ovf_env env mp = None.
Proof.
  unfold is_cdrom.
  induction mounted as [|[d [f m]] mounted IH]; simpl; intros Hscan dev fstype mp Hin.
  { by apply not_elem_of_nil in Hin. }
  apply elem_of_cons in Hin as [[= -> -> ->]|Hin].
  - intros Hfs Hcd.
    destruct (String.eqb_spec f "iso9660") as [->|Hne]; simpl in Hscan.
    + rewrite Hcd in Hscan. by destruct (get_ovf_env env m) as [[? ?]|].
    + destruct require_iso; simpl in Hscan; [by destruct Hne; apply Hfs|].
      rewrite Hcd in Hscan. by destruct (get_ovf_env env m) as [[? ?]|].
  - apply IH; [|done].
    destruct (negb (String.eqb f "iso9660") && require_iso); [done|].
    destruct (maybe_cdrom_device _ _ (PyStr d)) as [[|]|]; [|done|done].
    by destruct (get_ovf_env env m) as [[? ?]|].
Qed.

Lemma scan_devices_none (env : Env) (host : Transports.Host)
    (mtype : option string) (devs : list string) :
  Transports.scan_devices env host mtype devs = None →
  ∀ dev mp,
    dev ∈ devs → Transports.mount_cb host dev mtype = Transports.Mounted mp →
    get_ovf_env env mp = None.
Proof.
  induction devs as [|d devs IH]; simpl; intros Hscan dev mp Hin.
  { by apply not_elem_of_nil in Hin. }
  apply elem_of_cons in Hin as [->|Hin].
  - intros Hm. rewrite Hm in Hscan. by destruct (get_ovf_env env mp) as [[? ?]|].
  - apply IH; [|done]. destruct (Transports.mount_cb host d mtype) as [m|]; [|done].
    by destruct (get_ovf_env env m) as [[? ?]|].
Qed.

(** When [transport_iso9660] returns None, there was nothing to find: no
    mounted file system of a CD-ROM candidate (of type iso9660, if that is
    required) and no mountable candidate of the wanted type holds a readable
    environment file.  A device that fails to mount does not end the
    search. *)
Theorem transport_iso9660_nothing (env : Env) (host : Transports.Host)
    (require_iso : bool) :
  Transports.transport_iso9660 env host require_iso = Ok None →
  (∀ dev fstype mp,
     (dev, (fstype, mp)) ∈ Transports.mounts host →
     (require_iso = true → fstype = "iso9660") →
     is_cdrom host dev →
     get_ovf_env env mp = None)
  ∧ (∀ dev mp,
       dev ∈ Transports.find_devs_with host
               ((λ t, "TYPE=" +:+ t) <$> iso_mtype require_iso) →
       is_cdrom host dev →
       Transports.mount_cb host dev (iso_mtype require_iso) = Transports.Mounted mp →
       get_ovf_env env mp = None).
Proof.
  unfold Transports.transport_iso9660. fold (iso_mtype require_iso).
  destruct (Transports.scan_mounts _ _ _ _) as [[c|]|] eqn:Hscan; [done| |done].
  destruct (Transports.cdrom_devices _ _) as [devs|] eqn:Hdevs; [|done].
  intros [= Hnone]. split.
  - by apply scan_mounts_none.
  - intros dev mp Hin Hcd. apply (scan_devices_none _ _ _ _ Hnone).
    by apply (cdrom_devices_elem _ _ _ dev Hdevs).
Qed.

Lemma transport_iso9660_nothing_witness :
  Transports.transport_iso9660 missing_metadata_env cdrom_host true = Ok None
  ∧ (∀ dev fstype mp,
       (dev, (fstype, mp)) ∈ Transports.mounts cdrom_host →
       (true = true → fstype = "iso9660") →
       is_cdrom cdrom_host dev →
       get_ovf_env missing_metadata_env mp = None).
Proof.
  split; [reflexivity|].
  apply (transport_iso9660_nothing missing_metadata_env cdrom_host true).
  reflexivity.
Defined.

(** ** The VMware branch of a run *)

(** Unfolds the monad of a run. *)
Ltac run_monad :=
  cbv [mbind M_bind mret M_ret lift raise emit update_self update_marker_dir
       get_self get_marker_dir try_except when failed any_Exception
       only_FileNotFoundError _raise_error_status wait].

(** When customization is not supported by the data source (as in
    DataSourceOVFNet), or is switched off altogether by the configuration,
    or the customization plugin is not installed, the VMware branch neither
    waits for cust.cfg nor changes anything. *)
Theorem probe_vmware_skipped (fuel : nat) (env : Env) (w : World) :
  vmware_customization_supported env = false
  ∨ (get_cfg_option_bool env (sys_cfg env) "disable_vmware_customization" true = true
     ∧ get_cfg_option_bool env (ds_cfg env) "allow_raw_data" true = false)
  ∨ find_plugin env search_paths "libdeployPkgPlugin.so" = None →
  probe_vmware fuel env w = Some (Ok initial_locals, w).
Proof.
  unfold probe_vmware. intros [->|[[-> ->]|Hplugin]]; [done| |].
  - by destruct (vmware_customization_supported env).
  - destruct (if negb (vmware_customization_supported env) then _ else _)
      as [allow_vmware_cust allow_raw_data].
    destruct (negb (allow_vmware_cust || allow_raw_data)); [done|].
    by rewrite Hplugin.
Qed.

Lemma probe_vmware_skipped_witness :
  probe_vmware 0 seeded_env initial_world = Some (Ok initial_locals, initial_world).
Proof.
  apply (probe_vmware_skipped 0 seeded_env initial_world).
  right. right. reflexivity.
Defined.

(** Once cust.cfg has arrived and the files it declares are there, the two
    switches decide whether the VMware path is taken: with a metadata file
    it is taken only if raw data is allowed, without one only if VMware
    customization is allowed; nothing is reported to the platform yet. *)
Theorem probe_vmware_gate (fuel : nat) (env : Env) (w : World)
    (plugin_path config_file : string) (max_wait : Z) (out : WaitOutcome)
    (conf : Config) (mdp udp nicsp : option string) :
  vmware_customization_supported env = true →
  allow_vmware_cust env || allow_raw_data env = true →
  find_plugin env search_paths "libdeployPkgPlugin.so" = Some plugin_path →
  (get_max_wait_from_cfg (ds_cfg env)).2 = Ok max_wait →
  wait_for_imc_cfg_file fuel (imc_isfile env) "cust.cfg" max_wait 5
    "/var/run/vmware-imc" = Some out →
  wait_result out = Some config_file →
  read_config env config_file = Ok conf →
  collect_imc_file_paths (path_exists env) conf = Ok (mdp, udp, nicsp) →
  probe_vmware fuel env w
  = Some (Ok {| found := []; md := []; ud := PyStr ""; vd := PyStr ""; cfg_ := [];
                vmwareImcConfigFilePath :=
                  if (nonempty mdp && negb (allow_raw_data env))
                     || (bool_decide (mdp = None) && negb (allow_vmware_cust env))
                  then None else Some config_file;
                nicspath := nicsp; md_path := mdp; ud_path := udp |},
          {| self := set_vmware_cust_conf (Some conf) (self w);
             marker_dir := marker_dir w; events := events w |}).
Proof.
  intros Hsup Hflags Hplugin Hmax Hwait Hres Hconf Hcollect.
  assert (config_file = "/var/run/vmware-imc/cust.cfg") as ->.
  { unfold wait_for_imc_cfg_file in Hwait.
    by rewrite (wait_loop_found _ _ _ _ _ _ _ _ _ _ Hwait Hres). }
  unfold probe_vmware. rewrite Hsup. cbn [negb].
  fold (allow_vmware_cust env) (allow_raw_data env). rewrite Hflags. cbn [negb].
  rewrite Hplugin. run_monad. rewrite Hmax, Hwait, Hres. simpl.
  rewrite Hconf. simpl. rewrite Hcollect. simpl.
  by destruct (nonempty mdp && negb (allow_raw_data env)),
       (bool_decide (mdp = None) && negb (allow_vmware_cust env)).
Qed.

Lemma probe_vmware_gate_witness :
  probe_vmware 1 legacy_env initial_world
  = Some (Ok {| found := []; md := []; ud := PyStr ""; vd := PyStr ""; cfg_ := [];
                vmwareImcConfigFilePath := None;
                nicspath := Some "/var/run/vmware-imc/nics.txt";
                md_path := None; ud_path := None |},
          {| self := set_vmware_cust_conf (Some legacy_config) init;
             marker_dir := ∅; events := [] |}).
Proof.
  apply (probe_vmware_gate 1 legacy_env initial_world
           "/usr/lib/vmware-tools/plugins/vmsvc/libdeployPkgPlugin.so"
           "/var/run/vmware-imc/cust.cfg" 15
           {| wait_result := Some "/var/run/vmware-imc/cust.cfg";
              wait_waited := 0;
              wait_trace := [CheckFile "/var/run/vmware-imc/cust.cfg"] |}
           legacy_config None None (Some "/var/run/vmware-imc/nics.txt"));
    reflexivity.
Defined.

(** ** The customization paths of [_get_data] *)

Lemma get_network_config_from_conf_ok (env : Env) (config : Config)
    (records : list pyval) :
  nic_generate env (nics config) true true (osfamily env) = Ok records →
  get_network_config_from_conf (nic_generate env) config true true (osfamily env)
  = Ok (network_of config records).
Proof.
  intros H. unfold get_network_config_from_conf. rewrite H.
  apply get_network_config_list.
Qed.

(** A run of the legacy path in which no collaborator fails. *)
Lemma load_vmware_imc_run (env : Env) (l : Locals) (config_file : string)
    (w : World) (config : Config) (nte : pyval) (records : list pyval) :
  vmware_cust_conf (self w) = Some config →
  get_nics_to_enable env (nicspath l) = Ok nte →
  nic_generate env (nics config) true true (osfamily env) = Ok records →
  (sets_password config w = true →
   password_configure env (admin_password config) (reset_password config) = Ok ()) →
  load_vmware_imc env l config_file w
  = Some (Ok {| found := found l ++ ["vmware-tools"];
                md := (read_vmware_imc config).1.1;
                ud := (read_vmware_imc config).1.2; vd := vd l;
                cfg_ := (read_vmware_imc config).2;
                vmwareImcConfigFilePath := vmwareImcConfigFilePath l;
                nicspath := nicspath l; md_path := md_path l; ud_path := ud_path l |},
          {| self := set_vmware_cust_found true
                       (set_network_config (Some (network_of config records))
                          (set_vmware_nics_to_enable (Some nte)
                             (set_vmware_nics_to_enable (Some (PyStr "")) (self w))));
             marker_dir := if nonempty (marker_id config)
                           then setup_marker_files (default "" (marker_id config))
                                  (marker_dir w)
                           else marker_dir w;
             events := events w
                       ++ [SetGcStatus (Some config) "Started"]
                       ++ (if sets_password config w
                           then [ConfigurePassword (admin_password config)
                                   (reset_password config)]
                           else [])
                       ++ [DelDir (dirname config_file); EnableNics nte]
                       ++ success_report (Some config) |}).
Proof.
  intros Hconf Hnics Hgen Hpw. unfold load_vmware_imc. run_monad.
  rewrite Hconf. cbn [self marker_dir events].
  destruct (read_vmware_imc config) as [[md0 ud0] cfg0].
  rewrite Hnics. cbn [self marker_dir events fst snd].
  rewrite (get_network_config_from_conf_ok _ _ _ Hgen).
  cbn [self marker_dir events].
  unfold sets_password, special_customization, success_report in *.
  destruct (nonempty (marker_id config)) eqn:Hm; cbn [andb];
    [destruct (check_marker_exists (marker_id config) (marker_dir w)) eqn:Hc;
     cbn [negb andb] in *;
     [|destruct (nonempty (admin_password config) || reset_password config) eqn:Hp;
       [rewrite (Hpw eq_refl)|]]|];
    cbn [self marker_dir events]; by rewrite <- !app_assoc.
Qed.

(** A run of the legacy path in which the password configurator fails. *)
Lemma load_vmware_imc_password_raise (env : Env) (l : Locals)
    (config_file : string) (w : World) (config : Config) (nte : pyval)
    (records : list pyval) (e : exn) :
  vmware_cust_conf (self w) = Some config →
  get_nics_to_enable env (nicspath l) = Ok nte →
  nic_generate env (nics config) true true (osfamily env) = Ok records →
  sets_password config w = true →
  password_configure env (admin_password config) (reset_password config) = Raise e →
  load_vmware_imc env l config_file w
  = Some (Raise e,
          {| self := set_network_config (Some (network_of config records))
                       (set_vmware_nics_to_enable (Some nte)
                          (set_vmware_nics_to_enable (Some (PyStr "")) (self w)));
             marker_dir := marker_dir w;
             events := events w
                       ++ [SetGcStatus (Some config) "Started";
                           ConfigurePassword (admin_password config)
                             (reset_password config)]
                       ++ failure_report (Some config)
                            GUESTCUST_EVENT_CUSTOMIZE_FAILED
                            "Error applying Password Configuration" config_file |}).
Proof.
  intros Hconf Hnics Hgen Hsets Hpw. unfold load_vmware_imc. run_monad.
  rewrite Hconf. cbn [self marker_dir events].
  destruct (read_vmware_imc config) as [[md0 ud0] cfg0].
  rewrite Hnics. cbn [self marker_dir events fst snd].
  rewrite (get_network_config_from_conf_ok _ _ _ Hgen).
  cbn [self marker_dir events].
  unfold sets_password, special_customization, failure_report in *.
  apply andb_true_iff in Hsets as [Hspecial Hneeded].
  rewrite Hspecial, Hneeded, Hpw. cbn [self marker_dir events].
  by rewrite <- !app_assoc.
Qed.

(** The choice of the path in [load]. *)
Lemma load_legacy (env : Env) (l : Locals) :
  nonempty (vmwareImcConfigFilePath l) = true →
  nonempty (md_path l) = false →
  load env l = load_vmware_imc env l (default "" (vmwareImcConfigFilePath l)).
Proof. intros H1 H2. unfold load. by rewrite H1, H2. Qed.

Lemma load_raw (env : Env) (l : Locals) :
  nonempty (vmwareImcConfigFilePath l) = true →
  nonempty (md_path l) = true →
  load env l
  = load_raw_data env l (default "" (vmwareImcConfigFilePath l))
      (default "" (md_path l)).
Proof. intros H1 H2. unfold load. by rewrite H1, H2. Qed.

Lemma setup_marker_files_twice (markerid : string) (d : directory) :
  setup_marker_files markerid (setup_marker_files markerid d)
  = setup_marker_files markerid d.
Proof.
  apply map_eq. intros k. rewrite !setup_marker_files_lookup.
  destruct (decide _); [done|]. by destruct (String.prefix ".markerfile" k).
Qed.

Lemma nonempty_some (s : option string) :
  nonempty s = true → ∃ t, s = Some t ∧ t ≠ "".
Proof.
  destruct s as [t|]; [|done]. simpl. intros H. exists t. split; [done|].
  intros ->. done.
Qed.

(** After a run that went through, the directory holds the marker of the
    descriptor, if it names one. *)
Lemma marked_not_special (config : Config) (d : directory) (w : World) :
  marker_dir w = (if nonempty (marker_id config)
                  then setup_marker_files (default "" (marker_id config)) d
                  else d) →
  special_customization config w = false
  ∧ (if nonempty (marker_id config)
     then setup_marker_files (default "" (marker_id config)) (marker_dir w)
     else marker_dir w) = marker_dir w.
Proof.
  intros Hd. unfold special_customization.
  destruct (nonempty (marker_id config)) eqn:Hm; [|done].
  apply nonempty_some in Hm as (t & Ht & Hne). rewrite Ht in *.
  change (default "" (Some t)) with t in *.
  rewrite Hd, setup_marker_files_twice.
  by rewrite check_marker_exists_after_setup.
Qed.

(** With a customization descriptor that names no metadata file and
    collaborators that do not fail, [_get_data] customizes the guest from
    the descriptor.  Its calls to the collaborators are, in this order:
    the report "Started", the password configurator if this is a special
    customization that asks for a password, the removal of the IMC
    directory, the enabling of the NICs read from nics.txt, and the two
    reports of success.  When it returns, the marker directory holds the
    marker file of the descriptor's marker id, if it has one (at which
    point of the run it is written is not part of this statement), the
    network configuration is the one generated from the descriptor, the
    data source is flagged as customized, and "vmware-tools" is added to
    the sources found. *)
Theorem load_customization_succeeds (env : Env) (l : Locals) (w : World)
    (config : Config) (nte : pyval) (records : list pyval) :
  nonempty (vmwareImcConfigFilePath l) = true →
  nonempty (md_path l) = false →
  vmware_cust_conf (self w) = Some config →
  get_nics_to_enable env (nicspath l) = Ok nte →
  nic_generate env (nics config) true true (osfamily env) = Ok records →
  (sets_password config w = true →
   password_configure env (admin_password config) (reset_password config) = Ok ()) →
  ∃ l' w',
    load env l w = Some (Ok l', w')
    ∧ found l' = found l ++ ["vmware-tools"]
    ∧ (md l', ud l', cfg_ l') = read_vmware_imc config
    ∧ network_config_ (self w') = Some (network_of config records)
    ∧ vmware_nics_to_enable (self w') = Some nte
    ∧ vmware_cust_found (self w') = true
    ∧ marker_dir w' = (if nonempty (marker_id config)
                       then setup_marker_files (default "" (marker_id config))
                              (marker_dir w)
                       else marker_dir w)
    ∧ events w' = events w
                  ++ [SetGcStatus (Some config) "Started"]
                  ++ (if sets_password config w
                      then [ConfigurePassword (admin_password config)
                              (reset_password config)]
                      else [])
                  ++ [DelDir (dirname (default "" (vmwareImcConfigFilePath l)));
                      EnableNics nte]
                  ++ success_report (Some config).
Proof.
  intros Hfile Hmd Hconf Hnics Hgen Hpw.
  rewrite (load_legacy _ _ Hfile Hmd).
  rewrite (load_vmware_imc_run _ _ _ _ _ _ _ Hconf Hnics Hgen Hpw).
  do 2 eexists. split; [done|]. cbn [found md ud cfg_ self marker_dir events].
  repeat split; by destruct (read_vmware_imc config) as [[? ?] ?].
Qed.

Lemma load_customization_succeeds_witness :
  ∃ l' w',
    load legacy_env legacy_locals legacy_world = Some (Ok l', w')
    ∧ found l' = found legacy_locals ++ ["vmware-tools"]
    ∧ (md l', ud l', cfg_ l') = read_vmware_imc legacy_config
    ∧ network_config_ (self w') = Some (network_of legacy_config [])
    ∧ vmware_nics_to_enable (self w') = Some PyNone
    ∧ vmware_cust_found (self w') = true
    ∧ marker_dir w' = (if nonempty (marker_id legacy_config)
                       then setup_marker_files
                              (default "" (marker_id legacy_config))
                              (marker_dir legacy_world)
                       else marker_dir legacy_world)
    ∧ events w' = events legacy_world
                  ++ [SetGcStatus (Some legacy_config) "Started"]
                  ++ (if sets_password legacy_config legacy_world
                      then [ConfigurePassword (admin_password legacy_config)
                              (reset_password legacy_config)]
                      else [])
                  ++ [DelDir (dirname (default ""
                                (vmwareImcConfigFilePath legacy_locals)));
                      EnableNics PyNone]
                  ++ success_report (Some legacy_config).
Proof.
  apply (load_customization_succeeds legacy_env legacy_locals legacy_world
           legacy_config PyNone []); reflexivity.
Defined.

(** Once a customization went through, another run of the legacy path for
    the same descriptor over the directory it left (the next boot, say) does
    not call the password configurator again and leaves the directory as it
    is: it reports "Started", removes the IMC directory, enables the NICs
    and reports success, nothing else. *)
Theorem load_customization_once (env : Env) (l l1 : Locals) (w w1 w2 : World)
    (config : Config) (nte : pyval) (records : list pyval) :
  nonempty (vmwareImcConfigFilePath l) = true →
  nonempty (md_path l) = false →
  get_nics_to_enable env (nicspath l) = Ok nte →
  nic_generate env (nics config) true true (osfamily env) = Ok records →
  vmware_cust_conf (self w) = Some config →
  load env l w = Some (Ok l1, w1) →
  vmware_cust_conf (self w2) = Some config →
  marker_dir w2 = marker_dir w1 →
  ∃ l3 w3,
    load env l w2 = Some (Ok l3, w3)
    ∧ marker_dir w3 = marker_dir w2
    ∧ events w3 = events w2
                  ++ [SetGcStatus (Some config) "Started";
                      DelDir (dirname (default "" (vmwareImcConfigFilePath l)));
                      EnableNics nte]
                  ++ success_report (Some config).
Proof.
  intros Hfile Hmd Hnics Hgen Hconf Hrun Hconf2 Hdir.
  rewrite (load_legacy _ _ Hfile Hmd) in *.
  assert (marker_dir w1
          = if nonempty (marker_id config)
            then setup_marker_files (default "" (marker_id config)) (marker_dir w)
            else marker_dir w) as Hw1.
  { destruct (sets_password config w) eqn:Hsets.
    - destruct (password_configure env (admin_password config)
                  (reset_password config)) as [[]|e] eqn:Hpw.
      + rewrite (load_vmware_imc_run _ _ _ _ _ _ _ Hconf Hnics Hgen (λ _, Hpw))
          in Hrun.
        by injection Hrun as _ <-.
      + by rewrite (load_vmware_imc_password_raise _ _ _ _ _ _ _ _
                      Hconf Hnics Hgen Hsets Hpw) in Hrun.
    - rewrite (load_vmware_imc_run _ _ _ _ _ _ _ Hconf Hnics Hgen) in Hrun
        by (by rewrite Hsets).
      by injection Hrun as _ <-. }
  rewrite <- Hdir in Hw1.
  destruct (marked_not_special config (marker_dir w) w2 Hw1) as [Hspecial Hkept].
  assert (sets_password config w2 = false) as Hsets2.
  { unfold sets_password. by rewrite Hspecial. }
  rewrite (load_vmware_imc_run _ _ _ _ _ _ _ Hconf2 Hnics Hgen)
    by (by rewrite Hsets2).
  do 2 eexists. split; [done|]. cbn [marker_dir events].
  by rewrite Hkept, Hsets2.
Qed.

Lemma load_customization_once_witness :
  ∃ l3 w3,
    load legacy_env legacy_locals
      {| self := set_vmware_cust_conf (Some legacy_config) init;
         marker_dir := setup_marker_files "42" ∅; events := [] |}
    = Some (Ok l3, w3)
    ∧ marker_dir w3 = setup_marker_files "42" ∅
    ∧ events w3 = [SetGcStatus (Some legacy_config) "Started";
                   DelDir (dirname (default ""
                             (vmwareImcConfigFilePath legacy_locals)));
                   EnableNics PyNone]
                  ++ success_report (Some legacy_config).
Proof.
  eapply (load_customization_once legacy_env legacy_locals _ legacy_world _
            {| self := set_vmware_cust_conf (Some legacy_config) init;
               marker_dir := setup_marker_files "42" ∅; events := [] |}
            legacy_config PyNone []); vm_compute; reflexivity.
Defined.

(** When the NIC configurator fails, the legacy path reports the state
    RUNNING with the event NETWORK_SETUP_FAILED and the message "Error
    preparing Network Configuration", removes the IMC directory and raises
    the error again: the password configurator is not called, no marker is
    written, no NIC is enabled, no success is reported and the data source
    is not flagged as customized. *)
Theorem load_network_failure (env : Env) (l : Locals) (w : World)
    (config : Config) (nte : pyval) (e : exn) :
  nonempty (vmwareImcConfigFilePath l) = true →
  nonempty (md_path l) = false →
  vmware_cust_conf (self w) = Some config →
  get_nics_to_enable env (nicspath l) = Ok nte →
  nic_generate env (nics config) true true (osfamily env) = Raise e →
  ∃ w',
    load env l w = Some (Raise e, w')
    ∧ marker_dir w' = marker_dir w
    ∧ network_config_ (self w') = network_config_ (self w)
    ∧ vmware_cust_found (self w') = vmware_cust_found (self w)
    ∧ events w' = events w
                  ++ [SetGcStatus (Some config) "Started"]
                  ++ failure_report (Some config)
                       GUESTCUST_EVENT_NETWORK_SETUP_FAILED
                       "Error preparing Network Configuration"
                       (default "" (vmwareImcConfigFilePath l)).
Proof.
  intros Hfile Hmd Hconf Hnics Hgen. rewrite (load_legacy _ _ Hfile Hmd).
  unfold load_vmware_imc. run_monad.
  rewrite Hconf. cbn [self marker_dir events].
  destruct (read_vmware_imc config) as [[md0 ud0] cfg0].
  rewrite Hnics. cbn [self marker_dir events fst snd].
  unfold get_network_config_from_conf. rewrite Hgen.
  cbn [self marker_dir events]. eexists. split; [done|].
  cbn [self marker_dir events]. repeat split.
  unfold failure_report. by rewrite <- !app_assoc.
Qed.

Lemma load_network_failure_witness :
  ∃ w',
    load (with_configurators (λ _ _ _ _, Raise (OtherError "no such device"))
            (λ _ _, Ok ()) legacy_env)
      legacy_locals legacy_world
    = Some (Raise (OtherError "no such device"), w')
    ∧ marker_dir w' = marker_dir legacy_world
    ∧ network_config_ (self w') = network_config_ (self legacy_world)
    ∧ vmware_cust_found (self w') = vmware_cust_found (self legacy_world)
    ∧ events w' = events legacy_world
                  ++ [SetGcStatus (Some legacy_config) "Started"]
                  ++ failure_report (Some legacy_config)
                       GUESTCUST_EVENT_NETWORK_SETUP_FAILED
                       "Error preparing Network Configuration"
                       (default "" (vmwareImcConfigFilePath legacy_locals)).
Proof.
  apply (load_network_failure
           (with_configurators (λ _ _ _ _, Raise (OtherError "no such device"))
              (λ _ _, Ok ()) legacy_env)
           legacy_locals legacy_world legacy_config PyNone
           (OtherError "no such device")); reflexivity.
Defined.

(** When the password configurator fails in a special customization, the
    legacy path reports RUNNING with CUSTOMIZE_FAILED and the message "Error
    applying Password Configuration", removes the IMC directory and raises
    the error again; the marker file is not written, so that a later run is
    a special customization again, and the data source is not flagged as
    customized, although its network configuration is already set. *)
Theorem load_password_failure (env : Env) (l : Locals) (w : World)
    (config : Config) (nte : pyval) (records : list pyval) (e : exn) :
  nonempty (vmwareImcConfigFilePath l) = true →
  nonempty (md_path l) = false →
  vmware_cust_conf (self w) = Some config →
  get_nics_to_enable env (nicspath l) = Ok nte →
  nic_generate env (nics config) true true (osfamily env) = Ok records →
  sets_password config w = true →
  password_configure env (admin_password config) (reset_password config) = Raise e →
  ∃ w',
    load env l w = Some (Raise e, w')
    ∧ marker_dir w' = marker_dir w
    ∧ special_customization config w' = true
    ∧ vmware_cust_found (self w') = vmware_cust_found (self w)
    ∧ network_config_ (self w') = Some (network_of config records)
    ∧ events w' = events w
                  ++ [SetGcStatus (Some config) "Started";
                      ConfigurePassword (admin_password config)
                        (reset_password config)]
                  ++ failure_report (Some config)
                       GUESTCUST_EVENT_CUSTOMIZE_FAILED
                       "Error applying Password Configuration"
                       (default "" (vmwareImcConfigFilePath l)).
Proof.
  intros Hfile Hmd Hconf Hnics Hgen Hsets Hpw. rewrite (load_legacy _ _ Hfile Hmd).
  rewrite (load_vmware_imc_password_raise _ _ _ _ _ _ _ _
             Hconf Hnics Hgen Hsets Hpw).
  eexists. split; [done|]. cbn [self marker_dir events]. repeat split.
  unfold sets_password in Hsets. apply andb_true_iff in Hsets as [Hs _].
  exact Hs.
Qed.

Lemma load_password_failure_witness :
  ∃ w',
    load (with_configurators (λ _ _ _ _, Ok [])
            (λ _ _, Raise (OtherError "chpasswd failed")) legacy_env)
      legacy_locals legacy_world
    = Some (Raise (OtherError "chpasswd failed"), w')
    ∧ marker_dir w' = marker_dir legacy_world
    ∧ special_customization legacy_config w' = true
    ∧ vmware_cust_found (self w') = vmware_cust_found (self legacy_world)
    ∧ network_config_ (self w') = Some (network_of legacy_config [])
    ∧ events w' = events legacy_world
                  ++ [SetGcStatus (Some legacy_config) "Started";
                      ConfigurePassword (admin_password legacy_config)
                        (reset_password legacy_config)]
                  ++ failure_report (Some legacy_config)
                       GUESTCUST_EVENT_CUSTOMIZE_FAILED
                       "Error applying Password Configuration"
                       (default "" (vmwareImcConfigFilePath legacy_locals)).
Proof.
  apply (load_password_failure
           (with_configurators (λ _ _ _ _, Ok [])
              (λ _ _, Raise (OtherError "chpasswd failed")) legacy_env)
           legacy_locals legacy_world legacy_config PyNone []
           (OtherError "chpasswd failed")); reflexivity.
Defined.

(** With a customization descriptor that names a metadata file, [_get_data]
    takes the data from the files: it reports "Started", removes the IMC
    directory and reports success, and neither sets a password, nor writes
    a marker, nor enables NICs; the network configuration is the one of the
    metadata if that is true, else the fallback of the distribution. *)
Theorem load_raw_data_succeeds (env : Env) (l : Locals) (w : World)
    (md0 : dict) (ud0 : pyval) (cfg0 : dict) (network : option pyval) :
  nonempty (vmwareImcConfigFilePath l) = true →
  nonempty (md_path l) = true →
  load_cloudinit_data env (default "" (md_path l)) (ud_path l)
  = Ok (md0, ud0, cfg0, network) →
  load env l w
  = Some (Ok {| found := found l ++ ["vmware-tools"]; md := md0; ud := ud0;
                vd := vd l; cfg_ := cfg0;
                vmwareImcConfigFilePath := vmwareImcConfigFilePath l;
                nicspath := nicspath l; md_path := md_path l;
                ud_path := ud_path l |},
          {| self := set_vmware_cust_found true
                       (set_network_config (network_or_fallback env network)
                          (self w));
             marker_dir := marker_dir w;
             events := events w
                       ++ [SetGcStatus (vmware_cust_conf (self w)) "Started";
                           DelDir (dirname (default ""
                                     (vmwareImcConfigFilePath l)))]
                       ++ success_report (vmware_cust_conf (self w)) |}).
Proof.
  intros Hfile Hmd Hload. rewrite (load_raw _ _ Hfile Hmd).
  unfold load_raw_data. run_monad. cbn [self marker_dir events].
  rewrite Hload. cbn [self marker_dir events].
  unfold success_report, network_or_fallback. by rewrite <- !app_assoc.
Qed.

Lemma load_raw_data_succeeds_witness :
  load raw_data_env raw_data_locals initial_world
  = Some (Ok {| found := found raw_data_locals ++ ["vmware-tools"];
                md := [("instance-id", PyStr "cloud-vm");
                       ("network", PyDict [("version", PyInt 2)])];
                ud := PyStr ("#cloud-config" +:+ String "010" "hostname: vm");
                vd := vd raw_data_locals; cfg_ := [];
                vmwareImcConfigFilePath := vmwareImcConfigFilePath raw_data_locals;
                nicspath := nicspath raw_data_locals;
                md_path := md_path raw_data_locals;
                ud_path := ud_path raw_data_locals |},
          {| self := set_vmware_cust_found true
                       (set_network_config
                          (network_or_fallback raw_data_env
                             (Some (PyDict [("version", PyInt 2)])))
                          (self initial_world));
             marker_dir := marker_dir initial_world;
             events := events initial_world
                       ++ [SetGcStatus (vmware_cust_conf (self initial_world))
                             "Started";
                           DelDir (dirname (default ""
                                     (vmwareImcConfigFilePath raw_data_locals)))]
                       ++ success_report
                            (vmware_cust_conf (self initial_world)) |}).
Proof.
  apply (load_raw_data_succeeds raw_data_env raw_data_locals initial_world);
    reflexivity.
Defined.

(** When the metadata or the user data cannot be loaded, the raw-data path
    reports the failure, removes the IMC directory and raises the error
    again, with nothing assigned to the data source: a YAML error is
    reported as WRONG_META_FORMAT with "Error parsing the cloud-init meta
    data", any other error as CUSTOMIZE_FAILED with "Error loading
    cloud-init configuration". *)
Theorem load_raw_data_failure (env : Env) (l : Locals) (w : World) (e : exn) :
  nonempty (vmwareImcConfigFilePath l) = true →
  nonempty (md_path l) = true →
  load_cloudinit_data env (default "" (md_path l)) (ud_path l) = Raise e →
  load env l w
  = Some (Raise e,
          {| self := self w; marker_dir := marker_dir w;
             events := events w
                       ++ [SetGcStatus (vmware_cust_conf (self w)) "Started"]
                       ++ failure_report (vmware_cust_conf (self w))
                            (raw_data_failure e).1 (raw_data_failure e).2
                            (default "" (vmwareImcConfigFilePath l)) |}).
Proof.
  intros Hfile Hmd Hload. rewrite (load_raw _ _ Hfile Hmd).
  unfold load_raw_data. run_monad. cbn [self marker_dir events].
  rewrite Hload. unfold failure_report, raw_data_failure.
  destruct e; cbn [raw_data_handler]; run_monad;
    cbn [fst snd self marker_dir events]; by rewrite <- !app_assoc.
Qed.

Lemma load_raw_data_failure_witness :
  load bad_yaml_env raw_data_locals initial_world
  = Some (Raise (YAMLError "while parsing a flow node"),
          {| self := self initial_world; marker_dir := marker_dir initial_world;
             events := events initial_world
                       ++ [SetGcStatus (vmware_cust_conf (self initial_world))
                             "Started"]
                       ++ failure_report (vmware_cust_conf (self initial_world))
                            GUESTCUST_ERROR_WRONG_META_FORMAT
                            "Error parsing the cloud-init meta data"
                            (default ""
                               (vmwareImcConfigFilePath raw_data_locals)) |}).
Proof.
  apply (load_raw_data_failure bad_yaml_env raw_data_locals initial_world
           (YAMLError "while parsing a flow node")); reflexivity.
Defined.

(** ** Whole runs *)

(** With no OVF environment file in the seed directory, on a platform that
    is not VMware or with a data source that does not support VMware
    customization, and with nothing on either transport, [_get_data] asks
    the guest-RPC channel and then the ISO9660 devices, returns False and
    assigns nothing to the data source. *)
Theorem _get_data_no_data (fuel : nat) (env : Env) (w : World) :
  get_ovf_env env (paths_seed_dir env) = None →
  on_vmware env = false ∨ vmware_customization_supported env = false →
  nonempty (transport_vmware_guestinfo env) = false →
  nonempty (transport_iso9660 env) = false →
  _get_data fuel env w
  = Some (Ok false,
          {| self := self w; marker_dir := marker_dir w;
             events := events w ++ [Transport "com.vmware.guestInfo";
                                    Transport "iso"] |}).
Proof.
  intros Hseed Hplatform Hguestinfo Hiso.
  assert (probe fuel env w = Some (Ok initial_locals, w)) as Hprobe.
  { unfold probe. rewrite Hseed. fold (on_vmware env).
    destruct (on_vmware env); [|done].
    destruct Hplatform as [|Hsup]; [done|].
    unfold probe_vmware. by rewrite Hsup. }
  unfold _get_data. run_monad. rewrite Hprobe.
  unfold load, load_transports, try_transports. cbn [initial_locals
    vmwareImcConfigFilePath md_path nonempty andb]. run_monad.
  rewrite Hguestinfo. cbn [events self marker_dir]. rewrite Hiso.
  cbn [events self marker_dir]. unfold finish.
  cbn [found initial_locals length bool_decide]. rewrite bool_decide_eq_true_2 by done.
  run_monad. by rewrite <- !app_assoc.
Qed.

Lemma _get_data_no_data_witness :
  _get_data 0 seeded_env initial_world
  = Some (Ok false,
          {| self := self initial_world; marker_dir := marker_dir initial_world;
             events := events initial_world
                       ++ [Transport "com.vmware.guestInfo"; Transport "iso"] |}).
Proof.
  apply (_get_data_no_data 0 seeded_env initial_world);
    [reflexivity | left; reflexivity | reflexivity | reflexivity].
Defined.

(** An OVF environment file in the seed directory does not keep
    [_get_data] from the transports: when the guest-RPC channel holds an
    environment too, its metadata, user data and configuration replace the
    ones of the seed file, it becomes the environment of the data source,
    and both sources are listed as found. *)
Theorem gather_seed_then_transport (fuel : nat) (env : Env) (w : World)
    (seedfile contents guestinfo : string) (seed_data data : dict * pyval * dict) :
  get_ovf_env env (paths_seed_dir env) = Some (seedfile, contents) →
  read_ovf_environment env contents false = Ok seed_data →
  transport_vmware_guestinfo env = Some guestinfo →
  guestinfo ≠ "" →
  read_ovf_environment env guestinfo true = Ok data →
  ∃ l' w',
    gather fuel env w = Some (Ok l', w')
    ∧ found l' = [path_join (paths_seed_dir env) seedfile; "com.vmware.guestInfo"]
    ∧ (md l', ud l', cfg_ l') = data
    ∧ environment (self w') = Some guestinfo
    ∧ events w' = events w ++ [Transport "com.vmware.guestInfo"].
Proof.
  intros Hseed Hread Hguestinfo Hne Hdata.
  destruct seed_data as [[md0 ud0] cfg0], data as [[md1 ud1] cfg1].
  unfold gather, probe. rewrite Hseed. run_monad. rewrite Hread.
  cbn [self marker_dir events].
  unfold load, load_transports, try_transports.
  cbn [vmwareImcConfigFilePath md_path nonempty andb]. run_monad.
  assert (nonempty (Some guestinfo) = true) as Hn.
  { simpl. by destruct (String.eqb_spec guestinfo ""). }
  rewrite Hguestinfo, Hn. cbn [self marker_dir events]. rewrite Hn.
  change (default "" (Some guestinfo)) with guestinfo.
  rewrite Hdata. cbn [self marker_dir events].
  destruct (match dict_get md1 "network-config" with
            | Some n => truthy n
            | None => false
            end); do 2 eexists; (split; [done|]); by cbn.
Qed.

Lemma gather_seed_then_transport_witness :
  ∃ l' w',
    gather 0 seed_and_guestinfo_env initial_world = Some (Ok l', w')
    ∧ found l' = [path_join (paths_seed_dir seed_and_guestinfo_env) "ovf-env.xml";
                  "com.vmware.guestInfo"]
    ∧ (md l', ud l', cfg_ l')
      = ([("local-hostname", PyStr "host1");
          ("public-keys", PyStr "ssh-rsa AAAA one,ssh-rsa BBBB two")],
         PyBytes "#!/bin/sh", [("password", PyStr "s3cret")])
    ∧ environment (self w') = Some "<guestinfo/>"
    ∧ events w' = events initial_world ++ [Transport "com.vmware.guestInfo"].
Proof.
  apply (gather_seed_then_transport 0 seed_and_guestinfo_env initial_world
           "ovf-env.xml" "<seed/>" "<guestinfo/>"
           ([("instance-id", PyStr "iid-1"); ("local-hostname", PyStr "host1")],
            PyNone, []));
    [reflexivity | reflexivity | reflexivity | done | reflexivity].
Defined.
